(** * Session memory of the EDA agent: [src/memory/enhanced_memory.py]

    A shallow embedding of [EnhancedSessionMemory] and of the Python
    built-ins it relies on, followed by the properties of the history,
    the extractors, the aggregators, the relevance ranker and the two
    report generators. *)

From Stdlib Require Import String Ascii DecimalString.
From Stdlib Require Import List ZArith NArith Lia Bool Permutation Sorted.
Import ListNotations.

Local Open Scope N_scope.

(** ** Python [str]: a sequence of Unicode code points *)

Module PyStr.

Definition str := list N.

(** String literals of this file are UTF-8 in the source text; [py]
    decodes them into code points, so that [len] and indexing count
    characters as Python does. *)
Fixpoint utf8_decode (acc : N) (need : nat) (bs : list N) : str :=
  match bs with
  | [] => []
  | b :: t =>
      match need with
      | S k =>
          let acc' := acc * 64 + N.land b 0x3F in
          match k with
          | O => acc' :: utf8_decode 0 0 t
          | S _ => utf8_decode acc' k t
          end
      | O =>
          if b <? 0x80 then b :: utf8_decode 0 0 t
          else if b <? 0xE0 then utf8_decode (N.land b 0x1F) 1 t
          else if b <? 0xF0 then utf8_decode (N.land b 0x0F) 2 t
          else utf8_decode (N.land b 0x07) 3 t
      end
  end.

Definition py (s : string) : str :=
  utf8_decode 0 0 (map (fun b => N_of_ascii (ascii_of_byte b)) (list_byte_of_string s)).

Fixpoint str_eqb (a b : str) : bool :=
  match a, b with
  | [], [] => true
  | x :: a', y :: b' => (x =? y) && str_eqb a' b'
  | _, _ => false
  end.

(** [s.startswith(p)] *)
Fixpoint startswith (s p : str) {struct p} : bool :=
  match p with
  | [] => true
  | y :: p' =>
      match s with
      | [] => false
      | x :: s' => (x =? y) && startswith s' p'
      end
  end.

(** [needle in hay] *)
Fixpoint contains (needle hay : str) : bool :=
  startswith hay needle
  || match hay with
     | [] => false
     | _ :: t => contains needle t
     end.

(** [any(w in hay for w in words)] *)
Definition contains_any (words : list str) (hay : str) : bool :=
  existsb (fun w => contains w hay) words.

(** The code points for which [str.isspace] holds (CPython's
    [_PyUnicode_IsWhitespace]); [strip()] and [split()] use them. *)
Definition isspace (c : N) : bool :=
  ((0x09 <=? c) && (c <=? 0x0D)) || ((0x1C <=? c) && (c <=? 0x20))
  || (c =? 0x85) || (c =? 0xA0) || (c =? 0x1680)
  || ((0x2000 <=? c) && (c <=? 0x200A))
  || (c =? 0x2028) || (c =? 0x2029) || (c =? 0x202F) || (c =? 0x205F)
  || (c =? 0x3000).

Fixpoint lstrip (s : str) : str :=
  match s with
  | [] => []
  | c :: t => if isspace c then lstrip t else s
  end.

Definition rstrip (s : str) : str := rev (lstrip (rev s)).

(** [s.strip()] *)
Definition strip (s : str) : str := rstrip (lstrip s).

(** [s.split(sep)] for a non-empty separator, scanning left to right
    without overlap.  [skip] counts the code points of a separator just
    matched that are still to be passed over; [cur] is the field being
    read, reversed.  (Python raises [ValueError] on an empty separator;
    every call site passes a non-empty literal.) *)
Fixpoint split_from (sep : str) (skip : nat) (cur : str) (s : str) : list str :=
  match s with
  | [] => [rev cur]
  | c :: t =>
      match skip with
      | S k => split_from sep k cur t
      | O =>
          if startswith s sep
          then rev cur :: split_from sep (length sep - 1) [] t
          else split_from sep 0 (c :: cur) t
      end
  end.

Definition split (sep s : str) : list str := split_from sep 0 [] s.

(** [s.split()]: fields separated by runs of whitespace, none empty. *)
Fixpoint split_ws_from (cur : str) (s : str) : list str :=
  match s with
  | [] => match cur with [] => [] | _ => [rev cur] end
  | c :: t =>
      if isspace c
      then match cur with
           | [] => split_ws_from [] t
           | _ => rev cur :: split_ws_from [] t
           end
      else split_ws_from (c :: cur) t
  end.

Definition split_ws (s : str) : list str := split_ws_from [] s.

(** [sep.join(parts)] *)
Fixpoint join (sep : str) (parts : list str) : str :=
  match parts with
  | [] => []
  | [p] => p
  | p :: rest => p ++ sep ++ join sep rest
  end.

(** [s.replace(old, new)] for a non-empty [old]. *)
Definition replace (old new s : str) : str := join new (split old s).

(** The decimal rendering of an integer inside an f-string. *)
Definition str_of_int (z : Z) : str :=
  map (fun a => N_of_ascii a) (list_ascii_of_string (NilZero.string_of_int (Z.to_int z))).

End PyStr.
Import PyStr.


(** ** What the interpreter supplies

    [str.lower] and [str.title] follow the Unicode character database
    and the iteration order of a [set] of strings follows their hashes;
    neither is part of the repository.  The lowercase mapping of the
    Latin-1 range is written out below; above it, the expansion of a
    code point (which may depend on its context, as for capital sigma)
    is taken from the environment, as are [title] and the order in which
    a set built from a list of strings is iterated. *)

Class PyEnv := {
  lower_ext : str -> N -> str -> str;
  title : str -> str;
  set_iter : list str -> list str;
  set_iter_NoDup : forall l, NoDup (set_iter l);
  set_iter_In : forall l x, In x (set_iter l) <-> In x l
}.

Definition lower_latin1 (c : N) : N :=
  if ((0x41 <=? c) && (c <=? 0x5A))
     || ((0xC0 <=? c) && (c <=? 0xDE) && negb (c =? 0xD7))
  then c + 0x20 else c.

(** [s.lower()]: code point by code point; [before] is the text already
    passed, reversed. *)
Fixpoint lower_from `{PyEnv} (before : str) (s : str) : str :=
  match s with
  | [] => []
  | c :: t =>
      (if c <? 0x100 then [lower_latin1 c] else lower_ext before c t)
      ++ lower_from (c :: before) t
  end.

Definition lower `{PyEnv} (s : str) : str := lower_from [] s.

(** ** Python [dict]: insertion-ordered *)

Definition dict (V : Type) := list (str * V).

Fixpoint dict_get {V} (k : str) (d : dict V) : option V :=
  match d with
  | [] => None
  | (k', v) :: t => if str_eqb k' k then Some v else dict_get k t
  end.

(** [k in d] *)
Definition dict_mem {V} (k : str) (d : dict V) : bool :=
  match dict_get k d with Some _ => true | None => false end.

(** [d[k] = v]: an existing key keeps its place, a new one goes last. *)
Fixpoint dict_set {V} (k : str) (v : V) (d : dict V) : dict V :=
  match d with
  | [] => [(k, v)]
  | (k', v') :: t =>
      if str_eqb k' k then (k', v) :: t else (k', v') :: dict_set k v t
  end.

(** In-place change of the value stored under [k] ([d[k][...] = ...]). *)
Definition dict_update {V} (k : str) (f : V -> V) (d : dict V) : dict V :=
  match dict_get k d with
  | Some v => dict_set k (f v) d
  | None => d
  end.

Definition dict_keys {V} (d : dict V) : list str := map fst d.

(** [l[:n]] *)
Definition slice_to {A} (n : Z) (l : list A) : list A :=
  if (0 <=? n)%Z then firstn (Z.to_nat n) l
  else firstn (length l - Z.to_nat (- n)) l.

(** [l.sort(key=key, reverse=True)]: stable, so elements with equal keys
    keep their order. *)
Fixpoint insert_desc {A} (key : A -> Z) (x : A) (l : list A) : list A :=
  match l with
  | [] => [x]
  | y :: t => if (key x <? key y)%Z then y :: insert_desc key x t else x :: l
  end.

Fixpoint sort_desc {A} (key : A -> Z) (l : list A) : list A :=
  match l with
  | [] => []
  | x :: t => insert_desc key x (sort_desc key t)
  end.

(** [collections.deque(maxlen=maxlen).append(e)] *)
Definition deque_append {A} (maxlen : Z) (h : list A) (e : A) : list A :=
  let h' := h ++ [e] in
  if (Z.of_nat (length h') >? maxlen)%Z then tl h' else h'.

(** ** The data model *)

Record AnalysisMemory := {
  timestamp : str;
  question : str;
  analysis_type : str;
  key_findings : list str;
  visualizations : list str;
  data_patterns : dict bool;
  recommendations : list str
}.

(** The result bundle handed to [add_analysis]: the keys it reads.
    [None] is an absent key; of ['plots'] only the names are used. *)
Record AnalysisResult := {
  analysis : option str;
  plots : option (list str)
}.

(** A bucket of [data_insights]. *)
Record Insight := {
  insight_count : Z;
  insight_patterns : dict bool;
  last_analysis : option str;
  insight_key_findings : list str
}.

(** An entry of [global_patterns]. *)
Record PatternStat := {
  count : Z;
  analyses : list str
}.

Record EnhancedSessionMemory := {
  max_interactions : Z;
  analysis_history : list AnalysisMemory;
  data_insights : dict Insight;
  conversation_summary : str;
  global_patterns : dict PatternStat
}.

(** [deque(maxlen=...)] raises [ValueError] on a negative bound. *)
Definition __init__ (max_interactions : Z) : option EnhancedSessionMemory :=
  if (max_interactions <? 0)%Z then None
  else Some {| max_interactions := max_interactions;
               analysis_history := [];
               data_insights := [];
               conversation_summary := [];
               global_patterns := [] |}.

Definition nl : str := [0x0A].

(** [analysis_result.get('analysis', '')] *)
Definition get_analysis (r : AnalysisResult) : str :=
  match analysis r with Some t => t | None => [] end.

(** [list(analysis_result.get('plots', {}).keys())] *)
Definition get_plot_names (r : AnalysisResult) : list str :=
  match plots r with Some ks => ks | None => [] end.

(** ** The operations of [EnhancedSessionMemory] *)

Section Operations.
Context `{PyEnv}.

Definition discovery_keywords : list str :=
  [py "encontrado"; py "identificado"; py "detectado"; py "observado"].

Definition _extract_key_findings (analysis_result : AnalysisResult) : list str :=
  let analysis_text := get_analysis analysis_result in
  let lines := split nl analysis_text in
  let findings :=
    fold_left
      (fun findings line =>
         let stripped := strip line in
         if startswith stripped (py "-") || startswith stripped (py "•")
         then findings ++ [stripped]
         else if existsb (fun keyword => contains keyword (lower line))
                         discovery_keywords
              then findings ++ [stripped]
              else findings)
      lines [] in
  firstn 10 findings.

Definition _extract_patterns (analysis_result : AnalysisResult) : dict bool :=
  let patterns : dict bool := [] in
  let analysis_text := lower (get_analysis analysis_result) in
  let patterns :=
    if contains (py "correlação") analysis_text
       || contains (py "correlation") analysis_text
    then
      let patterns := dict_set (py "has_correlations") true patterns in
      if contains (py "forte") analysis_text
         || contains (py "strong") analysis_text
      then dict_set (py "strong_correlations") true patterns
      else patterns
    else patterns in
  let patterns :=
    if contains (py "outlier") analysis_text
       || contains (py "atípico") analysis_text
    then
      let patterns := dict_set (py "has_outliers") true patterns in
      if contains_any [py "alta porcentagem"; py "high percentage";
                       py "muitos outliers"] analysis_text
      then dict_set (py "many_outliers") true patterns
      else patterns
    else patterns in
  let patterns :=
    if contains (py "assimétrica") analysis_text
       || contains (py "asymmetric") analysis_text
       || contains (py "skew") analysis_text
    then dict_set (py "asymmetric_distributions") true patterns
    else patterns in
  let patterns :=
    if contains (py "cluster") analysis_text
       || contains (py "agrupamento") analysis_text
    then dict_set (py "has_clusters") true patterns
    else patterns in
  let patterns :=
    if contains (py "tendência") analysis_text
       || contains (py "trend") analysis_text
       || contains (py "padrão temporal") analysis_text
    then dict_set (py "has_temporal_patterns") true patterns
    else patterns in
  patterns.

(** [None] stands for the [IndexError] that [split(...)[1]] would raise
    on a one-element list. *)
Definition _extract_recommendations (analysis_result : AnalysisResult)
  : option (list str) :=
  let recommendations : list str := [] in
  let analysis_text := get_analysis analysis_result in
  if contains (py "recomenda") (lower analysis_text)
     || contains (py "consider") (lower analysis_text)
  then
    match
      (if contains (py "ecomenda") analysis_text
       then nth_error
              (split (if contains (py "Recomendações") analysis_text
                      then py "Recomendações" else py "ecomenda")
                     analysis_text) 1
       else Some analysis_text)
    with
    | None => None
    | Some rec_section =>
        let lines := split nl rec_section in
        let recommendations :=
          fold_left
            (fun recommendations line =>
               if startswith (strip line) (py "-")
               then recommendations ++ [strip line]
               else recommendations)
            lines recommendations in
        Some (firstn 5 recommendations)
    end
  else Some (firstn 5 recommendations).

Definition _update_insights (memory_entry : AnalysisMemory)
  (data_insights : dict Insight) : dict Insight :=
  let analysis_type := analysis_type memory_entry in
  let data_insights :=
    if negb (dict_mem analysis_type data_insights)
    then dict_set analysis_type
           {| insight_count := 0; insight_patterns := [];
              last_analysis := None; insight_key_findings := [] |}
           data_insights
    else data_insights in
  let data_insights :=
    dict_update analysis_type
      (fun b => {| insight_count := (insight_count b + 1)%Z;
                   insight_patterns := insight_patterns b;
                   last_analysis := last_analysis b;
                   insight_key_findings := insight_key_findings b |})
      data_insights in
  let data_insights :=
    dict_update analysis_type
      (fun b => {| insight_count := insight_count b;
                   insight_patterns := insight_patterns b;
                   last_analysis := Some (timestamp memory_entry);
                   insight_key_findings := insight_key_findings b |})
      data_insights in
  let data_insights :=
    dict_update analysis_type
      (fun b => {| insight_count := insight_count b;
                   insight_patterns := insight_patterns b;
                   last_analysis := last_analysis b;
                   insight_key_findings :=
                     insight_key_findings b
                     ++ firstn 3 (key_findings memory_entry) |})
      data_insights in
  fold_left
    (fun data_insights '(pattern, value) =>
       dict_update analysis_type
         (fun b => {| insight_count := insight_count b;
                      insight_patterns :=
                        dict_set pattern value (insight_patterns b);
                      last_analysis := last_analysis b;
                      insight_key_findings := insight_key_findings b |})
         data_insights)
    (data_patterns memory_entry) data_insights.

(** One turn of the loop of [_update_global_patterns]. *)
Definition count_pattern (analysis_type pattern : str)
  (global_patterns : dict PatternStat) : dict PatternStat :=
  let global_patterns :=
    if negb (dict_mem pattern global_patterns)
    then dict_set pattern {| count := 0; analyses := [] |} global_patterns
    else global_patterns in
  let global_patterns :=
    dict_update pattern
      (fun p => {| count := (count p + 1)%Z; analyses := analyses p |})
      global_patterns in
  dict_update pattern
    (fun p => {| count := count p;
                 analyses := analyses p ++ [analysis_type] |})
    global_patterns.

Definition _update_global_patterns (memory_entry : AnalysisMemory)
  (global_patterns : dict PatternStat) : dict PatternStat :=
  fold_left
    (fun global_patterns '(pattern, _) =>
       count_pattern (analysis_type memory_entry) pattern global_patterns)
    (data_patterns memory_entry) global_patterns.

(** The entry [add_analysis] builds; [now] is what
    [datetime.now().isoformat()] returns at the call. *)
Definition memory_entry_of (now question : str)
  (analysis_result : AnalysisResult) (analysis_type : str)
  : option AnalysisMemory :=
  match _extract_recommendations analysis_result with
  | None => None
  | Some recs =>
      Some {| timestamp := now;
              question := question;
              analysis_type := analysis_type;
              key_findings := _extract_key_findings analysis_result;
              visualizations := get_plot_names analysis_result;
              data_patterns := _extract_patterns analysis_result;
              recommendations := recs |}
  end.

(** The three statements that follow the construction of the entry. *)
Definition store_entry (memory_entry : AnalysisMemory)
  (self : EnhancedSessionMemory) : EnhancedSessionMemory :=
  {| max_interactions := max_interactions self;
     analysis_history :=
       deque_append (max_interactions self) (analysis_history self)
                    memory_entry;
     data_insights := _update_insights memory_entry (data_insights self);
     conversation_summary := conversation_summary self;
     global_patterns :=
       _update_global_patterns memory_entry (global_patterns self) |}.

Definition add_analysis (now question : str)
  (analysis_result : AnalysisResult) (analysis_type : str)
  (self : EnhancedSessionMemory) : option EnhancedSessionMemory :=
  match memory_entry_of now question analysis_result analysis_type with
  | None => None
  | Some memory_entry => Some (store_entry memory_entry self)
  end.

Definition clear (self : EnhancedSessionMemory) : EnhancedSessionMemory :=
  {| max_interactions := max_interactions self;
     analysis_history := [];
     data_insights := [];
     conversation_summary := [];
     global_patterns := [] |}.

(** *** The relevance ranker *)

Definition type_keywords : dict (list str) :=
  [ (py "correlation",
      [py "correlação"; py "relação"; py "correlation"; py "relaciona"]);
    (py "outlier", [py "outlier"; py "anomalia"; py "atípico"]);
    (py "distribution",
      [py "distribuição"; py "histograma"; py "distribution"]);
    (py "clustering", [py "cluster"; py "agrupamento"; py "grupo"]);
    (py "temporal", [py "tempo"; py "temporal"; py "time"; py "trend"]);
    (py "conclusions", [py "conclus"; py "aprend"; py "insights"]) ].

(** The body of the loop over the history: the score of one entry. *)
Definition relevance_score (question_lower : str) (entry : AnalysisMemory) : Z :=
  let relevance_score := 0%Z in
  let relevance_score :=
    if existsb (fun word => contains word (lower (question entry)))
               (filter (fun word => (3 <? length word)%nat)
                       (split_ws question_lower))
    then (relevance_score + 2)%Z else relevance_score in
  match
    find (fun '(atype, keywords) =>
            contains_any keywords question_lower
            && str_eqb (analysis_type entry) atype)
         type_keywords
  with
  | Some _ => (relevance_score + 3)%Z
  | None => relevance_score
  end.

Definition relevant_entries_of (question_lower : str)
  (history : list AnalysisMemory) : list (AnalysisMemory * Z) :=
  fold_left
    (fun relevant_entries entry =>
       let score := relevance_score question_lower entry in
       if (score >? 0)%Z then relevant_entries ++ [(entry, score)]
       else relevant_entries)
    (rev history) [].

Definition get_contextual_memory (question : str) (n : Z)
  (self : EnhancedSessionMemory) : list AnalysisMemory :=
  let question_lower := lower question in
  let relevant_entries :=
    relevant_entries_of question_lower (analysis_history self) in
  let relevant_entries := sort_desc snd relevant_entries in
  map fst (slice_to n relevant_entries).

(** *** The report generators *)

(** [type_counts[t] = type_counts.get(t, 0) + 1] over the history. *)
Definition count_types (history : list AnalysisMemory) : dict Z :=
  fold_left
    (fun type_counts entry =>
       dict_set (analysis_type entry)
         (match dict_get (analysis_type entry) type_counts with
          | Some c => c | None => 0%Z end + 1)%Z
         type_counts)
    history [].

Definition generate_summary (self : EnhancedSessionMemory) : str :=
  match analysis_history self with
  | [] => py "Nenhuma análise realizada ainda."
  | _ =>
      let summary_parts :=
        [py "## Resumo das Análises Realizadas" ++ nl;
         py "Total de análises: "
         ++ str_of_int (Z.of_nat (length (analysis_history self))) ++ nl] in
      let type_counts := count_types (analysis_history self) in
      let summary_parts := summary_parts ++ [nl ++ py "### Tipos de Análises:"] in
      let summary_parts :=
        summary_parts
        ++ map (fun '(analysis_type, count) =>
                  py "- " ++ analysis_type ++ py ": " ++ str_of_int count
                  ++ py " análises")
               type_counts in
      let summary_parts :=
        match global_patterns self with
        | [] => summary_parts
        | _ =>
            summary_parts ++ [nl ++ py "### Padrões Identificados:"]
            ++ map (fun '(pattern, data) =>
                      py "- " ++ pattern ++ py ": detectado em "
                      ++ str_of_int (count data) ++ py " análises")
                   (global_patterns self)
        end in
      join nl summary_parts
  end.

(** [self.global_patterns.get(k)] used as a condition: the stored value
    is a two-key dictionary, hence true whenever the key is present. *)
Definition tracked (k : str) (self : EnhancedSessionMemory) : bool :=
  dict_mem k (global_patterns self).

Definition header1 := py "## 1. Resumo das Análises Realizadas".
Definition header2 := py "## 2. Principais Padrões Identificados".
Definition header3 := py "## 3. Principais Descobertas por Tipo de Análise".
Definition header4 := py "## 4. Insights sobre Qualidade dos Dados".
Definition header5 := py "## 5. Relacionamentos entre Variáveis".
Definition header6 := py "## 6. Segmentação e Agrupamentos".
Definition header7 := py "## 7. Padrões Temporais".
Definition header8 := py "## 8. Recomendações Consolidadas".
Definition header9 := py "## 9. Próximos Passos Sugeridos".

Definition preamble (self : EnhancedSessionMemory) : list str :=
  [py "# Conclusões Consolidadas da Análise Exploratória de Dados" ++ nl;
   py "*Baseado em "
   ++ str_of_int (Z.of_nat (length (analysis_history self)))
   ++ py " análises realizadas*" ++ nl].

Definition section1 (self : EnhancedSessionMemory) : list str :=
  [header1]
  ++ map (fun '(atype, count) =>
            py "- **" ++ atype ++ py "**: " ++ str_of_int count
            ++ py " análise(s)")
         (count_types (analysis_history self))
  ++ [[]].

Definition section2 (self : EnhancedSessionMemory) : list str :=
  [header2]
  ++ match global_patterns self with
     | [] => [py "- Nenhum padrão global identificado ainda"]
     | _ =>
         flat_map
           (fun '(pattern, data) =>
              let pattern_name := title (replace (py "_") (py " ") pattern) in
              [py "- **" ++ pattern_name ++ py "**: Identificado em "
               ++ str_of_int (count data) ++ py " análise(s)";
               py "  - Detectado em: "
               ++ join (py ", ") (set_iter (analyses data))])
           (global_patterns self)
     end
  ++ [[]].

Definition section3 (self : EnhancedSessionMemory) : list str :=
  [header3]
  ++ flat_map
       (fun '(atype, insights) =>
          match insight_key_findings insights with
          | [] => []
          | _ =>
              [nl ++ py "### " ++ title atype ++ py ":"]
              ++ map (fun finding => py "  " ++ finding)
                     (firstn 5 (set_iter (insight_key_findings insights)))
          end)
       (data_insights self)
  ++ [[]].

Definition section4 (self : EnhancedSessionMemory) : list str :=
  let quality_issues :=
    (if tracked (py "has_outliers") self
     then [py "- Outliers detectados: Podem indicar problemas de qualidade ou valores genuinamente extremos"]
     else [])
    ++ (if tracked (py "many_outliers") self
        then [py "- Alta concentração de outliers: Requer investigação aprofundada"]
        else [])
    ++ (if tracked (py "asymmetric_distributions") self
        then [py "- Distribuições assimétricas: Considere transformações para normalização"]
        else []) in
  [header4]
  ++ match quality_issues with
     | [] => [py "- Dados aparentam boa qualidade geral"]
     | _ => quality_issues
     end
  ++ [[]].

Definition section5 (self : EnhancedSessionMemory) : list str :=
  [header5]
  ++ (if tracked (py "has_correlations") self
      then
        [py "- Correlações significativas foram identificadas entre variáveis"]
        ++ (if tracked (py "strong_correlations") self
            then [py "- Algumas correlações são particularmente fortes";
                  py "- **Recomendação**: Considere análise de multicolinearidade para modelagem"]
            else [])
      else [py "- Variáveis aparentam ser relativamente independentes"])
  ++ [[]].

Definition section6 (self : EnhancedSessionMemory) : list str :=
  if tracked (py "has_clusters") self
  then [header6;
        py "- Clusters distintos foram identificados nos dados";
        py "- **Oportunidade**: Use segmentação para análises direcionadas";
        []]
  else [].

Definition section7 (self : EnhancedSessionMemory) : list str :=
  if tracked (py "has_temporal_patterns") self
  then [header7;
        py "- Tendências temporais foram identificadas";
        py "- **Recomendação**: Considere análise de séries temporais";
        []]
  else [].

Definition section8 (self : EnhancedSessionMemory) : list str :=
  let all_recommendations :=
    fold_left (fun all_recommendations entry =>
                 all_recommendations ++ recommendations entry)
              (analysis_history self) [] in
  let unique_recommendations := firstn 8 (set_iter all_recommendations) in
  [header8]
  ++ match unique_recommendations with
     | [] => [py "- Continue explorando os dados com análises mais específicas"]
     | _ => unique_recommendations
     end
  ++ [[]].

Definition type_descriptions : dict str :=
  [ (py "correlation", py "Análise de correlações para entender relacionamentos");
    (py "outlier", py "Detecção de outliers para identificar anomalias");
    (py "distribution", py "Análise de distribuições para entender padrões");
    (py "clustering", py "Clustering para identificar segmentos");
    (py "temporal", py "Análise temporal para identificar tendências");
    (py "summary", py "Resumo geral dos dados") ].

Definition all_types : list str :=
  [py "correlation"; py "outlier"; py "distribution"; py "clustering";
   py "temporal"; py "summary"].

Definition section9 (self : EnhancedSessionMemory) : list str :=
  let performed_types := dict_keys (count_types (analysis_history self)) in
  let missing_types :=
    filter (fun t => negb (existsb (str_eqb t) performed_types)) all_types in
  [header9]
  ++ match missing_types with
     | [] => []
     | _ =>
         [py "### Análises Recomendadas:"]
         ++ flat_map
              (fun mtype =>
                 match dict_get mtype type_descriptions with
                 | Some d => [py "- " ++ d]
                 | None => []
                 end)
              (set_iter missing_types)
     end
  ++ [nl ++ py "### Ações Gerais:";
      py "- Validar descobertas com stakeholders";
      py "- Documentar insights para referência futura";
      py "- Considerar análises preditivas se apropriado"].

(** The list [conclusions] as it stands before the final [join]. *)
Definition conclusions_of (self : EnhancedSessionMemory) : list str :=
  preamble self ++ section1 self ++ section2 self ++ section3 self
  ++ section4 self ++ section5 self ++ section6 self ++ section7 self
  ++ section8 self ++ section9 self.

Definition generate_comprehensive_conclusions (self : EnhancedSessionMemory)
  : str :=
  match analysis_history self with
  | [] => py "Nenhuma análise foi realizada ainda. Por favor, faça algumas análises primeiro."
  | _ => join nl (conclusions_of self)
  end.

(** *** Sessions as runs of calls *)

Inductive call :=
| AddAnalysis (now question : str) (analysis_result : AnalysisResult)
              (analysis_type : str)
| Clear.

Definition step (c : call) (self : EnhancedSessionMemory)
  : option EnhancedSessionMemory :=
  match c with
  | AddAnalysis now q r t => add_analysis now q r t self
  | Clear => Some (clear self)
  end.

Fixpoint run (cs : list call) (self : EnhancedSessionMemory)
  : option EnhancedSessionMemory :=
  match cs with
  | [] => Some self
  | c :: rest =>
      match step c self with
      | Some self' => run rest self'
      | None => None
      end
  end.

(** The states a caller can bring a session into. *)
Definition reachable (self : EnhancedSessionMemory) : Prop :=
  exists capacity cs s0,
    __init__ capacity = Some s0 /\ run cs s0 = Some self.

(** A fresh session of the given capacity taken through the calls. *)
Definition session_after (capacity : Z) (cs : list call)
  : option EnhancedSessionMemory :=
  match __init__ capacity with
  | Some s0 => run cs s0
  | None => None
  end.

(** [c] is a call of [add_analysis] and [e] is the entry it builds. *)
Definition builds (c : call) (e : AnalysisMemory) : Prop :=
  match c with
  | AddAnalysis now q r t => memory_entry_of now q r t = Some e
  | Clear => False
  end.

End Operations.

(** ** A concrete environment

    An interpreter whose character database stops at Latin-1 and whose
    sets iterate in order of first insertion.  It agrees with CPython on
    Latin-1 text and serves to run the model on concrete sessions. *)

Definition str_eq_dec : forall a b : str, {a = b} + {a <> b} :=
  list_eq_dec N.eq_dec.

Definition cased_latin1 (c : N) : bool :=
  ((0x41 <=? c) && (c <=? 0x5A)) || ((0x61 <=? c) && (c <=? 0x7A))
  || (c =? 0xAA) || (c =? 0xB5) || (c =? 0xBA)
  || ((0xC0 <=? c) && (c <=? 0xFF) && negb (c =? 0xD7) && negb (c =? 0xF7)).

Definition title_latin1 (c : N) : str :=
  if ((0x61 <=? c) && (c <=? 0x7A))
     || ((0xE0 <=? c) && (c <=? 0xFE) && negb (c =? 0xF7))
  then [c - 0x20]
  else if c =? 0xB5 then [0x39C]
  else if c =? 0xDF then [0x53; 0x73]
  else if c =? 0xFF then [0x178]
  else [c].

Fixpoint title_from (previous_is_cased : bool) (s : str) : str :=
  match s with
  | [] => []
  | c :: t =>
      (if previous_is_cased then [lower_latin1 c] else title_latin1 c)
      ++ title_from (cased_latin1 c) t
  end.

Definition latin1_env : PyEnv :=
  {| lower_ext := fun _ c _ => [c];
     title := title_from false;
     set_iter := nodup str_eq_dec;
     set_iter_NoDup := fun l => NoDup_nodup str_eq_dec l;
     set_iter_In := fun l x => nodup_In str_eq_dec l x |}.

(** *** Concrete calls *)

Definition stamp : str := py "2024-05-01T10:00:00".

Definition strong_text : AnalysisResult :=
  {| analysis := Some (py "Foi identificada uma correlação forte entre idade e renda.");
     plots := Some [py "heatmap"] |}.

Definition strong_outlier_text : AnalysisResult :=
  {| analysis := Some (py "Há correlação forte, mas com outliers na renda.");
     plots := None |}.

Definition plain_text : AnalysisResult :=
  {| analysis := Some (py "O conjunto tem 100 linhas e 5 colunas.");
     plots := None |}.

Definition findings_text : AnalysisResult :=
  {| analysis := Some (py "Resumo" ++ nl ++ py "  - media alta" ++ nl
                       ++ py "Foi Detectado um desvio" ++ nl ++ py "fim");
     plots := None |}.

Definition correlation_question : str :=
  py "Existe correlação entre as variáveis?".

Definition correlation_call : call :=
  AddAnalysis stamp correlation_question strong_text (py "correlation").

Definition outlier_call : call :=
  AddAnalysis stamp correlation_question strong_text (py "outlier").

Definition summary_call : call :=
  AddAnalysis stamp (py "Resuma os dados") plain_text (py "summary").

(** The entry a call builds in the concrete environment. *)
Definition built (now q : str) (r : AnalysisResult) (t : str) (recs : list str)
  : AnalysisMemory :=
  {| timestamp := now;
     question := q;
     analysis_type := t;
     key_findings := @_extract_key_findings latin1_env r;
     visualizations := get_plot_names r;
     data_patterns := @_extract_patterns latin1_env r;
     recommendations := recs |}.

Definition fresh (capacity : Z) : EnhancedSessionMemory :=
  {| max_interactions := capacity; analysis_history := [];
     data_insights := []; conversation_summary := [];
     global_patterns := [] |}.

(** The sessions that one or two of the calls above leave behind. *)
Definition correlation_entry : AnalysisMemory :=
  built stamp correlation_question strong_text (py "correlation") [].

Definition outlier_entry : AnalysisMemory :=
  built stamp correlation_question strong_text (py "outlier") [].

Definition summary_entry : AnalysisMemory :=
  built stamp (py "Resuma os dados") plain_text (py "summary") [].

Definition one_summary : EnhancedSessionMemory :=
  store_entry summary_entry (fresh 100).

Definition one_correlation : EnhancedSessionMemory :=
  store_entry correlation_entry (fresh 100).

Definition two_types : EnhancedSessionMemory :=
  store_entry outlier_entry (store_entry correlation_entry (fresh 100)).

(** An analysis that mentions clusters and a trend. *)
Definition cluster_text : AnalysisResult :=
  {| analysis := Some (py "Há três clusters de clientes e uma tendência de alta.");
     plots := None |}.

Definition cluster_call : call :=
  AddAnalysis stamp (py "Agrupe os clientes") cluster_text (py "clustering").

Definition cluster_entry : AnalysisMemory :=
  built stamp (py "Agrupe os clientes") cluster_text (py "clustering") [].

Definition one_cluster : EnhancedSessionMemory :=
  store_entry cluster_entry (fresh 100).

(** ** Vocabulary of the specification

    The keyword families of the pattern extractor as the specification
    lists them: each key with its trigger on the lowercased text. *)

Definition pattern_vocabulary : list (str * (str -> bool)) :=
  [ (py "has_correlations",
      fun t => contains (py "correlação") t || contains (py "correlation") t);
    (py "strong_correlations",
      fun t => (contains (py "correlação") t || contains (py "correlation") t)
               && (contains (py "forte") t || contains (py "strong") t));
    (py "has_outliers",
      fun t => contains (py "outlier") t || contains (py "atípico") t);
    (py "many_outliers",
      fun t => (contains (py "outlier") t || contains (py "atípico") t)
               && contains_any [py "alta porcentagem"; py "high percentage";
                                py "muitos outliers"] t);
    (py "asymmetric_distributions",
      fun t => contains (py "assimétrica") t || contains (py "asymmetric") t
               || contains (py "skew") t);
    (py "has_clusters",
      fun t => contains (py "cluster") t || contains (py "agrupamento") t);
    (py "has_temporal_patterns",
      fun t => contains (py "tendência") t || contains (py "trend") t
               || contains (py "padrão temporal") t) ].

Definition triggered_keys (t : str) : list str :=
  map fst (filter (fun kt => snd kt t) pattern_vocabulary).

Definition recognized_keywords : list str :=
  [py "correlação"; py "correlation"; py "forte"; py "strong";
   py "outlier"; py "atípico"; py "alta porcentagem"; py "high percentage";
   py "muitos outliers"; py "assimétrica"; py "asymmetric"; py "skew";
   py "cluster"; py "agrupamento"; py "tendência"; py "trend";
   py "padrão temporal"].

(** Text that [lower] leaves as it is: Latin-1 with no capital letter. *)
Definition lowercase_latin1 (k : str) : bool :=
  forallb (fun c => (c <? 0x100) && (lower_latin1 c =? c)) k.

(** ** Auxiliary notions *)

(** What one counted occurrence does to an entry of [global_patterns]. *)
Definition bump (analysis_type : str) (p : PatternStat) : PatternStat :=
  {| count := (count p + 1)%Z; analyses := analyses p ++ [analysis_type] |}.

(** Every tracked pattern has as many recorded analysis types as its
    count says. *)
Definition counts_match (gp : dict PatternStat) : Prop :=
  Forall (fun kv => count (snd kv) = Z.of_nat (length (analyses (snd kv)))) gp.

(** The count recorded for an analysis type, 0 when it has no bucket. *)
Definition insight_count_of (t : str) (di : dict Insight) : Z :=
  match dict_get t di with Some b => insight_count b | None => 0%Z end.

(** The last [c] elements of a list. *)
Definition lastn {A} (c : nat) (l : list A) : list A :=
  skipn (length l - c) l.

(** The keywords of the families other than the correlation family that
    make the pattern extractor emit a key. *)
Definition other_family_keywords : list str :=
  [py "outlier"; py "atípico"; py "assimétrica"; py "asymmetric"; py "skew";
   py "cluster"; py "agrupamento"; py "tendência"; py "trend";
   py "padrão temporal"].

(** Descending by key, ties settled by [R0]. *)
Definition by_key_then {A} (key : A -> Z) (R0 : A -> A -> Prop) (x y : A) : Prop :=
  (key x > key y)%Z \/ (key x = key y /\ R0 x y).

(** The entries of a history with their positions: a later position is
    a more recent entry. *)
Definition indexed_from {A} (start : nat) (h : list A) : list (nat * A) :=
  combine (seq start (length h)) h.

Definition indexed {A} (h : list A) : list (nat * A) := indexed_from 0 h.

(** The ranker seen through positions: the entries of positive score,
    newest first, sorted by score and cut by the limit, each with its
    position in the history. *)
Definition ranking `{PyEnv} (question : str) (n : Z) (h : list AnalysisMemory)
  : list (nat * AnalysisMemory) :=
  slice_to n
    (sort_desc (fun p => relevance_score (lower question) (snd p))
       (filter (fun p => (relevance_score (lower question) (snd p) >? 0)%Z)
               (rev (indexed h)))).

(** The two signals of the relevance score. *)
Definition lexical_signal `{PyEnv} (question_lower : str) (entry : AnalysisMemory) : Z :=
  if existsb (fun word => contains word (lower (question entry)))
             (filter (fun word => (3 <? length word)%nat)
                     (split_ws question_lower))
  then 2%Z else 0%Z.

Definition type_signal (question_lower : str) (entry : AnalysisMemory) : Z :=
  match
    find (fun '(atype, keywords) =>
            contains_any keywords question_lower
            && str_eqb (analysis_type entry) atype)
         type_keywords
  with
  | Some _ => 3%Z
  | None => 0%Z
  end.

(** ** The agent: [src/agents/eda_agent.py]

    The parts of [EDAAgent] that read and write the session memory.  The
    language-model executor ([self.agent.invoke]) is a collaborator
    outside the repository: it is a parameter that, given the prompt,
    answers with a text and the names of the plots its tools stored, or
    raises. *)

Module EDAAgent.
Section Agent.
Context `{PyEnv}.

Definition insight_keywords : list str :=
  [py "insight:"; py "descoberta:"; py "padrão:"; py "encontrado:";
   py "identificado:"].

Definition _extract_insights (text : str) : list str :=
  let lines := split nl text in
  let insights :=
    fold_left
      (fun insights line =>
         if existsb (fun keyword => contains keyword (lower line))
                    insight_keywords
         then insights ++ [strip line]
         else insights)
      lines [] in
  firstn 5 insights.

(** One turn of the loop of [_extract_recommendations]; the state is the
    list collected so far and the flag [in_rec_section]. *)
Definition recommendation_step (state : list str * bool) (line : str)
  : list str * bool :=
  let '(recommendations, in_rec_section) := state in
  let in_rec_section :=
    if contains (py "recomenda") (lower line) then true else in_rec_section in
  if in_rec_section && startswith (strip line) (py "-")
  then (recommendations ++ [strip line], in_rec_section)
  else (recommendations, in_rec_section).

Definition _extract_recommendations (text : str) : list str :=
  let lines := split nl text in
  let recommendations := fst (fold_left recommendation_step lines ([], false)) in
  firstn 5 recommendations.

Definition _determine_analysis_type (question : str) : str :=
  let question_lower := lower question in
  if contains_any [py "conclus"; py "aprend"; py "resumo geral";
                   py "insights gerais"] question_lower
  then py "conclusions"
  else if contains_any [py "correlação"; py "relação"; py "correlation";
                        py "relaciona"] question_lower
  then py "correlation"
  else if contains_any [py "outlier"; py "anomalia"; py "atípico";
                        py "anomal"] question_lower
  then py "outlier"
  else if contains_any [py "cluster"; py "agrupamento"; py "grupo";
                        py "segmenta"] question_lower
  then py "clustering"
  else if contains_any [py "tempo"; py "temporal"; py "tendência";
                        py "time"; py "trend"] question_lower
  then py "temporal"
  else if contains_any [py "distribuição"; py "histograma";
                        py "distribution"; py "histogram"] question_lower
  then py "distribution"
  else if contains_any [py "tipo"; py "types"; py "describe"; py "resumo";
                        py "summary"] question_lower
  then py "summary"
  else py "general".

(** What [self.agent.invoke] does with a prompt. *)
Inductive invocation :=
| Answered (output : str) (plots : list str)
| Raised (error : str).

(** The dictionary [analyze] returns, by its keys; of the failure
    dictionary the traceback text ['error_details'] is left out. *)
Inductive reply :=
| Success (analysis : str) (plots : list str) (analysis_type : str)
          (memory_context : Z)
| Failure (error : str) (analysis : str).

(** The text [analyze] appends to the question. *)
Definition memory_context_of (relevant_memory : list AnalysisMemory) : str :=
  match relevant_memory with
  | [] => []
  | _ =>
      fold_left
        (fun context entry =>
           context ++ py "- " ++ question entry ++ py ": "
           ++ join (py ", ") (firstn 2 (key_findings entry)) ++ nl)
        relevant_memory
        (nl ++ nl ++ py "Contexto de análises anteriores:" ++ nl)
  end.

Definition enhanced_question_of (question : str)
  (memory : EnhancedSessionMemory) : str :=
  question ++ memory_context_of (get_contextual_memory question 3 memory).

(** [analyze]: the memory after the call and the dictionary returned.
    [now] is the clock reading taken by [add_analysis].  The ['insights']
    and ['recommendations'] of the bundle are computed and never read. *)
Definition analyze (invoke : str -> invocation) (now question : str)
  (memory : EnhancedSessionMemory) : EnhancedSessionMemory * reply :=
  let relevant_memory := get_contextual_memory question 3 memory in
  let enhanced_question := question ++ memory_context_of relevant_memory in
  match invoke enhanced_question with
  | Raised e => (memory, Failure e (py "Erro durante a análise: " ++ e))
  | Answered output plots =>
      let analysis_type := _determine_analysis_type question in
      let analysis_result := {| analysis := Some output; plots := Some plots |} in
      match add_analysis now question analysis_result analysis_type memory with
      | Some memory' =>
          (memory',
           Success output plots analysis_type
                   (Z.of_nat (length relevant_memory)))
      | None =>
          (memory,
           Failure (py "list index out of range")
                   (py "Erro durante a análise: list index out of range"))
      end
  end.

(** [clear_memory]: a new [EnhancedSessionMemory()] with the default
    bound replaces the old one. *)
Definition clear_memory : option EnhancedSessionMemory := __init__ 100.

(** *** The memory of an agent over its calls

    The calls on an [EDAAgent] that write its memory.  The executor of
    an [analyze] call is given with the call: what it answers may depend
    on anything, the memory it reads through its tools included. *)
Inductive agent_call :=
| Analyze (invoke : str -> invocation) (now question : str)
| ClearMemory.

Definition agent_step (c : agent_call) (memory : EnhancedSessionMemory)
  : option EnhancedSessionMemory :=
  match c with
  | Analyze invoke now question =>
      Some (fst (analyze invoke now question memory))
  | ClearMemory => clear_memory
  end.

Fixpoint agent_run (cs : list agent_call) (memory : EnhancedSessionMemory)
  : option EnhancedSessionMemory :=
  match cs with
  | [] => Some memory
  | c :: rest =>
      match agent_step c memory with
      | Some memory' => agent_run rest memory'
      | None => None
      end
  end.

(** [EDAAgent.__init__] sets [self.memory = EnhancedSessionMemory()]. *)
Definition agent_memory_after (cs : list agent_call)
  : option EnhancedSessionMemory :=
  match __init__ 100 with
  | Some memory => agent_run cs memory
  | None => None
  end.

End Agent.
End EDAAgent.

(** ** More auxiliary notions *)

(** The lines of the conclusions but for what the code of section 6 adds,
    and but for what the code of section 7 adds. *)
Definition without_section6 `{PyEnv} (self : EnhancedSessionMemory)
  : list str :=
  preamble self ++ section1 self ++ section2 self ++ section3 self
  ++ section4 self ++ section5 self ++ section7 self ++ section8 self
  ++ section9 self.

Definition without_section7 `{PyEnv} (self : EnhancedSessionMemory)
  : list str :=
  preamble self ++ section1 self ++ section2 self ++ section3 self
  ++ section4 self ++ section5 self ++ section6 self ++ section8 self
  ++ section9 self.

(** How many entries of a history carry the analysis type [t]. *)
Definition count_of_type (t : str) (h : list AnalysisMemory) : nat :=
  length (filter (fun e => str_eqb (analysis_type e) t) h).

(** What holds of every bucket of [data_insights]. *)
Definition bucket_ok (b : Insight) : Prop :=
  (1 <= insight_count b)%Z
  /\ last_analysis b <> None
  /\ (Z.of_nat (length (insight_key_findings b)) <= 3 * insight_count b)%Z
  /\ forall k, In k (dict_keys (insight_patterns b)) ->
               In k (map fst pattern_vocabulary).

(** What one stored entry does to its bucket of [data_insights]. *)
Definition absorb (e : AnalysisMemory) (b : Insight) : Insight :=
  {| insight_count := (insight_count b + 1)%Z;
     insight_patterns :=
       fold_left (fun ps '(pattern, value) => dict_set pattern value ps)
                 (data_patterns e) (insight_patterns b);
     last_analysis := Some (timestamp e);
     insight_key_findings :=
       insight_key_findings b ++ firstn 3 (key_findings e) |}.

Definition new_bucket : Insight :=
  {| insight_count := 0; insight_patterns := [];
     last_analysis := None; insight_key_findings := [] |}.

Definition buckets_ok (di : dict Insight) : Prop :=
  Forall (fun kv => bucket_ok (snd kv)) di.

(** Every analysis type recorded for a tracked pattern has a bucket. *)
Definition analyses_known (di : dict Insight) (gp : dict PatternStat) : Prop :=
  Forall (fun kv => forall t, In t (analyses (snd kv)) -> In t (dict_keys di)) gp.

(** All the keywords [_determine_analysis_type] looks for. *)
Definition classifier_keywords : list str :=
  [py "conclus"; py "aprend"; py "resumo geral"; py "insights gerais"]
  ++ [py "correlação"; py "relação"; py "correlation"; py "relaciona"]
  ++ [py "outlier"; py "anomalia"; py "atípico"; py "anomal"]
  ++ [py "cluster"; py "agrupamento"; py "grupo"; py "segmenta"]
  ++ [py "tempo"; py "temporal"; py "tendência"; py "time"; py "trend"]
  ++ [py "distribuição"; py "histograma"; py "distribution"; py "histogram"]
  ++ [py "tipo"; py "types"; py "describe"; py "resumo"; py "summary"].

(** The tags [_determine_analysis_type] can return. *)
Definition analysis_tags : list str :=
  [py "conclusions"; py "correlation"; py "outlier"; py "clustering";
   py "temporal"; py "distribution"; py "summary"; py "general"].

(** The lines from the first one that mentions "recomenda" on. *)
Fixpoint from_marker `{PyEnv} (lines : list str) : list str :=
  match lines with
  | [] => []
  | line :: rest =>
      if contains (py "recomenda") (lower line) then lines
      else from_marker rest
  end.

(** * Properties *)

(** ** Strings *)

Lemma str_eqb_eq (a b : str) : str_eqb a b = true <-> a = b.
Proof.
  revert b; induction a as [|x a IH]; intros [|y b]; simpl;
    try (split; [discriminate | discriminate]); try tauto.
  rewrite andb_true_iff, N.eqb_eq, IH.
  split; [intros [-> ->]; reflexivity | intros E; inversion E; auto].
Qed.

Lemma str_eqb_refl (a : str) : str_eqb a a = true.
Proof. apply str_eqb_eq; reflexivity. Qed.

Lemma str_eqb_neq (a b : str) : str_eqb a b = false <-> a <> b.
Proof.
  rewrite <- str_eqb_eq. destruct (str_eqb a b); split; congruence.
Qed.

Lemma startswith_spec (s p : str) :
  startswith s p = true <-> exists r, s = p ++ r.
Proof.
  revert s; induction p as [|y p IH]; intros s; simpl.
  - split; [intros _; exists s; reflexivity | reflexivity].
  - destruct s as [|x s].
    + split; [discriminate | intros [r E]; discriminate].
    + rewrite andb_true_iff, N.eqb_eq, IH. split.
      * intros [-> [r ->]]. exists r; reflexivity.
      * intros [r E]. inversion E; subst. split; [reflexivity | exists r; reflexivity].
Qed.

Lemma contains_spec (needle hay : str) :
  contains needle hay = true <-> exists a b, hay = a ++ needle ++ b.
Proof.
  induction hay as [|c hay IH].
  - simpl. rewrite orb_false_r, startswith_spec. split.
    + intros [r E]. exists [], r. exact E.
    + intros [a [b E]]. destruct a; [exists b; exact E | discriminate].
  - cbn [contains]. rewrite orb_true_iff, startswith_spec, IH. split.
    + intros [[r E] | [a [b E]]].
      * exists [], r. exact E.
      * exists (c :: a), b. rewrite E. reflexivity.
    + intros [[|x a] [b E]].
      * left. exists b. exact E.
      * right. inversion E. exists a, b. reflexivity.
Qed.

Lemma contains_app (needle a b : str) :
  contains needle (a ++ needle ++ b) = true.
Proof. apply contains_spec. exists a, b. reflexivity. Qed.

Lemma contains_trans (k needle hay : str) :
  contains k needle = true -> contains needle hay = true ->
  contains k hay = true.
Proof.
  rewrite !contains_spec. intros [a [b ->]] [a' [b' ->]].
  exists (a' ++ a), (b ++ b'). rewrite <- !app_assoc. reflexivity.
Qed.

Lemma contains_join (sep line : str) (parts : list str) :
  In line parts -> contains line (join sep parts) = true.
Proof.
  induction parts as [|p rest IH]; [intros []|].
  intros [-> | Hin]; apply contains_spec.
  - destruct rest as [|q rest].
    + exists [], []. simpl. rewrite app_nil_r. reflexivity.
    + exists [], (sep ++ join sep (q :: rest)). reflexivity.
  - destruct rest as [|q rest]; [destruct Hin|].
    apply IH, contains_spec in Hin. destruct Hin as [a [b E]].
    exists (p ++ sep ++ a), b.
    change (join sep (p :: q :: rest)) with (p ++ sep ++ join sep (q :: rest)).
    rewrite E, <- !app_assoc. reflexivity.
Qed.

(** A separator that occurs in the text yields at least two fields. *)
Lemma split_from_nonempty (sep : str) (skip : nat) (cur s : str) :
  (1 <= length (split_from sep skip cur s))%nat.
Proof.
  revert skip cur; induction s as [|c t IH]; intros skip cur;
    cbn [split_from]; [simpl; lia|].
  destruct skip; [|apply IH].
  destruct (startswith (c :: t) sep); [simpl; lia | apply IH].
Qed.

Lemma split_two_fields (sep s : str) :
  sep <> [] -> contains sep s = true ->
  forall cur, (2 <= length (split_from sep 0 cur s))%nat.
Proof.
  intros Hsep. induction s as [|c t IH]; intros Hc cur.
  - simpl in Hc. rewrite orb_false_r in Hc.
    destruct sep; [congruence | discriminate].
  - cbn [contains] in Hc. cbn [split_from].
    destruct (startswith (c :: t) sep).
    + pose proof (split_from_nonempty sep (length sep - 1) [] t).
      simpl. lia.
    + simpl in Hc. apply IH. exact Hc.
Qed.

(** ** Lowercasing *)

Section Lowercase.
Context `{PyEnv}.

Lemma lower_from_app (before x y : str) :
  exists x', lower_from before (x ++ y)
             = x' ++ lower_from (rev x ++ before) y.
Proof.
  revert before; induction x as [|c x IH]; intros before.
  - exists []. reflexivity.
  - destruct (IH (c :: before)) as [x' E].
    exists ((if c <? 0x100 then [lower_latin1 c]
             else lower_ext before c (x ++ y)) ++ x').
    cbn [app lower_from rev]. rewrite E, <- !app_assoc. reflexivity.
Qed.

Lemma lower_from_fixed (before k y : str) :
  lowercase_latin1 k = true ->
  lower_from before (k ++ y) = k ++ lower_from (rev k ++ before) y.
Proof.
  revert before; induction k as [|c k IH]; intros before Hk; [reflexivity|].
  cbn [lowercase_latin1 forallb] in Hk.
  apply andb_true_iff in Hk as [Hc Hk]. apply andb_true_iff in Hc as [Hlt Hfix].
  cbn [app lower_from rev]. rewrite Hlt, (IH _ Hk), <- !app_assoc.
  apply N.eqb_eq in Hfix. rewrite Hfix. reflexivity.
Qed.

(** A lowercase Latin-1 keyword found in a text is found in its
    lowercased form too. *)
Lemma contains_lower (k q : str) :
  lowercase_latin1 k = true -> contains k q = true ->
  contains k (lower q) = true.
Proof.
  intros Hk Hc. apply contains_spec in Hc as [a [b ->]].
  unfold lower. destruct (lower_from_app [] a (k ++ b)) as [a' ->].
  rewrite (lower_from_fixed _ _ _ Hk). apply contains_app.
Qed.

Lemma lower_nil : lower [] = [].
Proof. reflexivity. Qed.

End Lowercase.

(** ** The extractors *)

Section Extractors.
Context `{PyEnv}.

Lemma _extract_recommendations_total (r : AnalysisResult) :
  exists recs, _extract_recommendations r = Some recs.
Proof.
  unfold _extract_recommendations.
  destruct (_ || _); [|eexists; reflexivity].
  destruct (contains (py "ecomenda") (get_analysis r)) eqn:He;
    [|eexists; reflexivity].
  set (sep := if contains (py "Recomendações") (get_analysis r)
              then py "Recomendações" else py "ecomenda").
  assert (Hsep : sep <> [] /\ contains sep (get_analysis r) = true).
  { unfold sep.
    destruct (contains (py "Recomendações") (get_analysis r)) eqn:Hr;
      (split; [discriminate | assumption]). }
  destruct Hsep as [Hne Hin].
  pose proof (split_two_fields sep _ Hne Hin []) as Hlen.
  fold (split sep (get_analysis r)) in Hlen.
  destruct (nth_error (split sep (get_analysis r)) 1) eqn:En;
    [eexists; reflexivity|].
  apply nth_error_None in En. lia.
Qed.

Lemma _extract_recommendations_length (r : AnalysisResult) (recs : list str) :
  _extract_recommendations r = Some recs -> (length recs <= 5)%nat.
Proof.
  unfold _extract_recommendations.
  destruct (_ || _).
  - destruct (if contains (py "ecomenda") (get_analysis r) then _ else _);
      [|discriminate].
    set (l := fold_left _ _ _). intros E.
    assert (recs = firstn 5 l) as -> by congruence. apply firstn_le_length.
  - intros E. assert (recs = []) as -> by (simpl in E; congruence).
    simpl. lia.
Qed.

(** C9: the findings extractor returns at most 10 strings and the
    recommendations extractor returns, without raising, at most 5
    strings, whatever the analysis text of the result bundle is. *)
Theorem extractors_bounded (r : AnalysisResult) :
  (length (_extract_key_findings r) <= 10)%nat
  /\ exists recs,
       _extract_recommendations r = Some recs /\ (length recs <= 5)%nat.
Proof.
  split.
  - unfold _extract_key_findings. apply firstn_le_length.
  - destruct (_extract_recommendations_total r) as [recs E].
    exists recs. split; [exact E|].
    eapply _extract_recommendations_length; exact E.
Qed.

(** The extractor yields the triggered keys of the vocabulary, in the
    order of the vocabulary, each bound to [True]. *)
Lemma _extract_patterns_eq (r : AnalysisResult) :
  _extract_patterns r
  = map (fun k => (k, true)) (triggered_keys (lower (get_analysis r))).
Proof.
  unfold _extract_patterns, triggered_keys, pattern_vocabulary.
  generalize (lower (get_analysis r)) as t; intros t.
  cbn [filter map fst snd].
  generalize (contains (py "correlação") t || contains (py "correlation") t).
  generalize (contains (py "forte") t || contains (py "strong") t).
  generalize (contains (py "outlier") t || contains (py "atípico") t).
  generalize (contains_any [py "alta porcentagem"; py "high percentage";
                            py "muitos outliers"] t).
  generalize (contains (py "assimétrica") t || contains (py "asymmetric") t
              || contains (py "skew") t).
  generalize (contains (py "cluster") t || contains (py "agrupamento") t).
  generalize (contains (py "tendência") t || contains (py "trend") t
              || contains (py "padrão temporal") t).
  intros [] [] [] [] [] [] []; vm_compute; reflexivity.
Qed.

Lemma triggered_keys_In (t k : str) :
  In k (triggered_keys t)
  <-> exists trigger, In (k, trigger) pattern_vocabulary /\ trigger t = true.
Proof.
  unfold triggered_keys. rewrite in_map_iff. split.
  - intros [[k' trig] [<- Hin]]. apply filter_In in Hin as [Hin Ht].
    exists trig. split; assumption.
  - intros [trig [Hin Ht]]. exists (k, trig). split; [reflexivity|].
    apply filter_In. split; assumption.
Qed.

Lemma vocabulary_keys_NoDup : NoDup (map fst pattern_vocabulary).
Proof.
  assert (Hdec : forall l : list str,
             (fix nodupb (l : list str) : bool :=
                match l with
                | [] => true
                | x :: t => negb (existsb (str_eqb x) t) && nodupb t
                end) l = true -> NoDup l).
  { induction l as [|x l IH]; intros Hb; [constructor|].
    apply andb_true_iff in Hb as [Hx Hl]. constructor; [|apply IH, Hl].
    intros Hin. apply negb_true_iff in Hx.
    assert (existsb (str_eqb x) l = true)
      by (apply existsb_exists; exists x; split; [exact Hin | apply str_eqb_refl]).
    congruence. }
  apply Hdec. vm_compute. reflexivity.
Qed.

Lemma triggered_keys_NoDup (t : str) : NoDup (triggered_keys t).
Proof.
  unfold triggered_keys.
  pose proof vocabulary_keys_NoDup as Hnd.
  induction pattern_vocabulary as [|[k trig] voc IH]; [constructor|].
  inversion Hnd as [|? ? Hk Hrest]; subst. cbn [filter snd].
  destruct (trig t); [|apply IH, Hrest].
  cbn [map fst]. constructor; [|apply IH, Hrest].
  intros Hin. apply Hk. apply in_map_iff in Hin as [[k' trig'] [E Hin]].
  apply filter_In in Hin as [Hin _]. apply in_map_iff.
  exists (k', trig'). split; assumption.
Qed.

Lemma triggered_keys_none (t : str) :
  (forall kw, In kw recognized_keywords -> contains kw t = false) ->
  triggered_keys t = [].
Proof.
  intros Hno. apply Forall_forall in Hno. unfold recognized_keywords in Hno.
  unfold triggered_keys, pattern_vocabulary, contains_any.
  cbn [filter map fst snd existsb].
  repeat match type of Hno with
         | Forall _ (_ :: _) =>
             let Hc := fresh "Hc" in
             apply Forall_cons_iff in Hno as [Hc Hno]; rewrite ?Hc; clear Hc
         end.
  reflexivity.
Qed.

(** C6: the keys of the mapping returned by the pattern extractor are
    exactly the keys of the fixed vocabulary whose trigger holds of the
    lowercased text, each once and each bound to [True]; hence a text
    whose lowercased form contains no recognized keyword, the empty
    string among them, yields the empty mapping. *)
Theorem extract_patterns_keys (r : AnalysisResult) :
  (forall k, In k (dict_keys (_extract_patterns r))
             <-> exists trigger, In (k, trigger) pattern_vocabulary
                                 /\ trigger (lower (get_analysis r)) = true)
  /\ NoDup (dict_keys (_extract_patterns r))
  /\ (forall k v, In (k, v) (_extract_patterns r) -> v = true)
  /\ ((forall kw, In kw recognized_keywords ->
                  contains kw (lower (get_analysis r)) = false) ->
      _extract_patterns r = [])
  /\ (get_analysis r = [] -> _extract_patterns r = []).
Proof.
  rewrite _extract_patterns_eq.
  assert (Hkeys : forall l, dict_keys (map (fun k : str => (k, true)) l) = l).
  { intros l. unfold dict_keys. rewrite map_map. apply map_id. }
  rewrite Hkeys. repeat split.
  - apply triggered_keys_In.
  - apply triggered_keys_In.
  - apply triggered_keys_NoDup.
  - intros k v Hin. apply in_map_iff in Hin as [k' [E _]]. congruence.
  - intros Hno. rewrite (triggered_keys_none _ Hno). reflexivity.
  - intros ->. reflexivity.
Qed.

End Extractors.

(** ** Dictionaries *)

Section Dict.
Context {V : Type}.
Implicit Types (d : dict V) (k : str) (v : V).

Lemma dict_get_set_same k v d : dict_get k (dict_set k v d) = Some v.
Proof.
  induction d as [|[k' v'] d IH]; cbn [dict_set dict_get].
  - rewrite str_eqb_refl. reflexivity.
  - destruct (str_eqb k' k) eqn:E; cbn [dict_get]; rewrite E; auto.
Qed.

Lemma dict_get_set_other k k' v d :
  k <> k' -> dict_get k' (dict_set k v d) = dict_get k' d.
Proof.
  intros Hne. induction d as [|[k0 v0] d IH]; cbn [dict_set dict_get].
  - apply str_eqb_neq in Hne. rewrite Hne. reflexivity.
  - destruct (str_eqb k0 k) eqn:E; cbn [dict_get].
    + apply str_eqb_eq in E; subst k0.
      apply str_eqb_neq in Hne. rewrite Hne. reflexivity.
    + destruct (str_eqb k0 k'); auto.
Qed.

Lemma dict_set_fresh k v d :
  dict_get k d = None -> dict_set k v d = d ++ [(k, v)].
Proof.
  induction d as [|[k' v'] d IH]; cbn [dict_set dict_get app]; [reflexivity|].
  destruct (str_eqb k' k); [discriminate|].
  intros Hn. rewrite (IH Hn). reflexivity.
Qed.

Lemma dict_set_set k v1 v2 d :
  dict_set k v2 (dict_set k v1 d) = dict_set k v2 d.
Proof.
  induction d as [|[k' v'] d IH]; cbn [dict_set].
  - rewrite str_eqb_refl. reflexivity.
  - destruct (str_eqb k' k) eqn:E; cbn [dict_set]; rewrite E;
      [reflexivity | rewrite IH; reflexivity].
Qed.

Lemma dict_get_app k d1 d2 :
  dict_get k (d1 ++ d2)
  = match dict_get k d1 with Some v => Some v | None => dict_get k d2 end.
Proof.
  induction d1 as [|[k' v'] d1 IH]; cbn [app dict_get]; [reflexivity|].
  destruct (str_eqb k' k); auto.
Qed.

Lemma dict_get_update_same k (f : V -> V) d :
  dict_get k (dict_update k f d) = option_map f (dict_get k d).
Proof.
  unfold dict_update. destruct (dict_get k d) eqn:E; cbn [option_map].
  - apply dict_get_set_same.
  - exact E.
Qed.

Lemma dict_get_update_other k k' (f : V -> V) d :
  k <> k' -> dict_get k' (dict_update k f d) = dict_get k' d.
Proof.
  intros Hne. unfold dict_update. destruct (dict_get k d); [|reflexivity].
  apply dict_get_set_other, Hne.
Qed.

Lemma dict_get_In k v d : dict_get k d = Some v -> In (k, v) d.
Proof.
  induction d as [|[k' v'] d IH]; cbn [dict_get]; [discriminate|].
  destruct (str_eqb k' k) eqn:E.
  - apply str_eqb_eq in E. intros [= <-]. left. congruence.
  - intros Hg. right. apply IH, Hg.
Qed.

Lemma dict_set_Forall (P : V -> Prop) k v d :
  Forall (fun kv => P (snd kv)) d -> P v ->
  Forall (fun kv => P (snd kv)) (dict_set k v d).
Proof.
  intros Hd Hv. induction Hd as [|[k' v'] d Hx Hd IH]; cbn [dict_set].
  - constructor; [exact Hv | constructor].
  - destruct (str_eqb k' k); constructor; auto.
Qed.

End Dict.

(** ** The aggregators and the history *)

Section Aggregators.
Context `{PyEnv}.

Lemma count_pattern_eq (t p : str) (gp : dict PatternStat) :
  count_pattern t p gp
  = dict_set p
      (bump t (match dict_get p gp with
               | Some v => v
               | None => {| count := 0; analyses := [] |}
               end)) gp.
Proof.
  unfold count_pattern, dict_mem, dict_update.
  destruct (dict_get p gp) as [v|] eqn:E; cbn [negb].
  - rewrite E, dict_get_set_same, dict_set_set. reflexivity.
  - rewrite !dict_get_set_same, !dict_set_set. reflexivity.
Qed.

(** Patterns met for the first time are appended with count 1. *)
Lemma count_patterns_fresh (t : str) (keys : list str) (gp : dict PatternStat) :
  NoDup keys -> (forall k, In k keys -> dict_get k gp = None) ->
  fold_left (fun gp '(pattern, _) => count_pattern t pattern gp)
            (map (fun k => (k, true)) keys) gp
  = gp ++ map (fun k => (k, {| count := 1; analyses := [t] |})) keys.
Proof.
  revert gp; induction keys as [|k keys IH]; intros gp Hnd Hfresh.
  - cbn. rewrite app_nil_r. reflexivity.
  - inversion Hnd as [|? ? Hk Hrest]; subst. cbn [map fold_left].
    rewrite count_pattern_eq, (Hfresh k (or_introl eq_refl)).
    rewrite dict_set_fresh by (apply Hfresh; left; reflexivity).
    rewrite IH; [rewrite <- app_assoc; reflexivity | exact Hrest |].
    intros k' Hin. rewrite dict_get_app, (Hfresh k' (or_intror Hin)).
    cbn [dict_get]. destruct (str_eqb k k') eqn:E; [|reflexivity].
    apply str_eqb_eq in E. subst. contradiction.
Qed.

Lemma count_pattern_counts_match (t p : str) (gp : dict PatternStat) :
  counts_match gp -> counts_match (count_pattern t p gp).
Proof.
  intros Hgp. rewrite count_pattern_eq.
  apply (dict_set_Forall
           (fun v => count v = Z.of_nat (length (analyses v)))); [exact Hgp|].
  destruct (dict_get p gp) as [v|] eqn:E.
  - apply dict_get_In in E. unfold counts_match in Hgp.
    rewrite Forall_forall in Hgp. specialize (Hgp _ E). cbn [snd] in Hgp.
    cbn [bump count analyses]. rewrite length_app, Hgp. cbn [length]. lia.
  - reflexivity.
Qed.

Lemma _update_global_patterns_counts_match (e : AnalysisMemory)
  (gp : dict PatternStat) :
  counts_match gp -> counts_match (_update_global_patterns e gp).
Proof.
  unfold _update_global_patterns. generalize (data_patterns e) as ps.
  intros ps; revert gp; induction ps as [|[p v] ps IH]; intros gp Hgp;
    [exact Hgp|].
  cbn [fold_left]. apply IH, count_pattern_counts_match, Hgp.
Qed.

(** [add_analysis] never raises: it builds an entry and stores it. *)
Lemma add_analysis_stores (now q : str) (r : AnalysisResult) (t : str)
  (self : EnhancedSessionMemory) :
  exists e,
    memory_entry_of now q r t = Some e
    /\ add_analysis now q r t self = Some (store_entry e self)
    /\ timestamp e = now /\ question e = q /\ analysis_type e = t
    /\ data_patterns e = _extract_patterns r.
Proof.
  unfold add_analysis, memory_entry_of.
  destruct (_extract_recommendations_total r) as [recs ->].
  eexists. repeat split.
Qed.

End Aggregators.

(** ** Runs of calls *)

Section Runs.
Context `{PyEnv}.

Lemma builds_step (c : call) (e : AnalysisMemory) (self : EnhancedSessionMemory) :
  builds c e -> step c self = Some (store_entry e self).
Proof.
  destruct c as [now q r t|]; [|intros []].
  cbn [builds step]. unfold add_analysis. intros ->. reflexivity.
Qed.

Lemma builds_type (now q : str) (r : AnalysisResult) (t : str) (e : AnalysisMemory) :
  builds (AddAnalysis now q r t) e ->
  analysis_type e = t /\ data_patterns e = _extract_patterns r.
Proof.
  cbn [builds]. unfold memory_entry_of.
  destruct (_extract_recommendations r); [|discriminate].
  intros [= <-]. split; reflexivity.
Qed.

(** Every list of [add_analysis] calls builds its entries. *)
Lemma adds_build (args : list (str * str * AnalysisResult * str)) :
  exists entries,
    Forall2 builds
      (map (fun '(now, q, r, t) => AddAnalysis now q r t) args) entries.
Proof.
  induction args as [|[[[now q] r] t] args [entries IH]].
  - exists []. constructor.
  - destruct (add_analysis_stores now q r t
                {| max_interactions := 0; analysis_history := [];
                   data_insights := []; conversation_summary := [];
                   global_patterns := [] |}) as [e [He _]].
    exists (e :: entries). constructor; assumption.
Qed.

Lemma length_lastn {A} (c : nat) (l : list A) :
  length (lastn c l) = Nat.min c (length l).
Proof. unfold lastn. rewrite length_skipn. lia. Qed.

Lemma deque_append_lastn {A} (c : nat) (l : list A) (e : A) :
  deque_append (Z.of_nat c) (lastn c l) e = lastn c (l ++ [e]).
Proof.
  unfold deque_append. rewrite length_app, length_lastn. cbn [length].
  unfold lastn. rewrite length_app. cbn [length].
  destruct (Z.gtb_spec (Z.of_nat (Nat.min c (length l) + 1)) (Z.of_nat c))
    as [Hgt|Hle].
  - assert (Hc : (c <= length l)%nat) by lia.
    destruct c as [|c].
    + rewrite !skipn_all2 by (rewrite ?length_app; cbn [length]; lia).
      reflexivity.
    + replace (length l + 1 - S c)%nat with (S (length l - S c)) by lia.
      rewrite skipn_app.
      replace (S (length l - S c) - length l)%nat with 0%nat by lia.
      change (skipn 0 [e]) with [e].
      change (S (length l - S c)) with (1 + (length l - S c))%nat.
      rewrite <- skipn_skipn.
      destruct (skipn (length l - S c) l) as [|x rest] eqn:E.
      * apply (f_equal (@length A)) in E. rewrite length_skipn in E.
        cbn in E. lia.
      * reflexivity.
  - replace (length l - c)%nat with 0%nat by lia.
    replace (length l + 1 - c)%nat with 0%nat by lia. reflexivity.
Qed.

Lemma run_app (cs1 cs2 : list call) (self : EnhancedSessionMemory) :
  run (cs1 ++ cs2) self
  = match run cs1 self with Some s => run cs2 s | None => None end.
Proof.
  revert self; induction cs1 as [|c cs1 IH]; intros self; [reflexivity|].
  cbn [app run]. destruct (step c self); [apply IH | reflexivity].
Qed.

(** The history after a run of [add_analysis] calls holds the last
    [capacity] of the entries stored so far. *)
Lemma run_adds_history (c : nat) (cs : list call) (entries : list AnalysisMemory) :
  Forall2 builds cs entries ->
  forall (self : EnhancedSessionMemory) (stored : list AnalysisMemory),
    max_interactions self = Z.of_nat c ->
    analysis_history self = lastn c stored ->
    exists s, run cs self = Some s
              /\ max_interactions s = Z.of_nat c
              /\ analysis_history s = lastn c (stored ++ entries).
Proof.
  induction 1 as [|call e cs entries Hb _ IH]; intros self stored Hmax Hh.
  - exists self. rewrite app_nil_r. auto.
  - cbn [run]. rewrite (builds_step _ _ _ Hb).
    destruct (IH (store_entry e self) (stored ++ [e])) as [s [Hr [Hm Hs]]].
    + exact Hmax.
    + cbn [store_entry analysis_history]. rewrite Hmax, Hh.
      apply deque_append_lastn.
    + exists s. rewrite <- app_assoc in Hs. auto.
Qed.

Lemma init_some (capacity : Z) (s0 : EnhancedSessionMemory) :
  __init__ capacity = Some s0 ->
  (0 <= capacity)%Z
  /\ s0 = {| max_interactions := capacity; analysis_history := [];
             data_insights := []; conversation_summary := [];
             global_patterns := [] |}.
Proof.
  unfold __init__. destruct (Z.ltb_spec capacity 0); [discriminate|].
  intros [= <-]. split; [assumption | reflexivity].
Qed.

(** C2: when more entries are appended by [add_analysis] to a fresh
    session than its history capacity, the history ends with exactly
    capacity-many entries, the last ones appended, in insertion order. *)
Theorem history_keeps_last (capacity : Z) (s0 : EnhancedSessionMemory)
  (cs : list call) (entries : list AnalysisMemory) :
  __init__ capacity = Some s0 ->
  Forall2 builds cs entries ->
  (capacity < Z.of_nat (length cs))%Z ->
  exists s,
    run cs s0 = Some s
    /\ Z.of_nat (length (analysis_history s)) = capacity
    /\ analysis_history s
       = skipn (length entries - Z.to_nat capacity) entries.
Proof.
  intros Hinit Hb Hlt. apply init_some in Hinit as [Hpos ->].
  destruct (run_adds_history (Z.to_nat capacity) cs entries Hb
              {| max_interactions := capacity; analysis_history := [];
                 data_insights := []; conversation_summary := [];
                 global_patterns := [] |} [])
    as [s [Hr [_ Hs]]].
  - cbn. lia.
  - reflexivity.
  - exists s. cbn [app] in Hs. split; [exact Hr|].
    pose proof (Forall2_length Hb) as Hlen.
    rewrite Hs. split; [|reflexivity].
    rewrite length_lastn. lia.
Qed.

(** *** The insight aggregator *)

Lemma fold_update_count (t : str) (F : str -> bool -> Insight -> Insight) :
  (forall p v b, insight_count (F p v b) = insight_count b) ->
  forall (ps : dict bool) (di : dict Insight),
    insight_count_of t
      (fold_left (fun di '(p, v) => dict_update t (F p v) di) ps di)
    = insight_count_of t di.
Proof.
  intros HF ps; induction ps as [|[p v] ps IH]; intros di; [reflexivity|].
  cbn [fold_left]. rewrite IH. unfold insight_count_of.
  rewrite dict_get_update_same. destruct (dict_get t di); [apply HF|reflexivity].
Qed.

Lemma _update_insights_count (e : AnalysisMemory) (di : dict Insight) :
  insight_count_of (analysis_type e) (_update_insights e di)
  = (insight_count_of (analysis_type e) di + 1)%Z.
Proof.
  unfold _update_insights.
  rewrite (fold_update_count (analysis_type e)
             (fun pattern value b =>
                {| insight_count := insight_count b;
                   insight_patterns := dict_set pattern value (insight_patterns b);
                   last_analysis := last_analysis b;
                   insight_key_findings := insight_key_findings b |}))
    by reflexivity.
  unfold insight_count_of. rewrite !dict_get_update_same.
  unfold dict_mem. destruct (dict_get (analysis_type e) di) as [b|] eqn:E;
    cbn [negb].
  - rewrite E. reflexivity.
  - rewrite dict_get_set_same. reflexivity.
Qed.

Lemma length_deque_append {A} (c : Z) (h : list A) (e : A) :
  (0 <= c)%Z -> (Z.of_nat (length h) <= c)%Z ->
  Z.of_nat (length (deque_append c h e)) = Z.min c (Z.of_nat (length h) + 1).
Proof.
  intros Hc Hh. unfold deque_append. rewrite length_app. cbn [length].
  destruct (Z.gtb_spec (Z.of_nat (length h + 1)) c).
  - destruct h as [|x h]; cbn [app tl length] in *; [lia|].
    rewrite length_app. cbn [length]. lia.
  - rewrite length_app. cbn [length]. lia.
Qed.

(** Calls of [add_analysis] that all carry the type [t]: the bucket of
    [t] counts every one of them, the history only up to its bound. *)
Lemma run_same_type (t : str) (args : list (str * str * AnalysisResult)) :
  forall self : EnhancedSessionMemory,
    (0 <= max_interactions self)%Z ->
    (Z.of_nat (length (analysis_history self)) <= max_interactions self)%Z ->
    exists s,
      run (map (fun '(now, q, r) => AddAnalysis now q r t) args) self = Some s
      /\ Z.of_nat (length (analysis_history s))
         = Z.min (max_interactions self)
                 (Z.of_nat (length (analysis_history self))
                  + Z.of_nat (length args))
      /\ insight_count_of t (data_insights s)
         = (insight_count_of t (data_insights self)
            + Z.of_nat (length args))%Z.
Proof.
  induction args as [|[[now q] r] args IH]; intros self Hc Hh.
  - exists self. cbn [map run length]. repeat split; lia.
  - cbn [map run step].
    destruct (add_analysis_stores now q r t self) as [e [_ [-> [_ [_ [Ht _]]]]]].
    pose proof (length_deque_append _ _ e Hc Hh) as Hlen.
    destruct (IH (store_entry e self)) as [s [Hr [Hl Hn]]].
    + exact Hc.
    + cbn [store_entry analysis_history max_interactions]. lia.
    + exists s. split; [exact Hr|].
      cbn [store_entry analysis_history max_interactions data_insights] in Hl, Hn.
      rewrite <- Ht in Hn at 2. rewrite _update_insights_count, Ht in Hn.
      cbn [length]. split; lia.
Qed.

(** C3: 101 calls of [add_analysis], all of type "correlation", on a
    fresh session of capacity 100 leave 100 entries in the history and
    a [correlation] bucket whose count is 101. *)
Theorem counts_outlive_history (s0 : EnhancedSessionMemory)
  (args : list (str * str * AnalysisResult)) :
  __init__ 100 = Some s0 ->
  length args = 101%nat ->
  exists s bucket,
    run (map (fun '(now, q, r) => AddAnalysis now q r (py "correlation")) args)
        s0 = Some s
    /\ length (analysis_history s) = 100%nat
    /\ dict_get (py "correlation") (data_insights s) = Some bucket
    /\ insight_count bucket = 101%Z.
Proof.
  intros Hinit Hlen. apply init_some in Hinit as [_ ->].
  destruct (run_same_type (py "correlation") args
              {| max_interactions := 100; analysis_history := [];
                 data_insights := []; conversation_summary := [];
                 global_patterns := [] |}) as [s [Hr [Hl Hn]]];
    [cbn; lia | cbn; lia |].
  cbn [max_interactions analysis_history data_insights length] in Hl, Hn.
  rewrite Hlen in Hl, Hn. unfold insight_count_of in Hn. cbn [dict_get] in Hn.
  destruct (dict_get (py "correlation") (data_insights s)) as [bucket|] eqn:E;
    [|lia].
  exists s, bucket. split; [exact Hr|]. split; [lia|].
  split; [exact E | lia].
Qed.

(** *** The global pattern tracker *)

Lemma step_counts_match (c : call) (self s : EnhancedSessionMemory) :
  counts_match (global_patterns self) -> step c self = Some s ->
  counts_match (global_patterns s).
Proof.
  intros Hm. destruct c as [now q r t|]; cbn [step].
  - destruct (add_analysis_stores now q r t self) as [e [_ [-> _]]].
    intros [= <-]. cbn [store_entry global_patterns].
    apply _update_global_patterns_counts_match, Hm.
  - intros [= <-]. constructor.
Qed.

Lemma run_counts_match (cs : list call) :
  forall self s : EnhancedSessionMemory,
    counts_match (global_patterns self) -> run cs self = Some s ->
    counts_match (global_patterns s).
Proof.
  induction cs as [|c cs IH]; intros self s Hm; cbn [run].
  - intros [= <-]. exact Hm.
  - destruct (step c self) as [s1|] eqn:E; [|discriminate].
    apply IH. eapply step_counts_match; eassumption.
Qed.

(** C10: in every state reached from a fresh session by calls of
    [add_analysis] and [clear], the count of every tracked pattern is
    the length of its list of analysis types. *)
Theorem pattern_count_is_analyses_length (self : EnhancedSessionMemory)
  (pattern : str) (stat : PatternStat) :
  reachable self ->
  dict_get pattern (global_patterns self) = Some stat ->
  count stat = Z.of_nat (length (analyses stat)).
Proof.
  intros [capacity [cs [s0 [Hinit Hrun]]]] Hget.
  apply init_some in Hinit as [_ ->].
  assert (Hm : counts_match (global_patterns self)).
  { eapply run_counts_match; [|exact Hrun]. constructor. }
  apply dict_get_In in Hget. unfold counts_match in Hm.
  rewrite Forall_forall in Hm. exact (Hm _ Hget).
Qed.

End Runs.

(** ** One strongly correlated analysis *)

Section StrongCorrelation.
Context `{PyEnv}.

Lemma strong_correlation_triggers (a b : str) :
  let t := lower (a ++ py "correlação forte" ++ b) in
  contains (py "correlação") t = true /\ contains (py "forte") t = true.
Proof.
  intros t.
  assert (Hin : contains (py "correlação forte") t = true).
  { apply contains_lower; [vm_compute; reflexivity | apply contains_app]. }
  split; (eapply contains_trans; [|exact Hin]); vm_compute; reflexivity.
Qed.

Lemma strong_correlation_keys (a b : str) :
  let t := lower (a ++ py "correlação forte" ++ b) in
  triggered_keys t
  = py "has_correlations" :: py "strong_correlations"
    :: map fst (filter (fun kt => snd kt t) (skipn 2 pattern_vocabulary)).
Proof.
  intros t. destruct (strong_correlation_triggers a b) as [H1 H2].
  fold t in H1, H2. unfold triggered_keys, pattern_vocabulary.
  cbn [filter map fst snd skipn]. rewrite H1, H2. reflexivity.
Qed.

Lemma other_families_silent (t : str) :
  (forall kw, In kw other_family_keywords -> contains kw t = false) ->
  filter (fun kt => snd kt t) (skipn 2 pattern_vocabulary) = [].
Proof.
  intros Hno. apply Forall_forall in Hno. unfold other_family_keywords in Hno.
  unfold pattern_vocabulary. cbn [filter map fst snd skipn].
  repeat match type of Hno with
         | Forall _ (_ :: _) =>
             let Hc := fresh "Hc" in
             apply Forall_cons_iff in Hno as [Hc Hno]; rewrite ?Hc; clear Hc
         end.
  reflexivity.
Qed.

(** C8 (amended): after one [add_analysis] of type "correlation" on a
    fresh session, with an analysis text containing "correlação forte",
    the global pattern tracker holds [has_correlations] and
    [strong_correlations], each with count 1 and analyses
    ["correlation"]; these are its only entries when the lowercased text
    contains no keyword of another family. *)
Theorem strong_correlation_tracked (capacity : Z) (s0 : EnhancedSessionMemory)
  (now q a b : str) (plots : option (list str)) :
  __init__ capacity = Some s0 ->
  let text := a ++ py "correlação forte" ++ b in
  let one := {| count := 1; analyses := [py "correlation"] |} in
  exists s,
    add_analysis now q {| analysis := Some text; plots := plots |}
                 (py "correlation") s0 = Some s
    /\ dict_get (py "has_correlations") (global_patterns s) = Some one
    /\ dict_get (py "strong_correlations") (global_patterns s) = Some one
    /\ ((forall kw, In kw other_family_keywords ->
                    contains kw (lower text) = false) ->
        global_patterns s
        = [(py "has_correlations", one); (py "strong_correlations", one)]).
Proof.
  intros Hinit text one. apply init_some in Hinit as [_ ->].
  set (r := {| analysis := Some text; plots := plots |}).
  destruct (add_analysis_stores now q r (py "correlation")
              {| max_interactions := capacity; analysis_history := [];
                 data_insights := []; conversation_summary := [];
                 global_patterns := [] |}) as [e [_ [Hadd [_ [_ [Ht Hp]]]]]].
  exists (store_entry e
            {| max_interactions := capacity; analysis_history := [];
               data_insights := []; conversation_summary := [];
               global_patterns := [] |}).
  split; [exact Hadd|].
  cbn [store_entry global_patterns]. unfold _update_global_patterns.
  rewrite Hp, Ht, _extract_patterns_eq.
  rewrite count_patterns_fresh;
    [|apply triggered_keys_NoDup | intros; reflexivity].
  cbn [app get_analysis r analysis].
  pose proof (strong_correlation_keys a b) as Hk. cbn zeta in Hk.
  fold text in Hk. rewrite Hk. cbn [map].
  split; [reflexivity|]. split; [vm_compute; reflexivity|].
  intros Hno. rewrite (other_families_silent _ Hno). reflexivity.
Qed.

End StrongCorrelation.

(** ** Stable sorting in descending order *)

Section Sorting.
Context {A : Type} (key : A -> Z).

Lemma insert_desc_perm (x : A) (l : list A) :
  Permutation (insert_desc key x l) (x :: l).
Proof.
  induction l as [|y l IH]; cbn [insert_desc]; [reflexivity|].
  destruct (key x <? key y)%Z; [|reflexivity].
  rewrite IH. apply perm_swap.
Qed.

Lemma sort_desc_perm (l : list A) : Permutation (sort_desc key l) l.
Proof.
  induction l as [|x l IH]; cbn [sort_desc]; [reflexivity|].
  rewrite insert_desc_perm, IH. reflexivity.
Qed.

Lemma insert_desc_stable (R0 : A -> A -> Prop) (x : A) (l : list A) :
  StronglySorted (by_key_then key R0) l -> Forall (R0 x) l ->
  StronglySorted (by_key_then key R0) (insert_desc key x l).
Proof.
  induction 1 as [|y l Hl IH Hy]; intros Hx; cbn [insert_desc].
  - repeat constructor.
  - inversion Hx as [|? ? Hxy Hxl]; subst.
    destruct (Z.ltb_spec (key x) (key y)) as [Hlt|Hge].
    + constructor; [apply IH, Hxl|].
      rewrite (insert_desc_perm x l). constructor; [|exact Hy].
      left. lia.
    + constructor; [constructor; assumption|].
      assert (Hle : Forall (fun z => (key z <= key x)%Z) (y :: l)).
      { constructor; [lia|]. rewrite Forall_forall in Hy |- *.
        intros z Hz. destruct (Hy z Hz) as [Hgt|[Heq _]]; lia. }
      rewrite Forall_forall in Hle, Hx |- *. intros z Hz.
      specialize (Hle z Hz). specialize (Hx z Hz). unfold by_key_then.
      destruct (Z.eq_dec (key x) (key z)); [right; auto | left; lia].
Qed.

(** Sorting is stable: what was ordered by [R0] stays so among equal
    keys. *)
Lemma sort_desc_stable (R0 : A -> A -> Prop) (l : list A) :
  StronglySorted R0 l -> StronglySorted (by_key_then key R0) (sort_desc key l).
Proof.
  induction 1 as [|x l Hl IH Hx]; cbn [sort_desc]; [constructor|].
  apply insert_desc_stable; [exact IH|].
  rewrite (sort_desc_perm l). exact Hx.
Qed.

End Sorting.

Lemma insert_desc_map {A B} (key : B -> Z) (g : A -> B) (x : A) (l : list A) :
  insert_desc key (g x) (map g l)
  = map g (insert_desc (fun a => key (g a)) x l).
Proof.
  induction l as [|y l IH]; cbn [insert_desc map]; [reflexivity|].
  destruct (key (g x) <? key (g y))%Z; [rewrite IH|]; reflexivity.
Qed.

Lemma sort_desc_map {A B} (key : B -> Z) (g : A -> B) (l : list A) :
  sort_desc key (map g l) = map g (sort_desc (fun a => key (g a)) l).
Proof.
  induction l as [|x l IH]; cbn [sort_desc map]; [reflexivity|].
  rewrite IH. apply insert_desc_map.
Qed.

Lemma slice_to_map {A B} (g : A -> B) (n : Z) (l : list A) :
  slice_to n (map g l) = map g (slice_to n l).
Proof.
  unfold slice_to. rewrite length_map. destruct (0 <=? n)%Z; apply firstn_map.
Qed.

Lemma slice_to_firstn {A} (n : Z) (l : list A) :
  exists k, slice_to n l = firstn k l.
Proof. unfold slice_to. destruct (0 <=? n)%Z; eexists; reflexivity. Qed.

Lemma fold_left_collect {A B} (p : A -> bool) (g : A -> B) (l : list A) :
  forall acc,
    fold_left (fun acc x => if p x then acc ++ [g x] else acc) l acc
    = acc ++ map g (filter p l).
Proof.
  induction l as [|x l IH]; intros acc; cbn [fold_left filter].
  - rewrite app_nil_r. reflexivity.
  - rewrite IH. destruct (p x); [|reflexivity].
    cbn [map]. rewrite <- app_assoc. reflexivity.
Qed.

Lemma In_firstn {A} (k : nat) (l : list A) (x : A) :
  In x (firstn k l) -> In x l.
Proof.
  intros Hin. rewrite <- (firstn_skipn k l). apply in_or_app. left. exact Hin.
Qed.

Section StronglySortedFacts.
Context {A : Type} (R : A -> A -> Prop).

Lemma StronglySorted_weaken (R' : A -> A -> Prop) (l : list A) :
  (forall x y, R x y -> R' x y) -> StronglySorted R l -> StronglySorted R' l.
Proof.
  intros HR. induction 1 as [|x l Hl IH Hx]; constructor; [exact IH|].
  eapply Forall_impl; [|exact Hx]. intros y. apply HR.
Qed.

Lemma StronglySorted_filter (p : A -> bool) (l : list A) :
  StronglySorted R l -> StronglySorted R (filter p l).
Proof.
  induction 1 as [|x l Hl IH Hx]; cbn [filter]; [constructor|].
  destruct (p x); [|exact IH]. constructor; [exact IH|].
  rewrite Forall_forall in Hx |- *. intros y Hy.
  apply filter_In in Hy as [Hy _]. auto.
Qed.

Lemma StronglySorted_firstn (k : nat) (l : list A) :
  StronglySorted R l -> StronglySorted R (firstn k l).
Proof.
  intros Hl; revert k; induction Hl as [|x l Hl IH Hx]; intros [|k];
    cbn [firstn]; try constructor; [apply IH|].
  rewrite Forall_forall in Hx |- *. intros y Hy.
  apply Hx. apply (In_firstn k). exact Hy.
Qed.

Lemma StronglySorted_snoc (l : list A) (x : A) :
  StronglySorted R l -> Forall (fun y => R y x) l ->
  StronglySorted R (l ++ [x]).
Proof.
  induction 1 as [|y l Hl IH Hy]; intros Hx; cbn [app].
  - repeat constructor.
  - inversion Hx; subst. constructor; [apply IH; assumption|].
    apply Forall_app. split; [exact Hy | repeat constructor; assumption].
Qed.

Lemma StronglySorted_nth (l : list A) :
  StronglySorted R l ->
  forall i j x y, (i < j)%nat ->
    nth_error l i = Some x -> nth_error l j = Some y -> R x y.
Proof.
  induction 1 as [|z l Hl IH Hz]; intros i j x y Hij Hi Hj.
  - destruct i; discriminate.
  - destruct j as [|j]; [lia|]. cbn [nth_error] in Hj. destruct i as [|i].
    + cbn in Hi. injection Hi as <-. rewrite Forall_forall in Hz.
      apply Hz. eapply nth_error_In. exact Hj.
    + cbn [nth_error] in Hi. apply (IH i j); [lia | assumption | assumption].
Qed.

End StronglySortedFacts.

Lemma StronglySorted_rev {A} (R : A -> A -> Prop) (l : list A) :
  StronglySorted R l -> StronglySorted (fun x y => R y x) (rev l).
Proof.
  induction 1 as [|x l Hl IH Hx]; cbn [rev]; [constructor|].
  apply (StronglySorted_snoc (fun x y => R y x)).
  - exact IH.
  - rewrite Forall_forall in Hx |- *. intros y Hy.
    apply Hx. apply in_rev. exact Hy.
Qed.

Lemma map_snd_indexed_from {A} (h : list A) :
  forall start, map snd (indexed_from start h) = h.
Proof.
  unfold indexed_from. induction h as [|x h IH]; intros start; [reflexivity|].
  cbn [length seq combine map snd]. rewrite IH. reflexivity.
Qed.

Lemma indexed_from_In {A} (h : list A) :
  forall start i x,
    In (i, x) (indexed_from start h)
    <-> (start <= i)%nat /\ nth_error h (i - start) = Some x.
Proof.
  unfold indexed_from. induction h as [|y h IH]; intros start i x.
  - cbn. split; [intros [] | intros [_ Hn]].
    destruct (i - start)%nat; discriminate.
  - cbn [length seq combine In]. rewrite IH. split.
    + intros [E | [Hle Hn]].
      * injection E as -> ->. rewrite Nat.sub_diag. split; [lia | reflexivity].
      * split; [lia|]. replace (i - start)%nat with (S (i - S start)) by lia.
        exact Hn.
    + intros [Hle Hn]. destruct (Nat.eq_dec start i) as [->|Hne].
      * rewrite Nat.sub_diag in Hn. cbn in Hn. injection Hn as ->. left; reflexivity.
      * right. split; [lia|].
        replace (i - start)%nat with (S (i - S start)) in Hn by lia. exact Hn.
Qed.

Lemma indexed_from_sorted {A} (h : list A) :
  forall start,
    StronglySorted (fun p q : nat * A => (fst p < fst q)%nat)
                   (indexed_from start h).
Proof.
  induction h as [|x h IH]; intros start; [constructor|].
  change (indexed_from start (x :: h))
    with ((start, x) :: indexed_from (S start) h).
  constructor; [apply IH|].
  rewrite Forall_forall. intros [i y] Hin.
  apply indexed_from_In in Hin as [Hle _]. cbn [fst]. lia.
Qed.

(** ** The relevance ranker *)

Section Ranker.
Context `{PyEnv}.

Lemma relevance_score_split (ql : str) (e : AnalysisMemory) :
  relevance_score ql e = (lexical_signal ql e + type_signal ql e)%Z.
Proof.
  unfold relevance_score, lexical_signal, type_signal.
  destruct (existsb _ _); destruct (find _ _); reflexivity.
Qed.

Lemma lexical_signal_range (ql : str) (e : AnalysisMemory) :
  (0 <= lexical_signal ql e <= 2)%Z.
Proof. unfold lexical_signal. destruct (existsb _ _); lia. Qed.

(** The type signal is 3 exactly when the type of the entry is the tag
    of a family one of whose keywords occurs in the question. *)
Lemma type_signal_hit (ql : str) (e : AnalysisMemory) (tag : str)
  (keywords : list str) :
  In (tag, keywords) type_keywords ->
  contains_any keywords ql = true -> analysis_type e = tag ->
  type_signal ql e = 3%Z.
Proof.
  intros Hin Hany Htag. unfold type_signal.
  destruct (find _ type_keywords) eqn:E; [reflexivity|].
  pose proof (find_none _ _ E _ Hin) as Hf. cbn beta iota in Hf.
  rewrite Hany, Htag, str_eqb_refl in Hf. discriminate.
Qed.

Lemma type_signal_miss (ql : str) (e : AnalysisMemory) :
  (forall tag keywords, In (tag, keywords) type_keywords ->
                        contains_any keywords ql = true ->
                        analysis_type e <> tag) ->
  type_signal ql e = 0%Z.
Proof.
  intros Hmiss. unfold type_signal.
  destruct (find _ type_keywords) as [[tag keywords]|] eqn:E; [|reflexivity].
  apply find_some in E as [Hin Hp]. apply andb_true_iff in Hp as [Hany Heq].
  apply str_eqb_eq in Heq. exfalso. exact (Hmiss _ _ Hin Hany Heq).
Qed.

Lemma type_keywords_lowercase (tag kw : str) (keywords : list str) :
  In (tag, keywords) type_keywords -> In kw keywords ->
  lowercase_latin1 kw = true.
Proof.
  assert (Hall : forallb (fun tk => forallb lowercase_latin1 (snd tk))
                         type_keywords = true) by (vm_compute; reflexivity).
  intros Hin Hkw. rewrite forallb_forall in Hall.
  specialize (Hall _ Hin). cbn [snd] in Hall.
  rewrite forallb_forall in Hall. exact (Hall _ Hkw).
Qed.

Lemma relevant_entries_of_eq (ql : str) (h : list AnalysisMemory) :
  relevant_entries_of ql h
  = map (fun e => (e, relevance_score ql e))
        (filter (fun e => (relevance_score ql e >? 0)%Z) (rev h)).
Proof.
  unfold relevant_entries_of.
  exact (fold_left_collect (fun e => (relevance_score ql e >? 0)%Z)
           (fun e => (e, relevance_score ql e)) (rev h) []).
Qed.

(** The result of the ranker is the ranking, positions dropped. *)
Lemma get_contextual_memory_ranking (q : str) (n : Z)
  (self : EnhancedSessionMemory) :
  get_contextual_memory q n self
  = map snd (ranking q n (analysis_history self)).
Proof.
  unfold get_contextual_memory, ranking. rewrite relevant_entries_of_eq.
  set (sc := relevance_score (lower q)).
  rewrite <- (map_snd_indexed_from (analysis_history self) 0) at 1.
  fold (indexed (analysis_history self)).
  rewrite <- map_rev, filter_map_swap, map_map, sort_desc_map, slice_to_map,
    map_map.
  reflexivity.
Qed.

Lemma ranking_props (q : str) (n : Z) (h : list AnalysisMemory) :
  let score := relevance_score (lower q) in
  Forall (fun p => nth_error h (fst p) = Some (snd p)
                   /\ (0 < score (snd p))%Z) (ranking q n h)
  /\ StronglySorted
       (by_key_then (fun p => score (snd p))
                    (fun p p' : nat * AnalysisMemory => (fst p > fst p')%nat))
       (ranking q n h).
Proof.
  intros score. unfold ranking. fold score.
  set (rel := filter (fun p => (score (snd p) >? 0)%Z) (rev (indexed h))).
  destruct (slice_to_firstn n (sort_desc (fun p => score (snd p)) rel))
    as [k ->].
  split.
  - rewrite Forall_forall. intros [i e] Hin. cbn [fst snd].
    apply In_firstn in Hin.
    apply (Permutation_in _ (sort_desc_perm _ rel)) in Hin.
    apply filter_In in Hin as [Hin Hpos]. cbn [snd] in Hpos.
    apply in_rev, indexed_from_In in Hin as [_ Hn].
    rewrite Nat.sub_0_r in Hn. split; [exact Hn | lia].
  - apply StronglySorted_firstn, sort_desc_stable.
    apply StronglySorted_filter.
    apply (StronglySorted_rev (fun p q : nat * AnalysisMemory =>
                                 (fst p < fst q)%nat)).
    apply indexed_from_sorted.
Qed.

Lemma ranking_complete (q : str) (n : Z) (h : list AnalysisMemory)
  (i : nat) (e : AnalysisMemory) :
  (Z.of_nat (length h) <= n)%Z ->
  nth_error h i = Some e -> (0 < relevance_score (lower q) e)%Z ->
  In (i, e) (ranking q n h).
Proof.
  intros Hn Hi Hpos. unfold ranking.
  set (score := relevance_score (lower q)) in *.
  set (rel := filter (fun p => (score (snd p) >? 0)%Z) (rev (indexed h))).
  assert (Hlen : (length rel <= length h)%nat).
  { unfold rel. etransitivity; [apply filter_length_le|].
    rewrite length_rev. unfold indexed, indexed_from.
    rewrite length_combine, length_seq. lia. }
  unfold slice_to. destruct (Z.leb_spec 0 n); [|lia].
  rewrite firstn_all2
    by (rewrite (Permutation_length (sort_desc_perm _ rel)); lia).
  apply (Permutation_in _ (Permutation_sym (sort_desc_perm _ rel))).
  apply filter_In. split.
  - apply in_rev. rewrite rev_involutive. apply indexed_from_In.
    rewrite Nat.sub_0_r. split; [lia | exact Hi].
  - cbn [snd]. lia.
Qed.

(** The ranking for a limit given as a Python [int]: the slice [[:n]]
    is taken as Python takes it, so the bound on the length is stated
    for the limits that are counts. *)
Lemma ranked_for_any_limit (self : EnhancedSessionMemory) (q : str)
  (n : Z) :
  let h := analysis_history self in
  let score := relevance_score (lower q) in
  exists ranked : list (nat * AnalysisMemory),
    get_contextual_memory q n self = map snd ranked
    /\ Forall (fun p => nth_error h (fst p) = Some (snd p)) ranked
    /\ ((0 <= n)%Z ->
        (Z.of_nat (length (get_contextual_memory q n self)) <= n)%Z)
    /\ Forall (fun e => score e <> 0%Z) (get_contextual_memory q n self)
    /\ StronglySorted
         (by_key_then (fun p => score (snd p))
                      (fun p p' : nat * AnalysisMemory => (fst p > fst p')%nat))
         ranked
    /\ (h = [] -> get_contextual_memory q n self = [])
    /\ ((Z.of_nat (length h) <= n)%Z ->
        forall i e, nth_error h i = Some e -> score e <> 0%Z ->
                    In (i, e) ranked).
Proof.
  intros h score. exists (ranking q n h).
  pose proof (get_contextual_memory_ranking q n self) as Hres.
  fold h in Hres. destruct (ranking_props q n h) as [Hall Hsorted].
  fold score in Hall, Hsorted.
  split; [exact Hres|]. split.
  { eapply Forall_impl; [|exact Hall]. intros p [Hp _]. exact Hp. }
  split.
  { intros Hn. rewrite Hres, length_map. unfold ranking, slice_to.
    destruct (Z.leb_spec 0 n); [|lia].
    pose proof (firstn_le_length (Z.to_nat n)
                  (sort_desc (fun p => relevance_score (lower q) (snd p))
                     (filter (fun p => (relevance_score (lower q) (snd p) >? 0)%Z)
                             (rev (indexed h))))).
    lia. }
  split.
  { rewrite Hres. apply Forall_map. eapply Forall_impl; [|exact Hall].
    intros p [_ Hp]. lia. }
  split; [exact Hsorted|]. split.
  { intros Hnil. rewrite Hres, Hnil. unfold ranking, slice_to.
    cbn. destruct (0 <=? n)%Z; rewrite ?firstn_nil; reflexivity. }
  intros Hn i e Hi Hne. apply ranking_complete; [exact Hn | exact Hi |].
  unfold score in Hne. rewrite relevance_score_split in *.
  pose proof (lexical_signal_range (lower q) e).
  assert (0 <= type_signal (lower q) e)%Z
    by (unfold type_signal; destruct (find _ _); lia).
  lia.
Qed.

(** C5: for every session, question and limit [n] (a number of entries),
    [get_contextual_memory] returns at most [n] entries; they are
    entries of the history, none of score 0, in descending order of
    score and, among equal scores, from the more recently added to the
    older; on an empty history the result is empty.  (When the limit
    covers the history no entry of positive score is left out.) *)
Theorem contextual_memory_ranked (self : EnhancedSessionMemory) (q : str)
  (n : nat) :
  let h := analysis_history self in
  let score := relevance_score (lower q) in
  let result := get_contextual_memory q (Z.of_nat n) self in
  exists ranked : list (nat * AnalysisMemory),
    result = map snd ranked
    /\ Forall (fun p => nth_error h (fst p) = Some (snd p)) ranked
    /\ (length result <= n)%nat
    /\ Forall (fun e => score e <> 0%Z) result
    /\ StronglySorted
         (by_key_then (fun p => score (snd p))
                      (fun p p' : nat * AnalysisMemory => (fst p > fst p')%nat))
         ranked
    /\ (h = [] -> result = [])
    /\ ((length h <= n)%nat ->
        forall i e, nth_error h i = Some e -> score e <> 0%Z ->
                    In (i, e) ranked).
Proof.
  intros h score result.
  destruct (ranked_for_any_limit self q (Z.of_nat n))
    as [ranked [Hres [Hhist [Hlen [Hpos [Hsorted [Hnil Hall]]]]]]].
  exists ranked. split; [exact Hres|]. split; [exact Hhist|]. split.
  { specialize (Hlen (Nat2Z.is_nonneg n)). subst result. lia. }
  split; [exact Hpos|]. split; [exact Hsorted|]. split; [exact Hnil|].
  intros Hn. apply Hall. subst h. lia.
Qed.

(** C4: in a history of entries with pairwise distinct analysis types,
    when the question contains a keyword of one of the keyword families,
    the entry whose type is the tag of that family scores at least 3,
    and it comes before an otherwise identical entry whose type matches
    no family triggered by the question, wherever the latter appears in
    the result.  (It is in the result as soon as the limit covers the
    history.) *)
Theorem matching_type_outranks (self : EnhancedSessionMemory) (q : str)
  (tag kw : str) (keywords : list str) (e1 e2 : AnalysisMemory) :
  let h := analysis_history self in
  let score := relevance_score (lower q) in
  NoDup (map analysis_type h) ->
  In (tag, keywords) type_keywords -> In kw keywords ->
  contains kw q = true ->
  In e1 h -> analysis_type e1 = tag ->
  In e2 h ->
  e2 = {| timestamp := timestamp e1; question := question e1;
          analysis_type := analysis_type e2;
          key_findings := key_findings e1;
          visualizations := visualizations e1;
          data_patterns := data_patterns e1;
          recommendations := recommendations e1 |} ->
  (forall tag' keywords',
      In (tag', keywords') type_keywords ->
      contains_any keywords' (lower q) = true -> analysis_type e2 <> tag') ->
  (3 <= score e1)%Z
  /\ (score e2 < score e1)%Z
  /\ (forall n j,
         nth_error (get_contextual_memory q n self) j = Some e2 ->
         exists i, (i < j)%nat
                   /\ nth_error (get_contextual_memory q n self) i = Some e1)
  /\ (forall n, (Z.of_nat (length h) <= n)%Z ->
                In e1 (get_contextual_memory q n self)).
Proof.
  intros h score _ Hfam Hkw Hq He1 Htag He2 Hsame Hmiss.
  assert (Hany : contains_any keywords (lower q) = true).
  { unfold contains_any. apply existsb_exists. exists kw. split; [exact Hkw|].
    apply contains_lower; [|exact Hq].
    eapply type_keywords_lowercase; eassumption. }
  assert (Hs1 : score e1 = (lexical_signal (lower q) e1 + 3)%Z).
  { unfold score. rewrite relevance_score_split.
    rewrite (type_signal_hit _ _ _ _ Hfam Hany Htag). reflexivity. }
  assert (Hs2 : score e2 = lexical_signal (lower q) e1).
  { unfold score. rewrite relevance_score_split.
    rewrite (type_signal_miss _ _ Hmiss). rewrite Z.add_0_r.
    unfold lexical_signal. rewrite Hsame. reflexivity. }
  pose proof (lexical_signal_range (lower q) e1) as Hrange.
  split; [lia|]. split; [lia|].
  assert (Hfull : forall n, (Z.of_nat (length h) <= n)%Z ->
                            exists i1, In (i1, e1) (ranking q n h)).
  { intros n Hn. apply In_nth_error in He1 as [i1 Hi1]. exists i1.
    apply ranking_complete; [exact Hn | exact Hi1 | fold score; lia]. }
  split.
  - intros n j Hj. rewrite get_contextual_memory_ranking in *. fold h in Hj |- *.
    (* the ranking cut at [n] is a prefix of the uncut ranking *)
    set (full := sort_desc (fun p => score (snd p))
                   (filter (fun p => (score (snd p) >? 0)%Z) (rev (indexed h)))).
    assert (Hcut : exists k, ranking q n h = firstn k full)
      by (apply slice_to_firstn).
    destruct Hcut as [k Hk]. rewrite Hk in *.
    assert (Hfull_eq : ranking q (Z.of_nat (length h)) h = full).
    { unfold ranking, slice_to. fold score. fold full.
      destruct (Z.leb_spec 0 (Z.of_nat (length h))); [|lia].
      apply firstn_all2. unfold full.
      rewrite (Permutation_length (sort_desc_perm _ _)).
      etransitivity; [apply filter_length_le|].
      rewrite length_rev. unfold indexed, indexed_from.
      rewrite length_combine, length_seq. lia. }
    destruct (Hfull (Z.of_nat (length h))) as [i1 Hin1]; [lia|].
    rewrite Hfull_eq in Hin1. apply In_nth_error in Hin1 as [i Hi].
    rewrite nth_error_map in Hj.
    destruct (nth_error (firstn k full) j) as [[j2 e2']|] eqn:Ej;
      [|discriminate].
    cbn in Hj. injection Hj as ->.
    rewrite nth_error_firstn in Ej.
    destruct (Nat.ltb_spec j k) as [Hjk|]; [|discriminate].
    pose proof (ranking_props q (Z.of_nat (length h)) h) as [_ Hsorted].
    rewrite Hfull_eq in Hsorted. fold score in Hsorted.
    assert (Hij : (i < j)%nat).
    { destruct (Nat.lt_trichotomy i j) as [Hlt|[Heq|Hgt]]; [exact Hlt| |].
      - subst j. rewrite Hi in Ej. injection Ej as _ E. subst e2. lia.
      - pose proof (StronglySorted_nth _ _ Hsorted j i _ _ Hgt Ej Hi) as Hord.
        unfold by_key_then in Hord. cbn [snd] in Hord. lia. }
    exists i. split; [exact Hij|].
    rewrite nth_error_map, nth_error_firstn.
    destruct (Nat.ltb_spec i k); [|lia]. rewrite Hi. reflexivity.
  - intros n Hn. destruct (Hfull n Hn) as [i1 Hin].
    rewrite get_contextual_memory_ranking. fold h.
    apply in_map_iff. exists (i1, e1). split; [reflexivity | exact Hin].
Qed.

End Ranker.

(** ** The report generators *)

Section Reports.
Context `{PyEnv}.

(** C7: on an empty history [generate_summary] returns its fixed
    no-analyses message and [generate_comprehensive_conclusions] its
    fixed prompt to analyse first; both only read the session. *)
Theorem empty_history_messages (self : EnhancedSessionMemory) :
  analysis_history self = [] ->
  generate_summary self = py "Nenhuma análise realizada ainda."
  /\ generate_comprehensive_conclusions self
     = py "Nenhuma análise foi realizada ainda. Por favor, faça algumas análises primeiro.".
Proof.
  intros Hh. unfold generate_summary, generate_comprehensive_conclusions.
  rewrite Hh. split; reflexivity.
Qed.

Lemma conclusions_of_In (self : EnhancedSessionMemory) (line : str) :
  In line (conclusions_of self)
  <-> In line (preamble self) \/ In line (section1 self)
      \/ In line (section2 self) \/ In line (section3 self)
      \/ In line (section4 self) \/ In line (section5 self)
      \/ In line (section6 self) \/ In line (section7 self)
      \/ In line (section8 self) \/ In line (section9 self).
Proof. unfold conclusions_of. rewrite !in_app_iff. reflexivity. Qed.

Lemma rendered (self : EnhancedSessionMemory) (line : str) :
  analysis_history self <> [] -> In line (conclusions_of self) ->
  contains line (generate_comprehensive_conclusions self) = true.
Proof.
  intros Hh Hin. unfold generate_comprehensive_conclusions.
  destruct (analysis_history self); [congruence|].
  apply contains_join, Hin.
Qed.

Lemma fold_left_extend {A} (f : A -> list str) (l : list A) :
  forall acc : list str,
    fold_left (fun all x => all ++ f x) l acc = acc ++ flat_map f l.
Proof.
  induction l as [|x l IH]; intros acc; cbn [fold_left flat_map].
  - rewrite app_nil_r. reflexivity.
  - rewrite IH, <- app_assoc. reflexivity.
Qed.

Lemma join_app (sep : str) (a b : list str) :
  a <> [] -> b <> [] -> join sep (a ++ b) = join sep a ++ sep ++ join sep b.
Proof.
  intros Ha Hb. induction a as [|x a IH]; [congruence|].
  destruct a as [|y a].
  - destruct b as [|z b]; [congruence|]. reflexivity.
  - change (join sep ((x :: y :: a) ++ b))
      with (x ++ sep ++ join sep ((y :: a) ++ b)).
    rewrite IH by discriminate.
    change (join sep (x :: y :: a)) with (x ++ sep ++ join sep (y :: a)).
    rewrite <- !app_assoc. reflexivity.
Qed.

(** Consecutive lines of a joined text occur in it as a block. *)
Lemma contains_join_infix (sep : str) (a m b : list str) :
  m <> [] -> contains (join sep m) (join sep (a ++ m ++ b)) = true.
Proof.
  intros Hm. apply contains_spec.
  assert (Hmb : m ++ b <> []) by (destruct m; [congruence | discriminate]).
  destruct a as [|x a], b as [|y b].
  - exists [], []. cbn [app]. rewrite !app_nil_r. reflexivity.
  - exists [], (sep ++ join sep (y :: b)). cbn [app].
    rewrite join_app by (assumption || discriminate). reflexivity.
  - exists (join sep (x :: a) ++ sep), []. rewrite !app_nil_r.
    rewrite join_app by (assumption || discriminate).
    rewrite <- !app_assoc. reflexivity.
  - exists (join sep (x :: a) ++ sep), (sep ++ join sep (y :: b)).
    rewrite join_app by (assumption || discriminate).
    rewrite (join_app sep m) by (assumption || discriminate).
    rewrite <- !app_assoc. reflexivity.
Qed.

(** A text that does not hold the character [c] and occurs in
    [a ++ c :: b] occurs in [a] or in [b]. *)
Lemma contains_app_sep (k a b : str) (c : N) :
  ~ In c k -> contains k (a ++ c :: b) = true ->
  contains k a = true \/ contains k b = true.
Proof.
  intros Hc Hk. apply contains_spec in Hk as [x [y E]].
  apply app_eq_app in E as [l [[Ea Ek]|[Ex Eb]]].
  - apply app_eq_app in Ek as [l' [[Ek El]|[El Ey]]].
    + destruct l' as [|c' l'].
      * left. apply contains_spec. exists x, []. rewrite Ea, Ek, !app_nil_r.
        reflexivity.
      * cbn [app] in El. injection El as <- _. exfalso. apply Hc.
        rewrite Ek. apply in_or_app. right. left. reflexivity.
    + left. apply contains_spec. exists x, l'. rewrite Ea, El. reflexivity.
  - destruct l as [|c' l].
    + cbn [app] in Eb. destruct k as [|c' k].
      * left. apply contains_spec. exists a, []. rewrite app_nil_r. reflexivity.
      * cbn [app] in Eb. injection Eb as <- _. exfalso. apply Hc.
        left. reflexivity.
    + cbn [app] in Eb. injection Eb as _ Eb. right. apply contains_spec.
      exists l, y. exact Eb.
Qed.

(** A text without a line break that occurs in joined lines occurs in
    one of them. *)
Lemma contains_join_inv (k : str) (ls : list str) :
  k <> [] -> ~ In 0x0A k -> contains k (join nl ls) = true ->
  exists l, In l ls /\ contains k l = true.
Proof.
  intros Hk Hc. induction ls as [|x ls IH]; intros Hin.
  - cbn [join] in Hin. apply contains_spec in Hin as [a [b E]].
    destruct a; [destruct k; [congruence | discriminate] | discriminate].
  - destruct ls as [|y ls].
    + exists x. split; [left; reflexivity | exact Hin].
    + change (join nl (x :: y :: ls)) with (x ++ 0x0A :: join nl (y :: ls))
        in Hin.
      apply contains_app_sep in Hin as [Hin|Hin]; [| |exact Hc].
      * exists x. split; [left; reflexivity | exact Hin].
      * destruct (IH Hin) as [l [Hl Hkl]]. exists l.
        split; [right; exact Hl | exact Hkl].
Qed.

Lemma absent_from_join (k : str) (ls : list str) :
  k <> [] -> forallb (fun c => negb (c =? 0x0A)) k = true ->
  existsb (contains k) ls = false -> contains k (join nl ls) = false.
Proof.
  intros Hk Hc Hls. destruct (contains k (join nl ls)) eqn:E; [|reflexivity].
  apply contains_join_inv in E as [l [Hl Hkl]]; [|exact Hk|].
  - assert (existsb (contains k) ls = true)
      by (apply existsb_exists; exists l; split; assumption).
    congruence.
  - intros Hin. rewrite forallb_forall in Hc. specialize (Hc _ Hin).
    rewrite N.eqb_refl in Hc. discriminate.
Qed.

Lemma set_iter_nil : set_iter [] = [].
Proof.
  destruct (set_iter []) as [|x l] eqn:E; [reflexivity|].
  assert (Hx : In x (set_iter [])) by (rewrite E; left; reflexivity).
  apply (proj1 (set_iter_In _ _)) in Hx. destruct Hx.
Qed.

Lemma section3_bare (self : EnhancedSessionMemory) :
  Forall (fun kv => insight_key_findings (snd kv) = []) (data_insights self) ->
  section3 self = [header3; []].
Proof.
  intros Hf. unfold section3.
  assert (E : forall di : dict Insight,
             Forall (fun kv => insight_key_findings (snd kv) = []) di ->
             flat_map
               (fun '(atype, insights) =>
                  match insight_key_findings insights with
                  | [] => []
                  | _ =>
                      [nl ++ py "### " ++ title atype ++ py ":"]
                      ++ map (fun finding => py "  " ++ finding)
                             (firstn 5 (set_iter (insight_key_findings insights)))
                  end) di = []).
  { induction di as [|[atype insights] di IH]; intros Hdi; [reflexivity|].
    inversion Hdi as [|kv di' Hkv Hrest]; subst. cbn [snd] in Hkv.
    cbn [flat_map]. rewrite Hkv, (IH Hrest). reflexivity. }
  rewrite (E _ Hf). reflexivity.
Qed.

Lemma section4_head (self : EnhancedSessionMemory) :
  exists rest, section4 self = header4 :: rest.
Proof. unfold section4. cbn zeta. eexists. reflexivity. Qed.

Lemma section8_fallback (self : EnhancedSessionMemory) :
  Forall (fun e => recommendations e = []) (analysis_history self) ->
  section8 self
  = [header8;
     py "- Continue explorando os dados com análises mais específicas"; []].
Proof.
  intros Hf. unfold section8. cbn zeta.
  rewrite (fold_left_extend recommendations).
  assert (E : flat_map recommendations (analysis_history self) = []).
  { induction (analysis_history self) as [|e h IH]; [reflexivity|].
    inversion Hf as [|e' h' He Hh]; subst. cbn [flat_map].
    rewrite He, (IH Hh). reflexivity. }
  rewrite E. cbn [app]. rewrite set_iter_nil. reflexivity.
Qed.

Lemma header6_line :
  header6 <> [] /\ forallb (fun c => negb (c =? 0x0A)) header6 = true.
Proof.
  split; [|vm_compute; reflexivity].
  intros E. apply (f_equal (@length N)) in E. vm_compute in E. discriminate.
Qed.

Lemma header7_line :
  header7 <> [] /\ forallb (fun c => negb (c =? 0x0A)) header7 = true.
Proof.
  split; [|vm_compute; reflexivity].
  intros E. apply (f_equal (@length N)) in E. vm_compute in E. discriminate.
Qed.

Lemma report_is_join (self : EnhancedSessionMemory) :
  analysis_history self <> [] ->
  generate_comprehensive_conclusions self = join nl (conclusions_of self).
Proof.
  intros Hh. unfold generate_comprehensive_conclusions.
  destruct (analysis_history self); [congruence | reflexivity].
Qed.

Lemma headers_rendered (self : EnhancedSessionMemory) :
  analysis_history self <> [] ->
  Forall (fun header =>
            contains header (generate_comprehensive_conclusions self) = true)
         [header1; header2; header3; header4; header5; header8; header9].
Proof.
  intros Hh. repeat constructor; apply (rendered self _ Hh), conclusions_of_In.
  - right; left. left; reflexivity.
  - do 2 right; left. left; reflexivity.
  - do 3 right; left. left; reflexivity.
  - do 4 right; left. left; reflexivity.
  - do 5 right; left. left; reflexivity.
  - do 8 right; left. left; reflexivity.
  - do 9 right. left; reflexivity.
Qed.

Lemma fallback2_rendered (self : EnhancedSessionMemory) :
  analysis_history self <> [] -> global_patterns self = [] ->
  contains (py "- Nenhum padrão global identificado ainda")
           (generate_comprehensive_conclusions self) = true.
Proof.
  intros Hh Hg. apply (rendered self _ Hh), conclusions_of_In.
  do 2 right; left. unfold section2. rewrite Hg.
  right. left. reflexivity.
Qed.

Lemma section3_header_only (self : EnhancedSessionMemory) :
  analysis_history self <> [] ->
  Forall (fun kv => insight_key_findings (snd kv) = []) (data_insights self) ->
  contains (header3 ++ nl ++ nl ++ header4)
           (generate_comprehensive_conclusions self) = true.
Proof.
  intros Hh Hf. rewrite (report_is_join self Hh). unfold conclusions_of.
  rewrite (section3_bare self Hf).
  destruct (section4_head self) as [rest ->].
  generalize (section5 self ++ section6 self ++ section7 self
              ++ section8 self ++ section9 self).
  generalize (preamble self), (section1 self), (section2 self).
  generalize header3, header4.
  intros h3 h4 P S1 S2 T.
  replace (P ++ S1 ++ S2 ++ [h3; []] ++ (h4 :: rest) ++ T)
    with ((P ++ S1 ++ S2) ++ [h3; []; h4] ++ (rest ++ T))
    by (rewrite <- !app_assoc; reflexivity).
  apply (contains_trans _ (join nl [h3; []; h4])).
  - apply contains_spec. exists [], []. cbn [join app].
    rewrite app_nil_r. reflexivity.
  - apply contains_join_infix. discriminate.
Qed.

Lemma fallback4_rendered (self : EnhancedSessionMemory) :
  analysis_history self <> [] ->
  tracked (py "has_outliers") self = false ->
  tracked (py "many_outliers") self = false ->
  tracked (py "asymmetric_distributions") self = false ->
  contains (py "- Dados aparentam boa qualidade geral")
           (generate_comprehensive_conclusions self) = true.
Proof.
  intros Hh Ho Hm Ha. apply (rendered self _ Hh), conclusions_of_In.
  do 4 right; left. unfold section4. cbn zeta. rewrite Ho, Hm, Ha.
  right. left. reflexivity.
Qed.

Lemma fallback5_rendered (self : EnhancedSessionMemory) :
  analysis_history self <> [] ->
  tracked (py "has_correlations") self = false ->
  contains (py "- Variáveis aparentam ser relativamente independentes")
           (generate_comprehensive_conclusions self) = true.
Proof.
  intros Hh Hc. apply (rendered self _ Hh), conclusions_of_In.
  do 5 right; left. unfold section5. rewrite Hc.
  right. left. reflexivity.
Qed.

Lemma fallback8_rendered (self : EnhancedSessionMemory) :
  analysis_history self <> [] ->
  Forall (fun e => recommendations e = []) (analysis_history self) ->
  contains (py "- Continue explorando os dados com análises mais específicas")
           (generate_comprehensive_conclusions self) = true.
Proof.
  intros Hh Hf. apply (rendered self _ Hh), conclusions_of_In.
  do 8 right; left. rewrite (section8_fallback self Hf).
  right. left. reflexivity.
Qed.

Lemma section6_guarded (self : EnhancedSessionMemory) :
  analysis_history self <> [] ->
  if tracked (py "has_clusters") self
  then contains header6 (generate_comprehensive_conclusions self) = true
  else generate_comprehensive_conclusions self
       = join nl (without_section6 self)
       /\ (existsb (contains header6) (without_section6 self) = false ->
           contains header6 (generate_comprehensive_conclusions self) = false).
Proof.
  intros Hh. destruct (tracked (py "has_clusters") self) eqn:E.
  - apply (rendered self _ Hh), conclusions_of_In. do 6 right; left.
    unfold section6. rewrite E. left; reflexivity.
  - assert (Hs : section6 self = []) by (unfold section6; rewrite E; reflexivity).
    assert (Hw : generate_comprehensive_conclusions self
                 = join nl (without_section6 self)).
    { rewrite (report_is_join self Hh). unfold conclusions_of, without_section6.
      rewrite Hs. reflexivity. }
    split; [exact Hw|]. intros Hq. rewrite Hw.
    apply absent_from_join; [apply header6_line | apply header6_line | exact Hq].
Qed.

Lemma section7_guarded (self : EnhancedSessionMemory) :
  analysis_history self <> [] ->
  if tracked (py "has_temporal_patterns") self
  then contains header7 (generate_comprehensive_conclusions self) = true
  else generate_comprehensive_conclusions self
       = join nl (without_section7 self)
       /\ (existsb (contains header7) (without_section7 self) = false ->
           contains header7 (generate_comprehensive_conclusions self) = false).
Proof.
  intros Hh. destruct (tracked (py "has_temporal_patterns") self) eqn:E.
  - apply (rendered self _ Hh), conclusions_of_In. do 7 right; left.
    unfold section7. rewrite E. left; reflexivity.
  - assert (Hs : section7 self = []) by (unfold section7; rewrite E; reflexivity).
    assert (Hw : generate_comprehensive_conclusions self
                 = join nl (without_section7 self)).
    { rewrite (report_is_join self Hh). unfold conclusions_of, without_section7.
      rewrite Hs. reflexivity. }
    split; [exact Hw|]. intros Hq. rewrite Hw.
    apply absent_from_join; [apply header7_line | apply header7_line | exact Hq].
Qed.

(** C1 (amended): for a session with a non-empty history the report
    contains the headers of sections 1 to 5, 8 and 9 whatever the global
    patterns are.  Where the code of a section has a fallback line the
    report carries it on sparse data: section 2 when no pattern is
    tracked, section 4 when no quality pattern is, section 5 when
    [has_correlations] is not, section 8 when no entry has a
    recommendation; section 3 has none, and with no findings its header
    is followed by the empty line and the header of section 4.
    Sections 6 and 7 are guarded: the header is in the report when the
    pattern is tracked; when it is not, the report is the join of the
    lines of the other sections, and the header is absent from it
    unless one of those lines quotes it. *)
Theorem sections_rendered (self : EnhancedSessionMemory) :
  analysis_history self <> [] ->
  Forall (fun header =>
            contains header (generate_comprehensive_conclusions self) = true)
         [header1; header2; header3; header4; header5; header8; header9]
  /\ (global_patterns self = [] ->
      contains (py "- Nenhum padrão global identificado ainda")
               (generate_comprehensive_conclusions self) = true)
  /\ (Forall (fun kv => insight_key_findings (snd kv) = [])
             (data_insights self) ->
      contains (header3 ++ nl ++ nl ++ header4)
               (generate_comprehensive_conclusions self) = true)
  /\ (tracked (py "has_outliers") self = false ->
      tracked (py "many_outliers") self = false ->
      tracked (py "asymmetric_distributions") self = false ->
      contains (py "- Dados aparentam boa qualidade geral")
               (generate_comprehensive_conclusions self) = true)
  /\ (tracked (py "has_correlations") self = false ->
      contains (py "- Variáveis aparentam ser relativamente independentes")
               (generate_comprehensive_conclusions self) = true)
  /\ (Forall (fun e => recommendations e = []) (analysis_history self) ->
      contains (py "- Continue explorando os dados com análises mais específicas")
               (generate_comprehensive_conclusions self) = true)
  /\ (if tracked (py "has_clusters") self
      then contains header6 (generate_comprehensive_conclusions self) = true
      else generate_comprehensive_conclusions self
           = join nl (without_section6 self)
           /\ (existsb (contains header6) (without_section6 self) = false ->
               contains header6 (generate_comprehensive_conclusions self)
               = false))
  /\ (if tracked (py "has_temporal_patterns") self
      then contains header7 (generate_comprehensive_conclusions self) = true
      else generate_comprehensive_conclusions self
           = join nl (without_section7 self)
           /\ (existsb (contains header7) (without_section7 self) = false ->
               contains header7 (generate_comprehensive_conclusions self)
               = false)).
Proof.
  intros Hh.
  split; [exact (headers_rendered self Hh)|].
  split; [exact (fallback2_rendered self Hh)|].
  split; [exact (section3_header_only self Hh)|].
  split; [exact (fallback4_rendered self Hh)|].
  split; [exact (fallback5_rendered self Hh)|].
  split; [exact (fallback8_rendered self Hh)|].
  split; [exact (section6_guarded self Hh) | exact (section7_guarded self Hh)].
Qed.

End Reports.

(** ** Concrete sessions *)

Section Concrete.
Local Existing Instance latin1_env.

Lemma one_summary_reached : session_after 100 [summary_call] = Some one_summary.
Proof. vm_compute. reflexivity. Qed.

Lemma one_correlation_reached :
  session_after 100 [correlation_call] = Some one_correlation.
Proof. vm_compute. reflexivity. Qed.

Lemma two_types_reached :
  session_after 100 [correlation_call; outlier_call] = Some two_types.
Proof. vm_compute. reflexivity. Qed.

(** C1, as stated, fails: after one analysis whose text mentions neither
    clusters nor trends, the report has neither the header of section 6
    nor that of section 7. *)
Lemma clustering_header_omitted :
  session_after 100 [summary_call] = Some one_summary
  /\ analysis_history one_summary <> []
  /\ contains header6 (generate_comprehensive_conclusions one_summary) = false
  /\ contains header7 (generate_comprehensive_conclusions one_summary) = false.
Proof.
  split; [exact one_summary_reached|]. split; [discriminate|].
  split; vm_compute; reflexivity.
Qed.

Lemma one_cluster_reached :
  session_after 100 [cluster_call] = Some one_cluster.
Proof. vm_compute. reflexivity. Qed.

Lemma sections_rendered_witness :
  (analysis_history one_summary <> []
   /\ Forall (fun header =>
                contains header (generate_comprehensive_conclusions one_summary)
                = true)
             [header1; header2; header3; header4; header5; header8; header9]
   /\ contains (py "- Nenhum padrão global identificado ainda")
               (generate_comprehensive_conclusions one_summary) = true
   /\ contains (header3 ++ nl ++ nl ++ header4)
               (generate_comprehensive_conclusions one_summary) = true
   /\ contains (py "- Dados aparentam boa qualidade geral")
               (generate_comprehensive_conclusions one_summary) = true
   /\ contains (py "- Variáveis aparentam ser relativamente independentes")
               (generate_comprehensive_conclusions one_summary) = true
   /\ contains (py "- Continue explorando os dados com análises mais específicas")
               (generate_comprehensive_conclusions one_summary) = true
   /\ contains header6 (generate_comprehensive_conclusions one_summary) = false
   /\ contains header7 (generate_comprehensive_conclusions one_summary) = false)
  /\ (analysis_history one_cluster <> []
      /\ contains header6 (generate_comprehensive_conclusions one_cluster) = true
      /\ contains header7 (generate_comprehensive_conclusions one_cluster) = true).
Proof.
  assert (Hs : analysis_history one_summary <> []) by discriminate.
  assert (Hc : analysis_history one_cluster <> []) by discriminate.
  assert (S6 : tracked (py "has_clusters") one_summary = false)
    by (vm_compute; reflexivity).
  assert (S7 : tracked (py "has_temporal_patterns") one_summary = false)
    by (vm_compute; reflexivity).
  assert (C6 : tracked (py "has_clusters") one_cluster = true)
    by (vm_compute; reflexivity).
  assert (C7 : tracked (py "has_temporal_patterns") one_cluster = true)
    by (vm_compute; reflexivity).
  destruct (sections_rendered one_summary Hs)
    as [Hh [H2 [H3 [H4 [H5 [H8 [H6 H7]]]]]]].
  destruct (sections_rendered one_cluster Hc)
    as [_ [_ [_ [_ [_ [_ [K6 K7]]]]]]].
  rewrite S6 in H6. rewrite S7 in H7. rewrite C6 in K6. rewrite C7 in K7.
  destruct H6 as [_ H6]. destruct H7 as [_ H7].
  split.
  - split; [exact Hs|]. split; [exact Hh|].
    split; [apply H2; vm_compute; reflexivity|].
    split; [apply H3; vm_compute; repeat constructor|].
    split; [apply H4; vm_compute; reflexivity|].
    split; [apply H5; vm_compute; reflexivity|].
    split; [apply H8; vm_compute; repeat constructor|].
    split; [apply H6; vm_compute; reflexivity|].
    apply H7; vm_compute; reflexivity.
  - split; [exact Hc|]. split; [exact K6 | exact K7].
Defined.

Lemma history_keeps_last_witness :
  __init__ 1 = Some (fresh 1)
  /\ Forall2 builds [summary_call; correlation_call]
             [summary_entry; correlation_entry]
  /\ exists s,
       run [summary_call; correlation_call] (fresh 1) = Some s
       /\ Z.of_nat (length (analysis_history s)) = 1%Z
       /\ analysis_history s = [correlation_entry].
Proof.
  assert (Hb : Forall2 builds [summary_call; correlation_call]
                       [summary_entry; correlation_entry])
    by (repeat constructor; vm_compute; reflexivity).
  split; [reflexivity|]. split; [exact Hb|].
  apply (history_keeps_last 1 (fresh 1) [summary_call; correlation_call]
           [summary_entry; correlation_entry] eq_refl Hb).
  reflexivity.
Defined.

Lemma counts_outlive_history_witness :
  __init__ 100 = Some (fresh 100)
  /\ length (repeat (stamp, correlation_question, strong_text) 101) = 101%nat
  /\ exists s bucket,
       run (map (fun '(now, q, r) => AddAnalysis now q r (py "correlation"))
                (repeat (stamp, correlation_question, strong_text) 101))
           (fresh 100) = Some s
       /\ length (analysis_history s) = 100%nat
       /\ dict_get (py "correlation") (data_insights s) = Some bucket
       /\ insight_count bucket = 101%Z.
Proof.
  split; [reflexivity|]. split; [reflexivity|].
  apply (counts_outlive_history (fresh 100)
           (repeat (stamp, correlation_question, strong_text) 101));
    reflexivity.
Defined.

(** C8, as stated, fails: a text that contains "correlação forte" and
    mentions outliers leaves a third entry in the tracker. *)
Lemma third_pattern_tracked :
  exists s,
    session_after 100
      [AddAnalysis stamp correlation_question strong_outlier_text
                   (py "correlation")] = Some s
    /\ contains (py "correlação forte") (get_analysis strong_outlier_text) = true
    /\ dict_keys (global_patterns s)
       = [py "has_correlations"; py "strong_correlations"; py "has_outliers"].
Proof.
  exists (store_entry
            (built stamp correlation_question strong_outlier_text
                   (py "correlation") [])
            (fresh 100)).
  repeat split; vm_compute; reflexivity.
Qed.

Lemma strong_correlation_tracked_witness :
  __init__ 100 = Some (fresh 100)
  /\ exists s,
       add_analysis stamp correlation_question
         {| analysis := Some (py "Foi identificada uma "
                              ++ py "correlação forte"
                              ++ py " entre idade e renda.");
            plots := Some [py "heatmap"] |}
         (py "correlation") (fresh 100) = Some s
       /\ dict_get (py "has_correlations") (global_patterns s)
          = Some {| count := 1; analyses := [py "correlation"] |}
       /\ dict_get (py "strong_correlations") (global_patterns s)
          = Some {| count := 1; analyses := [py "correlation"] |}
       /\ ((forall kw, In kw other_family_keywords ->
              contains kw (lower (py "Foi identificada uma "
                                  ++ py "correlação forte"
                                  ++ py " entre idade e renda.")) = false) ->
           global_patterns s
           = [(py "has_correlations",
               {| count := 1; analyses := [py "correlation"] |});
              (py "strong_correlations",
               {| count := 1; analyses := [py "correlation"] |})]).
Proof.
  split; [reflexivity|].
  exact (strong_correlation_tracked 100 (fresh 100) stamp correlation_question
           (py "Foi identificada uma ") (py " entre idade e renda.")
           (Some [py "heatmap"]) eq_refl).
Defined.

Lemma pattern_count_witness :
  reachable one_correlation
  /\ dict_get (py "has_correlations") (global_patterns one_correlation)
     = Some {| count := 1; analyses := [py "correlation"] |}
  /\ count {| count := 1; analyses := [py "correlation"] |}
     = Z.of_nat (length (analyses {| count := 1;
                                     analyses := [py "correlation"] |})).
Proof.
  assert (Hr : reachable one_correlation).
  { exists 100%Z, [correlation_call], (fresh 100).
    split; [reflexivity | vm_compute; reflexivity]. }
  assert (Hg : dict_get (py "has_correlations") (global_patterns one_correlation)
               = Some {| count := 1; analyses := [py "correlation"] |})
    by (vm_compute; reflexivity).
  split; [exact Hr|]. split; [exact Hg|].
  exact (pattern_count_is_analyses_length one_correlation
           (py "has_correlations") _ Hr Hg).
Defined.

Lemma empty_history_messages_witness :
  analysis_history (fresh 100) = []
  /\ generate_summary (fresh 100) = py "Nenhuma análise realizada ainda."
  /\ generate_comprehensive_conclusions (fresh 100)
     = py "Nenhuma análise foi realizada ainda. Por favor, faça algumas análises primeiro.".
Proof.
  split; [reflexivity|]. apply (empty_history_messages (fresh 100)).
  reflexivity.
Defined.

Lemma matching_type_outranks_witness :
  analysis_history two_types = [correlation_entry; outlier_entry]
  /\ contains (py "correlação") correlation_question = true
  /\ (3 <= relevance_score (lower correlation_question) correlation_entry)%Z
  /\ (relevance_score (lower correlation_question) outlier_entry
      < relevance_score (lower correlation_question) correlation_entry)%Z
  /\ (forall n j,
         nth_error (get_contextual_memory correlation_question n two_types) j
         = Some outlier_entry ->
         exists i, (i < j)%nat
                   /\ nth_error
                        (get_contextual_memory correlation_question n two_types)
                        i = Some correlation_entry)
  /\ (forall n, (Z.of_nat (length (analysis_history two_types)) <= n)%Z ->
                In correlation_entry
                   (get_contextual_memory correlation_question n two_types)).
Proof.
  split; [reflexivity|]. split; [vm_compute; reflexivity|].
  apply (matching_type_outranks two_types correlation_question
           (py "correlation") (py "correlação")
           [py "correlação"; py "relação"; py "correlation"; py "relaciona"]
           correlation_entry outlier_entry).
  - vm_compute. repeat constructor; cbn [In]; intuition discriminate.
  - left; reflexivity.
  - left; reflexivity.
  - vm_compute; reflexivity.
  - left; reflexivity.
  - reflexivity.
  - right; left; reflexivity.
  - vm_compute; reflexivity.
  - intros tag' keywords' Hin Hany.
    repeat (destruct Hin as [E|Hin];
            [injection E as <- <-;
             first [ vm_compute in Hany; discriminate Hany
                   | vm_compute; discriminate ] |]).
    destruct Hin.
Defined.

Example py_decode_ex : py "ção•" = [0xE7; 0xE3; 0x6F; 0x2022].
Proof. reflexivity. Qed.

Example split_ex :
  split (py "ab") (py "xabyabab") = [py "x"; py "y"; []; []].
Proof. reflexivity. Qed.

Example split_ws_ex :
  split_ws (py "  ola  mundo ") = [py "ola"; py "mundo"].
Proof. reflexivity. Qed.

Example str_of_int_ex : str_of_int 101 = py "101" /\ str_of_int 0 = py "0".
Proof. split; reflexivity. Qed.

Example lower_ex : lower (py "CORRELAÇÃO Forte") = py "correlação forte".
Proof. vm_compute. reflexivity. Qed.

Example title_ex :
  title (replace (py "_") (py " ") (py "has_temporal_patterns"))
  = py "Has Temporal Patterns".
Proof. vm_compute. reflexivity. Qed.

Example findings_ex :
  _extract_key_findings
    {| analysis := Some (py "Resumo" ++ nl ++ py "  - media alta" ++ nl
                         ++ py "Foi Detectado um desvio" ++ nl ++ py "fim");
       plots := None |}
  = [py "- media alta"; py "Foi Detectado um desvio"].
Proof. vm_compute. reflexivity. Qed.

Example recommendations_ex :
  _extract_recommendations
    {| analysis := Some (py "- nota" ++ nl ++ py "Recomendações:" ++ nl
                         ++ py "- normalizar" ++ nl ++ py "- remover nulos");
       plots := None |}
  = Some [py "- normalizar"; py "- remover nulos"].
Proof. vm_compute. reflexivity. Qed.

Example ranking_ex :
  get_contextual_memory correlation_question 3 two_types
  = [correlation_entry; outlier_entry].
Proof. vm_compute. reflexivity. Qed.

End Concrete.

(** ** Invariants of the session *)

Section Invariants.
Context `{PyEnv}.

Lemma step_total (c : call) (self : EnhancedSessionMemory) :
  exists s, step c self = Some s
            /\ max_interactions s = max_interactions self.
Proof.
  destruct c as [now q r t|]; cbn [step].
  - destruct (add_analysis_stores now q r t self) as [e [_ [-> _]]].
    eexists. split; reflexivity.
  - eexists. split; reflexivity.
Qed.

Lemma run_total (cs : list call) :
  forall self : EnhancedSessionMemory,
    exists s, run cs self = Some s
              /\ max_interactions s = max_interactions self.
Proof.
  induction cs as [|c cs IH]; intros self; cbn [run].
  - exists self. split; reflexivity.
  - destruct (step_total c self) as [s1 [-> Hm1]].
    destruct (IH s1) as [s [Hr Hm]]. exists s. split; [exact Hr | congruence].
Qed.

Lemma step_history_bound (c : call) (self s : EnhancedSessionMemory) :
  (0 <= max_interactions self)%Z ->
  (Z.of_nat (length (analysis_history self)) <= max_interactions self)%Z ->
  step c self = Some s ->
  (Z.of_nat (length (analysis_history s)) <= max_interactions s)%Z.
Proof.
  intros Hc Hh. destruct c as [now q r t|]; cbn [step].
  - destruct (add_analysis_stores now q r t self) as [e [_ [-> _]]].
    intros [= <-]. cbn [store_entry analysis_history max_interactions].
    rewrite (length_deque_append _ _ e Hc Hh). lia.
  - intros [= <-]. cbn. lia.
Qed.

Lemma run_history_bound (cs : list call) :
  forall self s : EnhancedSessionMemory,
    (0 <= max_interactions self)%Z ->
    (Z.of_nat (length (analysis_history self)) <= max_interactions self)%Z ->
    run cs self = Some s ->
    (Z.of_nat (length (analysis_history s)) <= max_interactions s)%Z.
Proof.
  induction cs as [|c cs IH]; intros self s Hc Hh; cbn [run].
  - intros [= <-]. exact Hh.
  - destruct (step_total c self) as [s1 [E Hm1]]. rewrite E.
    apply IH; [lia|]. eapply step_history_bound; eassumption.
Qed.

(** X1: whatever calls of [add_analysis] and [clear] a session has seen,
    its history never holds more entries than the bound it was created
    with, and that bound never changes. *)
Theorem history_within_capacity (capacity : Z) (cs : list call)
  (s0 self : EnhancedSessionMemory) :
  __init__ capacity = Some s0 -> run cs s0 = Some self ->
  max_interactions self = capacity
  /\ (Z.of_nat (length (analysis_history self)) <= capacity)%Z.
Proof.
  intros Hinit Hrun. apply init_some in Hinit as [Hpos ->].
  destruct (run_total cs {| max_interactions := capacity;
                            analysis_history := []; data_insights := [];
                            conversation_summary := [];
                            global_patterns := [] |}) as [s [Hr Hm]].
  rewrite Hrun in Hr. injection Hr as <-. cbn in Hm.
  split; [exact Hm|]. rewrite <- Hm.
  eapply run_history_bound; [| |exact Hrun]; cbn; lia.
Qed.

(** X2: [clear] forgets everything but the bound: the calls made before
    a [clear] have no effect on the state reached after it. *)
Theorem clear_forgets (capacity : Z) (s0 : EnhancedSessionMemory)
  (before after : list call) :
  __init__ capacity = Some s0 ->
  run (before ++ Clear :: after) s0 = run after s0.
Proof.
  intros Hinit. apply init_some in Hinit as [_ ->].
  rewrite run_app.
  destruct (run_total before {| max_interactions := capacity;
                                analysis_history := []; data_insights := [];
                                conversation_summary := [];
                                global_patterns := [] |}) as [s [-> Hm]].
  cbn [run step]. unfold clear. rewrite Hm. reflexivity.
Qed.

End Invariants.

Section DictKeys.
Context {V : Type}.
Implicit Types (d : dict V) (k : str) (v : V).

Lemma dict_keys_set k k' v d :
  In k (dict_keys (dict_set k' v d)) <-> k = k' \/ In k (dict_keys d).
Proof.
  unfold dict_keys. induction d as [|[k0 v0] d IH]; cbn [dict_set map fst In].
  - intuition.
  - destruct (str_eqb k0 k') eqn:E; cbn [map fst In].
    + apply str_eqb_eq in E. subst k0. intuition.
    + rewrite IH. intuition.
Qed.

Lemma dict_get_keys k d : dict_get k d <> None <-> In k (dict_keys d).
Proof.
  unfold dict_keys. induction d as [|[k0 v0] d IH]; cbn [dict_get map fst In].
  - intuition.
  - destruct (str_eqb k0 k) eqn:E.
    + apply str_eqb_eq in E. subst k0. intuition discriminate.
    + apply str_eqb_neq in E. rewrite IH. intuition.
Qed.

Lemma dict_update_present k (f : V -> V) d v :
  dict_get k d = Some v -> dict_update k f d = dict_set k (f v) d.
Proof. intros E. unfold dict_update. rewrite E. reflexivity. Qed.

Lemma dict_In_get k v d :
  NoDup (dict_keys d) -> In (k, v) d -> dict_get k d = Some v.
Proof.
  unfold dict_keys. induction d as [|[k0 v0] d IH]; intros Hnd Hin; [destruct Hin|].
  cbn [map fst] in Hnd. inversion Hnd as [|? ? Hk Hrest]; subst.
  cbn [dict_get]. destruct Hin as [E|Hin].
  - injection E as -> ->. rewrite str_eqb_refl. reflexivity.
  - destruct (str_eqb k0 k) eqn:E; [|apply IH; assumption].
    apply str_eqb_eq in E. subst k0. exfalso. apply Hk.
    apply in_map_iff. exists (k, v). split; [reflexivity | exact Hin].
Qed.

Lemma dict_set_keys_NoDup k v d :
  NoDup (dict_keys d) -> NoDup (dict_keys (dict_set k v d)).
Proof.
  unfold dict_keys. induction d as [|[k0 v0] d IH]; intros Hnd;
    cbn [dict_set map fst].
  - repeat constructor. intros [].
  - cbn [map fst] in Hnd. inversion Hnd as [|? ? Hk Hrest]; subst.
    destruct (str_eqb k0 k) eqn:E; cbn [map fst].
    + constructor; assumption.
    + constructor; [|apply IH, Hrest].
      intros Hin. apply (dict_keys_set k0 k v d) in Hin as [->|Hin].
      * rewrite str_eqb_refl in E. discriminate.
      * contradiction.
Qed.

End DictKeys.

Section Buckets.
Context `{PyEnv}.

Lemma fold_update_present (t : str) (F : str -> bool -> Insight -> Insight)
  (ps : dict bool) :
  forall (di : dict Insight) (b : Insight),
    dict_get t di = Some b ->
    fold_left (fun di '(p, v) => dict_update t (F p v) di) ps di
    = dict_set t (fold_left (fun b '(p, v) => F p v b) ps b) di.
Proof.
  induction ps as [|[p v] ps IH]; intros di b Hb; cbn [fold_left].
  - clear -Hb. induction di as [|[k0 v0] di IH]; [discriminate|].
    cbn [dict_get dict_set] in *. destruct (str_eqb k0 t).
    + injection Hb as ->. reflexivity.
    + rewrite <- IH by exact Hb. reflexivity.
  - rewrite (dict_update_present _ _ _ _ Hb).
    rewrite (IH _ (F p v b)) by apply dict_get_set_same.
    apply dict_set_set.
Qed.

Lemma fold_patterns_bucket (ps : dict bool) :
  forall b : Insight,
    fold_left
      (fun b '(pattern, value) =>
         {| insight_count := insight_count b;
            insight_patterns := dict_set pattern value (insight_patterns b);
            last_analysis := last_analysis b;
            insight_key_findings := insight_key_findings b |}) ps b
    = {| insight_count := insight_count b;
         insight_patterns :=
           fold_left (fun ps '(pattern, value) => dict_set pattern value ps)
                     ps (insight_patterns b);
         last_analysis := last_analysis b;
         insight_key_findings := insight_key_findings b |}.
Proof.
  induction ps as [|[p v] ps IH]; intros b; cbn [fold_left].
  - destruct b; reflexivity.
  - rewrite IH. reflexivity.
Qed.

(** [_update_insights] rewrites one bucket, the one of the entry's type. *)
Lemma _update_insights_eq (e : AnalysisMemory) (di : dict Insight) :
  _update_insights e di
  = dict_set (analysis_type e)
      (absorb e (match dict_get (analysis_type e) di with
                 | Some b => b
                 | None => new_bucket
                 end)) di.
Proof.
  unfold _update_insights. set (t := analysis_type e).
  set (b0 := match dict_get t di with Some b => b | None => new_bucket end).
  set (di1 := if negb (dict_mem t di) then dict_set t _ di else di).
  assert (H1 : dict_get t di1 = Some b0 /\ dict_set t (absorb e b0) di1
                                          = dict_set t (absorb e b0) di).
  { unfold di1, b0, dict_mem. destruct (dict_get t di) as [b|] eqn:E; cbn [negb].
    - split; [exact E | reflexivity].
    - split; [apply dict_get_set_same | apply dict_set_set]. }
  destruct H1 as [Hg Hs]. rewrite <- Hs.
  rewrite (dict_update_present _ _ di1 _ Hg).
  rewrite (dict_update_present _ _ _ _ (dict_get_set_same _ _ _)), dict_set_set.
  rewrite (dict_update_present _ _ _ _ (dict_get_set_same _ _ _)), dict_set_set.
  rewrite (fold_update_present t
             (fun pattern value b =>
                {| insight_count := insight_count b;
                   insight_patterns := dict_set pattern value (insight_patterns b);
                   last_analysis := last_analysis b;
                   insight_key_findings := insight_key_findings b |})
             _ _ _ (dict_get_set_same _ _ _)).
  rewrite dict_set_set, fold_patterns_bucket. reflexivity.
Qed.

Lemma fold_set_keys (ps : dict bool) :
  forall (d : dict bool) (k : str),
    In k (dict_keys (fold_left (fun d '(p, v) => dict_set p v d) ps d)) ->
    In k (dict_keys ps) \/ In k (dict_keys d).
Proof.
  induction ps as [|[p v] ps IH]; intros d k Hin; cbn [fold_left] in Hin.
  - right. exact Hin.
  - apply IH in Hin as [Hin|Hin]; [left; right; exact Hin|].
    apply dict_keys_set in Hin as [->|Hin]; [left; left; reflexivity|].
    right. exact Hin.
Qed.

Lemma _extract_patterns_vocabulary (r : AnalysisResult) (k : str) :
  In k (dict_keys (_extract_patterns r)) -> In k (map fst pattern_vocabulary).
Proof.
  rewrite _extract_patterns_eq. unfold dict_keys. rewrite map_map, map_id.
  intros Hin. apply triggered_keys_In in Hin as [trig [Hin _]].
  apply in_map_iff. exists (k, trig). split; [reflexivity | exact Hin].
Qed.

Lemma absorb_ok (e : AnalysisMemory) (b : Insight) :
  (forall k, In k (dict_keys (data_patterns e)) ->
             In k (map fst pattern_vocabulary)) ->
  bucket_ok b \/ b = new_bucket -> bucket_ok (absorb e b).
Proof.
  intros He Hb. unfold bucket_ok, absorb.
  cbn [insight_count last_analysis insight_key_findings insight_patterns].
  pose proof (firstn_le_length 3 (key_findings e)) as Hk.
  rewrite length_app.
  assert (Hold : (0 <= insight_count b)%Z
                 /\ (Z.of_nat (length (insight_key_findings b))
                     <= 3 * insight_count b)%Z
                 /\ forall k, In k (dict_keys (insight_patterns b)) ->
                              In k (map fst pattern_vocabulary)).
  { destruct Hb as [[H1 [_ [H3 H4]]] | ->].
    - repeat split; [lia | exact H3 | exact H4].
    - cbn. repeat split; try lia; try (intros k []). }
  destruct Hold as [H1 [H3 H4]].
  repeat split; [lia | discriminate | lia |].
  intros k Hin. apply fold_set_keys in Hin as [Hin|Hin]; auto.
Qed.

Lemma _update_insights_ok (e : AnalysisMemory) (di : dict Insight) :
  (forall k, In k (dict_keys (data_patterns e)) ->
             In k (map fst pattern_vocabulary)) ->
  buckets_ok di -> buckets_ok (_update_insights e di).
Proof.
  intros He Hdi. rewrite _update_insights_eq.
  apply (dict_set_Forall bucket_ok); [exact Hdi|].
  apply absorb_ok; [exact He|].
  destruct (dict_get (analysis_type e) di) as [b|] eqn:E; [left | right; reflexivity].
  apply dict_get_In in E. unfold buckets_ok in Hdi.
  rewrite Forall_forall in Hdi. exact (Hdi _ E).
Qed.

Lemma run_buckets_ok (cs : list call) :
  forall self s : EnhancedSessionMemory,
    buckets_ok (data_insights self) -> run cs self = Some s ->
    buckets_ok (data_insights s).
Proof.
  induction cs as [|c cs IH]; intros self s Hok; cbn [run].
  - intros [= <-]. exact Hok.
  - destruct c as [now q r t|]; cbn [step].
    + destruct (add_analysis_stores now q r t self)
        as [e [_ [-> [_ [_ [_ Hp]]]]]].
      apply IH. cbn [store_entry data_insights].
      apply _update_insights_ok; [|exact Hok].
      rewrite Hp. apply _extract_patterns_vocabulary.
    + apply IH. constructor.
Qed.

(** X3: in every state reached from a fresh session, each bucket of
    [data_insights] has counted at least one analysis, records when the
    last one was made, holds at most three findings per analysis counted,
    and names only patterns of the extractor's vocabulary. *)
Theorem buckets_well_formed (self : EnhancedSessionMemory) (t : str)
  (b : Insight) :
  reachable self ->
  dict_get t (data_insights self) = Some b ->
  (1 <= insight_count b)%Z
  /\ last_analysis b <> None
  /\ (Z.of_nat (length (insight_key_findings b)) <= 3 * insight_count b)%Z
  /\ forall k, In k (dict_keys (insight_patterns b)) ->
               In k (map fst pattern_vocabulary).
Proof.
  intros [capacity [cs [s0 [Hinit Hrun]]]] Hget.
  apply init_some in Hinit as [_ ->].
  assert (Hok : buckets_ok (data_insights self)).
  { eapply run_buckets_ok; [|exact Hrun]. constructor. }
  apply dict_get_In in Hget. unfold buckets_ok in Hok.
  rewrite Forall_forall in Hok. exact (Hok _ Hget).
Qed.

End Buckets.

Section Aggregates.
Context `{PyEnv}.

Lemma insight_count_of_update (e : AnalysisMemory) (di : dict Insight) (t : str) :
  insight_count_of t (_update_insights e di)
  = (insight_count_of t di
     + (if str_eqb (analysis_type e) t then 1 else 0))%Z.
Proof.
  rewrite _update_insights_eq. unfold insight_count_of.
  destruct (str_eqb (analysis_type e) t) eqn:E.
  - apply str_eqb_eq in E. subst t. rewrite dict_get_set_same.
    destruct (dict_get (analysis_type e) di); reflexivity.
  - apply str_eqb_neq in E. rewrite dict_get_set_other by exact E.
    destruct (dict_get t di); lia.
Qed.

Lemma filter_tl_length {A} (p : A -> bool) (l : list A) :
  (length (filter p (tl l)) <= length (filter p l))%nat.
Proof. destruct l as [|x l]; cbn [tl filter]; [lia|]. destruct (p x); cbn; lia. Qed.

Lemma count_of_type_deque_append (c : Z) (h : list AnalysisMemory)
  (e : AnalysisMemory) (t : str) :
  (Z.of_nat (count_of_type t (deque_append c h e))
   <= Z.of_nat (count_of_type t h)
      + (if str_eqb (analysis_type e) t then 1 else 0))%Z.
Proof.
  unfold count_of_type, deque_append.
  assert (Hall : Z.of_nat (length (filter (fun e0 => str_eqb (analysis_type e0) t)
                                          (h ++ [e])))
                 = (Z.of_nat (length (filter (fun e0 => str_eqb (analysis_type e0) t) h))
                    + (if str_eqb (analysis_type e) t then 1 else 0))%Z).
  { rewrite filter_app, length_app. cbn [filter].
    destruct (str_eqb (analysis_type e) t); cbn [length]; lia. }
  destruct (Z.of_nat (length (h ++ [e])) >? c)%Z; [|lia].
  pose proof (filter_tl_length (fun e0 => str_eqb (analysis_type e0) t) (h ++ [e])).
  lia.
Qed.

Lemma run_history_counted (cs : list call) :
  forall self s : EnhancedSessionMemory,
    (forall t, (Z.of_nat (count_of_type t (analysis_history self))
                <= insight_count_of t (data_insights self))%Z) ->
    run cs self = Some s ->
    forall t, (Z.of_nat (count_of_type t (analysis_history s))
               <= insight_count_of t (data_insights s))%Z.
Proof.
  induction cs as [|c cs IH]; intros self s Hinv; cbn [run].
  - intros [= <-]. exact Hinv.
  - destruct c as [now q r ty|]; cbn [step].
    + destruct (add_analysis_stores now q r ty self) as [e [_ [-> _]]].
      apply IH. intros t. cbn [store_entry analysis_history data_insights].
      rewrite insight_count_of_update.
      pose proof (count_of_type_deque_append (max_interactions self)
                    (analysis_history self) e t).
      specialize (Hinv t). lia.
    + apply IH. intros t. cbn. lia.
Qed.

(** X4: the aggregate never counts less than the history holds: in every
    state reached from a fresh session, the entries of a type in the
    history are at most the count of that type's bucket, so every entry
    of the history has a bucket. *)
Theorem history_counted (self : EnhancedSessionMemory) :
  reachable self ->
  (forall t, (Z.of_nat (count_of_type t (analysis_history self))
              <= insight_count_of t (data_insights self))%Z)
  /\ (forall e, In e (analysis_history self) ->
                dict_get (analysis_type e) (data_insights self) <> None).
Proof.
  intros [capacity [cs [s0 [Hinit Hrun]]]].
  apply init_some in Hinit as [_ ->].
  assert (Hinv : forall t,
             (Z.of_nat (count_of_type t (analysis_history self))
              <= insight_count_of t (data_insights self))%Z).
  { eapply run_history_counted; [|exact Hrun]. intros t. cbn. lia. }
  split; [exact Hinv|]. intros e Hin Hnone.
  specialize (Hinv (analysis_type e)). unfold insight_count_of in Hinv.
  rewrite Hnone in Hinv.
  assert (Hpos : (1 <= count_of_type (analysis_type e) (analysis_history self))%nat).
  { unfold count_of_type.
    assert (Hf : In e (filter (fun e0 => str_eqb (analysis_type e0) (analysis_type e))
                              (analysis_history self)))
      by (apply filter_In; split; [exact Hin | apply str_eqb_refl]).
    destruct (filter _ (analysis_history self)); [destruct Hf | cbn; lia]. }
  lia.
Qed.

Lemma count_pattern_keys (t p k : str) (gp : dict PatternStat) :
  In k (dict_keys (count_pattern t p gp)) <-> k = p \/ In k (dict_keys gp).
Proof. rewrite count_pattern_eq. apply dict_keys_set. Qed.

Lemma _update_global_patterns_keys (e : AnalysisMemory) (gp : dict PatternStat)
  (k : str) :
  In k (dict_keys (_update_global_patterns e gp)) ->
  In k (dict_keys (data_patterns e)) \/ In k (dict_keys gp).
Proof.
  unfold _update_global_patterns. generalize (data_patterns e) as ps.
  intros ps; revert gp; induction ps as [|[p v] ps IH]; intros gp Hin;
    cbn [fold_left] in Hin.
  - right. exact Hin.
  - apply IH in Hin as [Hin|Hin]; [left; right; exact Hin|].
    apply count_pattern_keys in Hin as [->|Hin]; [left; left; reflexivity|].
    right. exact Hin.
Qed.

Lemma analyses_known_mono (di di' : dict Insight) (gp : dict PatternStat) :
  (forall t, In t (dict_keys di) -> In t (dict_keys di')) ->
  analyses_known di gp -> analyses_known di' gp.
Proof.
  intros Hsub Hgp. unfold analyses_known in *.
  eapply Forall_impl; [|exact Hgp]. intros kv Hkv t Ht. auto.
Qed.

Lemma count_pattern_known (di : dict Insight) (t p : str) (gp : dict PatternStat) :
  In t (dict_keys di) -> analyses_known di gp ->
  analyses_known di (count_pattern t p gp).
Proof.
  intros Ht Hgp. rewrite count_pattern_eq.
  apply (dict_set_Forall
           (fun v => forall t0, In t0 (analyses v) -> In t0 (dict_keys di)));
    [exact Hgp|].
  intros t0 Hin. cbn [bump analyses] in Hin.
  apply in_app_iff in Hin as [Hin|[<-|[]]]; [|exact Ht].
  destruct (dict_get p gp) as [v|] eqn:E; [|destruct Hin].
  apply dict_get_In in E. unfold analyses_known in Hgp.
  rewrite Forall_forall in Hgp. exact (Hgp _ E t0 Hin).
Qed.

Lemma _update_global_patterns_known (di : dict Insight) (e : AnalysisMemory)
  (gp : dict PatternStat) :
  In (analysis_type e) (dict_keys di) -> analyses_known di gp ->
  analyses_known di (_update_global_patterns e gp).
Proof.
  intros Ht. unfold _update_global_patterns. generalize (data_patterns e) as ps.
  intros ps; revert gp; induction ps as [|[p v] ps IH]; intros gp Hgp;
    [exact Hgp|].
  cbn [fold_left]. apply IH, count_pattern_known; assumption.
Qed.

Lemma run_patterns_known (cs : list call) :
  forall self s : EnhancedSessionMemory,
    (forall k, In k (dict_keys (global_patterns self)) ->
               In k (map fst pattern_vocabulary)) ->
    analyses_known (data_insights self) (global_patterns self) ->
    run cs self = Some s ->
    (forall k, In k (dict_keys (global_patterns s)) ->
               In k (map fst pattern_vocabulary))
    /\ analyses_known (data_insights s) (global_patterns s).
Proof.
  induction cs as [|c cs IH]; intros self s Hk Ha; cbn [run].
  - intros [= <-]. split; assumption.
  - destruct c as [now q r ty|]; cbn [step].
    + destruct (add_analysis_stores now q r ty self)
        as [e [_ [-> [_ [_ [_ Hp]]]]]].
      apply IH; cbn [store_entry global_patterns data_insights].
      * intros k Hin. apply _update_global_patterns_keys in Hin as [Hin|Hin];
          [|auto]. rewrite Hp in Hin.
        apply _extract_patterns_vocabulary in Hin. exact Hin.
      * apply _update_global_patterns_known.
        -- rewrite _update_insights_eq. apply dict_keys_set. left; reflexivity.
        -- eapply analyses_known_mono; [|exact Ha].
           intros t Ht. rewrite _update_insights_eq. apply dict_keys_set.
           right. exact Ht.
    + apply IH; cbn; [intros k [] | constructor].
Qed.

(** X5: in every state reached from a fresh session, each tracked global
    pattern is a key of the extractor's vocabulary, and every analysis
    type recorded for it has a bucket in [data_insights]. *)
Theorem tracked_patterns_known (self : EnhancedSessionMemory) (k : str)
  (stat : PatternStat) :
  reachable self ->
  dict_get k (global_patterns self) = Some stat ->
  In k (map fst pattern_vocabulary)
  /\ forall t, In t (analyses stat) ->
               dict_get t (data_insights self) <> None.
Proof.
  intros [capacity [cs [s0 [Hinit Hrun]]]] Hget.
  apply init_some in Hinit as [_ ->].
  destruct (run_patterns_known cs (fresh capacity) self) as [Hk Ha];
    [intros k0 [] | constructor | exact Hrun |].
  split.
  - apply Hk. apply dict_get_keys. congruence.
  - intros t Ht. apply dict_get_keys. apply dict_get_In in Hget.
    unfold analyses_known in Ha. rewrite Forall_forall in Ha.
    exact (Ha _ Hget t Ht).
Qed.

End Aggregates.

(** ** The tally of analysis types *)

Section Tally.
Context `{PyEnv}.

Lemma count_types_fold (h : list AnalysisMemory) :
  forall (d : dict Z) (t : str),
    NoDup (dict_keys d) ->
    let tally :=
      fold_left
        (fun type_counts entry =>
           dict_set (analysis_type entry)
             (match dict_get (analysis_type entry) type_counts with
              | Some c => c | None => 0%Z end + 1)%Z
             type_counts) h d in
    NoDup (dict_keys tally)
    /\ dict_get t tally
       = match dict_get t d with
         | Some c0 => Some (c0 + Z.of_nat (count_of_type t h))%Z
         | None => if (count_of_type t h =? 0)%nat then None
                   else Some (Z.of_nat (count_of_type t h))
         end.
Proof.
  induction h as [|e h IH]; intros d t Hnd; cbn zeta; cbn [fold_left].
  - split; [exact Hnd|]. unfold count_of_type. cbn.
    destruct (dict_get t d); [f_equal; lia | reflexivity].
  - specialize (IH (dict_set (analysis_type e)
                      (match dict_get (analysis_type e) d with
                       | Some c => c | None => 0%Z end + 1)%Z d) t
                   (dict_set_keys_NoDup _ _ _ Hnd)).
    cbn zeta in IH. destruct IH as [Hnd' Hget]. split; [exact Hnd'|].
    rewrite Hget. unfold count_of_type. cbn [filter].
    destruct (str_eqb (analysis_type e) t) eqn:E.
    + apply str_eqb_eq in E. subst t. rewrite dict_get_set_same.
      cbn [length]. destruct (dict_get (analysis_type e) d).
      * f_equal. lia.
      * cbn [Nat.eqb]. f_equal. lia.
    + apply str_eqb_neq in E. rewrite dict_get_set_other by exact E.
      reflexivity.
Qed.

(** X6: the tally both reports are built on gives each analysis type of
    the history, once, with the number of history entries of that type,
    and gives nothing for a type the history does not hold. *)
Theorem count_types_tally (h : list AnalysisMemory) (t : str) :
  NoDup (dict_keys (count_types h))
  /\ dict_get t (count_types h)
     = (if (count_of_type t h =? 0)%nat then None
        else Some (Z.of_nat (count_of_type t h))).
Proof.
  destruct (count_types_fold h [] t) as [Hnd Hget]; [constructor|].
  split; [exact Hnd | exact Hget].
Qed.

Lemma count_types_In (h : list AnalysisMemory) (e : AnalysisMemory) :
  In e h ->
  In (analysis_type e, Z.of_nat (count_of_type (analysis_type e) h))
     (count_types h).
Proof.
  intros Hin. apply dict_get_In.
  destruct (count_types_fold h [] (analysis_type e)) as [_ Hget];
    [constructor|].
  cbn zeta in Hget. cbn [dict_get] in Hget. unfold count_types. rewrite Hget.
  destruct (Nat.eqb_spec (count_of_type (analysis_type e) h) 0) as [E|];
    [|reflexivity].
  exfalso. unfold count_of_type in E.
  assert (Hf : In e (filter (fun e0 => str_eqb (analysis_type e0) (analysis_type e)) h))
    by (apply filter_In; split; [exact Hin | apply str_eqb_refl]).
  destruct (filter _ h); [destruct Hf | discriminate].
Qed.

(** X7: both reports state, for every entry of the history, how many
    entries of its analysis type the history holds, and the summary
    states the size of the history. *)
Theorem reports_count_types (self : EnhancedSessionMemory) (e : AnalysisMemory) :
  In e (analysis_history self) ->
  let h := analysis_history self in
  let n := str_of_int (Z.of_nat (count_of_type (analysis_type e) h)) in
  contains (py "- " ++ analysis_type e ++ py ": " ++ n ++ py " análises")
           (generate_summary self) = true
  /\ contains (py "Total de análises: "
               ++ str_of_int (Z.of_nat (length h)) ++ nl)
              (generate_summary self) = true
  /\ contains (py "- **" ++ analysis_type e ++ py "**: " ++ n
               ++ py " análise(s)")
              (generate_comprehensive_conclusions self) = true.
Proof.
  intros Hin h n. subst h n.
  pose proof (count_types_In _ _ Hin) as Hc.
  assert (Hne : analysis_history self <> [])
    by (intros E; rewrite E in Hin; destruct Hin).
  split; [|split].
  - unfold generate_summary.
    remember (analysis_history self) as h eqn:Eh.
    destruct h as [|e0 h0]; [destruct Hin|].
    apply contains_join.
    assert (Hline : In (py "- " ++ analysis_type e ++ py ": "
                        ++ str_of_int
                             (Z.of_nat (count_of_type (analysis_type e) (e0 :: h0)))
                        ++ py " análises")
                       (map (fun '(analysis_type, count) =>
                               py "- " ++ analysis_type ++ py ": "
                               ++ str_of_int count ++ py " análises")
                            (count_types (e0 :: h0)))).
    { apply in_map_iff. eexists (_, _). split; [|exact Hc]. reflexivity. }
    destruct (global_patterns self); rewrite !in_app_iff; auto.
  - unfold generate_summary.
    remember (analysis_history self) as h eqn:Eh.
    destruct h as [|e0 h0]; [destruct Hin|].
    apply contains_join.
    destruct (global_patterns self); rewrite !in_app_iff; cbn [In]; auto 10.
  - apply (rendered self _ Hne), conclusions_of_In. right; left.
    unfold section1. rewrite !in_app_iff. right; left.
    apply in_map_iff. eexists (_, _). split; [|exact Hc]. reflexivity.
Qed.

End Tally.

(** ** Recall of earlier questions *)

Lemma split_ws_from_infix (s : str) :
  forall (cur w : str),
    In w (split_ws_from cur s) -> exists a b, rev cur ++ s = a ++ w ++ b.
Proof.
  induction s as [|c t IH]; intros cur w Hin; cbn [split_ws_from] in Hin.
  - destruct cur as [|x cur]; [destruct Hin|].
    destruct Hin as [<-|[]]. exists [], []. rewrite !app_nil_r. reflexivity.
  - destruct (isspace c).
    + destruct cur as [|x cur].
      * apply IH in Hin as [a [b E]]. cbn [rev app] in *.
        exists (c :: a), b. rewrite E. reflexivity.
      * destruct Hin as [<-|Hin].
        -- exists [], (c :: t). reflexivity.
        -- apply IH in Hin as [a [b E]]. cbn [rev app] in E.
           exists (rev (x :: cur) ++ c :: a), b. rewrite E, <- !app_assoc.
           reflexivity.
    + apply IH in Hin as [a [b E]]. exists a, b. rewrite <- E.
      cbn [rev]. rewrite <- app_assoc. reflexivity.
Qed.

(** A word of [s.split()] occurs in [s]. *)
Lemma split_ws_infix (s w : str) :
  In w (split_ws s) -> contains w s = true.
Proof.
  intros Hin. apply split_ws_from_infix in Hin as [a [b E]].
  apply contains_spec. exists a, b. exact E.
Qed.

Lemma prefix_before (kw : list N) :
  forall (a b y : list N) (c : N),
    kw ++ y = a ++ c :: b -> ~ In c kw -> exists y', a = kw ++ y'.
Proof.
  induction kw as [|k kw IH]; intros a b y c E Hc.
  - exists a. reflexivity.
  - destruct a as [|a0 a].
    + cbn in E. injection E as -> _. exfalso. apply Hc. left; reflexivity.
    + cbn in E. injection E as -> E.
      destruct (IH a b y c E) as [y' ->]; [intros Hin; apply Hc; right; exact Hin|].
      exists y'. reflexivity.
Qed.

(** An occurrence of [kw] in a text cut at a character foreign to [kw]
    lies on one side of the cut. *)
Lemma infix_split_at (kw a : list N) :
  forall (b x y : list N) (c : N),
    a ++ c :: b = x ++ kw ++ y -> ~ In c kw ->
    (exists x' y', a = x' ++ kw ++ y') \/ (exists x' y', b = x' ++ kw ++ y').
Proof.
  induction a as [|a0 a IH]; intros b x y c E Hc.
  - destruct x as [|x0 x].
    + cbn [app] in E. symmetry in E.
      destruct (prefix_before kw [] b y c E Hc) as [y' Hy].
      left. exists [], y'. exact Hy.
    + cbn in E. injection E as _ E. right. exists x, y. exact E.
  - destruct x as [|x0 x].
    + cbn [app] in E. symmetry in E.
      destruct (prefix_before kw (a0 :: a) b y c E Hc) as [y' Hy].
      left. exists [], y'. exact Hy.
    + cbn in E. injection E as -> E.
      destruct (IH b x y c E Hc) as [[x' [y' ->]]|[x' [y' ->]]].
      * left. exists (x0 :: x'), y'. reflexivity.
      * right. exists x', y'. reflexivity.
Qed.

(** A keyword without whitespace that occurs in a text occurs in one of
    its words. *)
Lemma split_ws_from_word (kw s : str) :
  kw <> [] -> forallb (fun c => negb (isspace c)) kw = true ->
  forall cur,
    contains kw (rev cur ++ s) = true ->
    exists w, In w (split_ws_from cur s) /\ contains kw w = true.
Proof.
  intros Hne Hkw. induction s as [|c t IH]; intros cur Hc;
    cbn [split_ws_from].
  - rewrite app_nil_r in Hc. destruct cur as [|x cur].
    + cbn in Hc. rewrite orb_false_r in Hc. destruct kw; [congruence|discriminate].
    + exists (rev (x :: cur)). split; [left; reflexivity | exact Hc].
  - destruct (isspace c) eqn:Ec.
    + assert (Hnot : ~ In c kw).
      { intros Hin. rewrite forallb_forall in Hkw. specialize (Hkw c Hin).
        rewrite Ec in Hkw. discriminate. }
      apply contains_spec in Hc as [x [y E]].
      destruct (infix_split_at kw (rev cur) t x y c E Hnot)
        as [[x' [y' Ea]]|[x' [y' Eb]]].
      * destruct cur as [|z cur].
        -- cbn in Ea. destruct x'; destruct kw; cbn in Ea; congruence.
        -- exists (rev (z :: cur)). split; [left; reflexivity|].
           apply contains_spec. exists x', y'. exact Ea.
      * destruct (IH []) as [w [Hw Hcw]].
        { apply contains_spec. exists x', y'. exact Eb. }
        exists w. split; [|exact Hcw].
        destruct cur; [exact Hw | right; exact Hw].
    + apply IH. cbn [rev]. rewrite <- app_assoc. exact Hc.
Qed.

Lemma contains_length (needle hay : str) :
  contains needle hay = true -> (length needle <= length hay)%nat.
Proof.
  intros Hc. apply contains_spec in Hc as [a [b ->]].
  rewrite !length_app. lia.
Qed.

Lemma keyword_gives_long_word (kw s : str) :
  forallb (fun c => negb (isspace c)) kw = true -> (3 < length kw)%nat ->
  contains kw s = true ->
  exists w, In w (split_ws s) /\ (3 < length w)%nat.
Proof.
  intros Hkw Hlen Hc.
  destruct (split_ws_from_word kw s) with (cur := @nil N) as [w [Hw Hcw]];
    [destruct kw; [cbn in Hlen; lia | discriminate] | exact Hkw | exact Hc |].
  exists w. split; [exact Hw|]. apply contains_length in Hcw. lia.
Qed.

Section Recall.
Context `{PyEnv}.

Lemma lexical_signal_same_question (q : str) (e : AnalysisMemory) :
  question e = q ->
  (exists word, In word (split_ws (lower q)) /\ (3 < length word)%nat) ->
  lexical_signal (lower q) e = 2%Z.
Proof.
  intros Hq [word [Hw Hlen]]. unfold lexical_signal.
  assert (Hex : existsb (fun word0 => contains word0 (lower (question e)))
                        (filter (fun word0 => (3 <? length word0)%nat)
                                (split_ws (lower q))) = true).
  { apply existsb_exists. exists word. split.
    - apply filter_In. split; [exact Hw|]. apply Nat.ltb_lt. exact Hlen.
    - rewrite Hq. apply split_ws_infix. exact Hw. }
  rewrite Hex. reflexivity.
Qed.

Lemma type_signal_nonneg (ql : str) (e : AnalysisMemory) :
  (0 <= type_signal ql e)%Z.
Proof. unfold type_signal. destruct (find _ _); lia. Qed.

(** X8: a question that has a word of more than three characters, asked
    again, scores at least 2 against every earlier entry made for that
    same question, so the entry is recalled as soon as the limit covers
    the history. *)
Theorem same_question_recalled (self : EnhancedSessionMemory) (q : str)
  (e : AnalysisMemory) :
  In e (analysis_history self) -> question e = q ->
  (exists word, In word (split_ws (lower q)) /\ (3 < length word)%nat) ->
  (2 <= relevance_score (lower q) e)%Z
  /\ forall n, (Z.of_nat (length (analysis_history self)) <= n)%Z ->
               In e (get_contextual_memory q n self).
Proof.
  intros Hin Hq Hword.
  assert (Hs : (2 <= relevance_score (lower q) e)%Z).
  { rewrite relevance_score_split, (lexical_signal_same_question q e Hq Hword).
    pose proof (type_signal_nonneg (lower q) e). lia. }
  split; [exact Hs|]. intros n Hn.
  apply In_nth_error in Hin as [i Hi].
  rewrite get_contextual_memory_ranking. apply in_map_iff.
  exists (i, e). split; [reflexivity|].
  apply ranking_complete; [exact Hn | exact Hi | lia].
Qed.

End Recall.

(** ** What the extractors return is text of the analysis *)

Lemma split_from_infix (sep s : str) :
  forall (skip : nat) (cur w : str),
    skip = 0%nat \/ cur = [] ->
    In w (split_from sep skip cur s) -> exists a b, rev cur ++ s = a ++ w ++ b.
Proof.
  induction s as [|c t IH]; intros skip cur w Hmode Hin; cbn [split_from] in Hin.
  - destruct Hin as [<-|[]]. exists [], []. rewrite !app_nil_r. reflexivity.
  - destruct skip as [|k].
    + destruct (startswith (c :: t) sep).
      * destruct Hin as [<-|Hin]; [exists [], (c :: t); reflexivity|].
        apply IH in Hin as [a [b E]]; [|right; reflexivity].
        cbn [rev app] in E. exists (rev cur ++ c :: a), b.
        rewrite E, <- !app_assoc. reflexivity.
      * apply IH in Hin as [a [b E]]; [|left; reflexivity].
        exists a, b. rewrite <- E. cbn [rev]. rewrite <- app_assoc. reflexivity.
    + destruct Hmode as [E0 | ->]; [discriminate|].
      apply IH in Hin as [a [b E]]; [|right; reflexivity].
      cbn [rev app] in *. exists (c :: a), b. rewrite E. reflexivity.
Qed.

(** A field of [s.split(sep)] occurs in [s]. *)
Lemma split_infix (sep s w : str) :
  In w (split sep s) -> contains w s = true.
Proof.
  intros Hin. apply split_from_infix in Hin as [a [b E]]; [|left; reflexivity].
  apply contains_spec. exists a, b. exact E.
Qed.

Lemma lstrip_suffix (s : str) : exists a, s = a ++ lstrip s.
Proof.
  induction s as [|c t [a IH]]; [exists []; reflexivity|].
  cbn [lstrip]. destruct (isspace c).
  - exists (c :: a). cbn [app]. f_equal. exact IH.
  - exists []. reflexivity.
Qed.

Lemma strip_infix (s : str) : contains (strip s) s = true.
Proof.
  unfold strip, rstrip. destruct (lstrip_suffix s) as [a Ha].
  destruct (lstrip_suffix (rev (lstrip s))) as [b Hb].
  apply contains_spec. exists a, (rev b).
  rewrite Ha at 1. f_equal.
  rewrite <- (rev_involutive (lstrip s)), Hb at 1.
  rewrite rev_app_distr. reflexivity.
Qed.

Lemma fold_left_collect2 {A B} (p1 p2 : A -> bool) (g : A -> B) (l : list A) :
  forall acc,
    fold_left (fun acc x => if p1 x then acc ++ [g x]
                            else if p2 x then acc ++ [g x] else acc) l acc
    = acc ++ map g (filter (fun x => p1 x || p2 x) l).
Proof.
  induction l as [|x l IH]; intros acc; cbn [fold_left filter].
  - rewrite app_nil_r. reflexivity.
  - rewrite IH. destruct (p1 x); [|destruct (p2 x)]; cbn [orb map];
      rewrite <- ?app_assoc; reflexivity.
Qed.

Section ExtractedText.
Context `{PyEnv}.

(** X9: every key finding is a line of the analysis text with the
    surrounding whitespace removed, so it occurs verbatim in the text;
    the line begins (after trimming) with a hyphen or a bullet, or its
    lowercased form mentions a discovery keyword. *)
Theorem key_findings_are_lines (r : AnalysisResult) (f : str) :
  In f (_extract_key_findings r) ->
  contains f (get_analysis r) = true
  /\ exists line,
       In line (split nl (get_analysis r)) /\ f = strip line
       /\ (startswith f (py "-") || startswith f (py "•")
           || existsb (fun keyword => contains keyword (lower line))
                      discovery_keywords) = true.
Proof.
  unfold _extract_key_findings. intros Hin. apply In_firstn in Hin.
  rewrite (fold_left_collect2
             (fun line => startswith (strip line) (py "-")
                          || startswith (strip line) (py "•"))
             (fun line => existsb (fun keyword => contains keyword (lower line))
                                  discovery_keywords)
             strip) in Hin.
  cbn [app] in Hin. apply in_map_iff in Hin as [line [<- Hl]].
  apply filter_In in Hl as [Hl Hq].
  split.
  - eapply contains_trans; [apply strip_infix | apply (split_infix nl), Hl].
  - exists line. split; [exact Hl|]. split; [reflexivity | exact Hq].
Qed.

Lemma recommendation_lines (section : str) (rec : str) :
  In rec (fold_left
            (fun recommendations line =>
               if startswith (strip line) (py "-")
               then recommendations ++ [strip line]
               else recommendations)
            (split nl section) []) ->
  startswith rec (py "-") = true /\ contains rec section = true.
Proof.
  rewrite (fold_left_collect (fun line => startswith (strip line) (py "-")) strip).
  cbn [app]. intros Hin. apply in_map_iff in Hin as [line [<- Hl]].
  apply filter_In in Hl as [Hl Hq]. split; [exact Hq|].
  eapply contains_trans; [apply strip_infix | apply (split_infix nl), Hl].
Qed.

(** X10: every recommendation the memory extracts begins with a hyphen
    and occurs verbatim in the analysis text; when the lowercased text
    contains neither "recomenda" nor "consider" there is none. *)
Theorem recommendations_are_hyphen_lines (r : AnalysisResult) :
  exists recs,
    _extract_recommendations r = Some recs
    /\ (forall rec, In rec recs ->
                    startswith rec (py "-") = true
                    /\ contains rec (get_analysis r) = true)
    /\ (contains (py "recomenda") (lower (get_analysis r)) = false ->
        contains (py "consider") (lower (get_analysis r)) = false ->
        recs = []).
Proof.
  destruct (_extract_recommendations_total r) as [recs E]. exists recs.
  split; [exact E|]. unfold _extract_recommendations in E.
  destruct (contains (py "recomenda") (lower (get_analysis r))
            || contains (py "consider") (lower (get_analysis r))) eqn:Em.
  - split.
    + destruct (contains (py "ecomenda") (get_analysis r)) eqn:Ee.
      * set (sep := if contains (py "Recomendações") (get_analysis r)
                    then py "Recomendações" else py "ecomenda") in E.
        destruct (nth_error (split sep (get_analysis r)) 1) as [section|] eqn:En;
          [|discriminate].
        set (l := fold_left _ (split nl section) []) in E.
        assert (recs = firstn 5 l) as -> by congruence.
        intros rec Hin. apply In_firstn in Hin.
        apply recommendation_lines in Hin as [Hh Hc].
        split; [exact Hh|]. eapply contains_trans; [exact Hc|].
        apply split_infix with (sep := sep). eapply nth_error_In. exact En.
      * set (l := fold_left _ (split nl (get_analysis r)) []) in E.
        assert (recs = firstn 5 l) as -> by congruence.
        intros rec Hin. apply In_firstn in Hin.
        apply recommendation_lines in Hin. exact Hin.
    + intros H1 H2. rewrite H1, H2 in Em. discriminate.
  - assert (recs = []) as -> by (cbn in E; congruence).
    split; [intros rec [] | reflexivity].
Qed.

End ExtractedText.

(** ** The agent *)

Section AgentFacts.
Context `{PyEnv}.
Import EDAAgent.

Lemma determine_cases (q : str) :
  In (_determine_analysis_type q) analysis_tags
  /\ (_determine_analysis_type q <> py "general" ->
      contains_any classifier_keywords (lower q) = true)
  /\ (_determine_analysis_type q = py "correlation" ->
      contains_any [py "correlação"; py "relação"; py "correlation";
                    py "relaciona"] (lower q) = true).
Proof.
  unfold _determine_analysis_type, classifier_keywords, contains_any.
  rewrite !existsb_app.
  generalize (existsb (fun w => contains w (lower q))
                [py "conclus"; py "aprend"; py "resumo geral";
                 py "insights gerais"]).
  generalize (existsb (fun w => contains w (lower q))
                [py "correlação"; py "relação"; py "correlation";
                 py "relaciona"]).
  generalize (existsb (fun w => contains w (lower q))
                [py "outlier"; py "anomalia"; py "atípico"; py "anomal"]).
  generalize (existsb (fun w => contains w (lower q))
                [py "cluster"; py "agrupamento"; py "grupo"; py "segmenta"]).
  generalize (existsb (fun w => contains w (lower q))
                [py "tempo"; py "temporal"; py "tendência"; py "time";
                 py "trend"]).
  generalize (existsb (fun w => contains w (lower q))
                [py "distribuição"; py "histograma"; py "distribution";
                 py "histogram"]).
  generalize (existsb (fun w => contains w (lower q))
                [py "tipo"; py "types"; py "describe"; py "resumo";
                 py "summary"]).
  intros b7 b6 b5 b4 b3 b2 b1.
  destruct b1, b2, b3, b4, b5, b6, b7;
    (split; [vm_compute; tauto|]);
    (split; [first [reflexivity | intros Hg; exfalso; apply Hg; reflexivity]
            | first [reflexivity | vm_compute; discriminate]]).
Qed.

(** Every keyword of the classifier holds a word of more than three
    characters. *)
Lemma classifier_keyword_core (kw : str) :
  In kw classifier_keywords ->
  exists core, contains core kw = true
               /\ forallb (fun c => negb (isspace c)) core = true
               /\ (3 < length core)%nat.
Proof.
  assert (Hall : forallb
                   (fun kw0 =>
                      existsb (fun core =>
                                 contains core kw0
                                 && forallb (fun c => negb (isspace c)) core
                                 && (3 <? length core)%nat)
                              (split_ws kw0))
                   classifier_keywords = true) by (vm_compute; reflexivity).
  intros Hin. rewrite forallb_forall in Hall. specialize (Hall kw Hin).
  apply existsb_exists in Hall as [core [_ Hc]].
  apply andb_true_iff in Hc as [Hc Hlen]. apply andb_true_iff in Hc as [Hc Hns].
  exists core. repeat split; [exact Hc | exact Hns | apply Nat.ltb_lt, Hlen].
Qed.

Lemma classified_has_long_word (q : str) :
  _determine_analysis_type q <> py "general" ->
  exists word, In word (split_ws (lower q)) /\ (3 < length word)%nat.
Proof.
  intros Hg. destruct (determine_cases q) as [_ [Hany _]].
  specialize (Hany Hg). unfold contains_any in Hany.
  apply existsb_exists in Hany as [kw [Hkw Hc]].
  destruct (classifier_keyword_core kw Hkw) as [core [Hcore [Hns Hlen]]].
  apply (keyword_gives_long_word core); [exact Hns | exact Hlen|].
  eapply contains_trans; eassumption.
Qed.

(** X11: what the agent classifies and what the ranker rewards fit
    together.  The classifier returns one of eight tags; a question it
    does not call "general", asked again, scores at least 2 against an
    entry made for that question; and a question it calls "correlation"
    scores the full 5 against such an entry of type "correlation". *)
Theorem classified_question_recalled (q : str) (e : AnalysisMemory) :
  question e = q ->
  In (_determine_analysis_type q) analysis_tags
  /\ (_determine_analysis_type q <> py "general" ->
      (2 <= relevance_score (lower q) e)%Z)
  /\ (_determine_analysis_type q = py "correlation" ->
      analysis_type e = py "correlation" ->
      relevance_score (lower q) e = 5%Z).
Proof.
  intros Hq. destruct (determine_cases q) as [Htag [_ Hcorr]].
  split; [exact Htag|]. split.
  - intros Hg. rewrite relevance_score_split.
    rewrite (lexical_signal_same_question q e Hq (classified_has_long_word q Hg)).
    pose proof (type_signal_nonneg (lower q) e). lia.
  - intros Hc He. rewrite relevance_score_split.
    assert (Hg : _determine_analysis_type q <> py "general")
      by (rewrite Hc; vm_compute; discriminate).
    rewrite (lexical_signal_same_question q e Hq (classified_has_long_word q Hg)).
    rewrite (type_signal_hit (lower q) e (py "correlation")
               [py "correlação"; py "relação"; py "correlation"; py "relaciona"]);
      [reflexivity | left; reflexivity | exact (Hcorr Hc) | exact He].
Qed.

Lemma get_contextual_memory_length (q : str) (n : nat)
  (memory : EnhancedSessionMemory) :
  (length (get_contextual_memory q (Z.of_nat n) memory) <= n)%nat.
Proof.
  unfold get_contextual_memory, slice_to. rewrite length_map.
  destruct (Z.leb_spec 0 (Z.of_nat n)); [|lia].
  rewrite Nat2Z.id. apply firstn_le_length.
Qed.

Lemma In_deque_append {A} (c : Z) (h : list A) (e : A) :
  (1 <= c)%Z -> In e (deque_append c h e).
Proof.
  intros Hc. unfold deque_append.
  destruct (Z.gtb_spec (Z.of_nat (length (h ++ [e]))) c) as [Hgt|Hle].
  - destruct h as [|x h]; cbn [app tl].
    + cbn in Hgt. lia.
    + apply in_or_app. right. left. reflexivity.
  - apply in_or_app. right. left. reflexivity.
Qed.

(** X12: [analyze] never loses the memory.  When the executor raises,
    the memory is returned as it was; when it answers, exactly one entry
    is stored, under the question as the user asked it (not the prompt
    with the added context) and under the classifier's tag, it is in the
    history if the bound is at least 1, and the reply reports at most
    three memories used as context. *)
Theorem analyze_effect (invoke : str -> invocation) (now q : str)
  (memory : EnhancedSessionMemory) :
  match invoke (enhanced_question_of q memory) with
  | Raised err =>
      analyze invoke now q memory
      = (memory, Failure err (py "Erro durante a análise: " ++ err))
  | Answered output plots =>
      exists e k,
        analyze invoke now q memory
        = (store_entry e memory,
           Success output plots (_determine_analysis_type q) k)
        /\ timestamp e = now /\ question e = q
        /\ analysis_type e = _determine_analysis_type q
        /\ (0 <= k <= 3)%Z
        /\ ((1 <= max_interactions memory)%Z ->
            In e (analysis_history (store_entry e memory)))
  end.
Proof.
  unfold analyze, enhanced_question_of.
  destruct (invoke (q ++ memory_context_of (get_contextual_memory q 3 memory)))
    as [output plots|err]; [|reflexivity].
  destruct (add_analysis_stores now q
              {| analysis := Some output; plots := Some plots |}
              (_determine_analysis_type q) memory)
    as [e [_ [-> [Hnow [Hq [Ht _]]]]]].
  exists e, (Z.of_nat (length (get_contextual_memory q 3 memory))).
  split; [reflexivity|]. split; [exact Hnow|]. split; [exact Hq|].
  split; [exact Ht|]. split.
  - pose proof (get_contextual_memory_length q 3 memory) as Hlen.
    change (Z.of_nat 3) with 3%Z in Hlen. lia.
  - intros Hc. cbn [store_entry analysis_history]. apply In_deque_append, Hc.
Qed.

Lemma fold_left_append {A} (line : A -> str) (l : list A) :
  forall init : str,
    fold_left (fun context x => context ++ line x) l init
    = init ++ concat (map line l).
Proof.
  induction l as [|x l IH]; intros init; cbn [fold_left map concat].
  - rewrite app_nil_r. reflexivity.
  - rewrite IH, <- app_assoc. reflexivity.
Qed.

Lemma contains_concat (x : str) (parts : list str) :
  In x parts -> contains x (concat parts) = true.
Proof.
  induction parts as [|p parts IH]; [intros []|].
  intros [->|Hin]; cbn [concat]; apply contains_spec.
  - exists [], (concat parts). reflexivity.
  - apply IH, contains_spec in Hin as [a [b E]].
    exists (p ++ a), b. rewrite E, <- app_assoc. reflexivity.
Qed.

(** X13: the prompt sent to the executor begins with the user's
    question; on an empty history it is the question itself; and for
    every recalled entry it holds a line with the entry's question and
    its first two findings. *)
Theorem enhanced_question_shape (q : str) (memory : EnhancedSessionMemory) :
  startswith (enhanced_question_of q memory) q = true
  /\ (analysis_history memory = [] -> enhanced_question_of q memory = q)
  /\ forall e, In e (get_contextual_memory q 3 memory) ->
               contains (py "- " ++ question e ++ py ": "
                         ++ join (py ", ") (firstn 2 (key_findings e)) ++ nl)
                        (enhanced_question_of q memory) = true.
Proof.
  unfold enhanced_question_of. split; [|split].
  - apply startswith_spec. eexists. reflexivity.
  - intros Hh. unfold get_contextual_memory, relevant_entries_of.
    rewrite Hh. cbn. apply app_nil_r.
  - intros e Hin. unfold memory_context_of.
    destruct (get_contextual_memory q 3 memory) as [|e0 l] eqn:El;
      [destruct Hin|].
    rewrite (fold_left_append
               (fun entry => py "- " ++ question entry ++ py ": "
                             ++ join (py ", ") (firstn 2 (key_findings entry))
                             ++ nl)).
    generalize (nl ++ nl ++ py "Contexto de análises anteriores:" ++ nl).
    intros init.
    assert (Hc : In (py "- " ++ question e ++ py ": "
                     ++ join (py ", ") (firstn 2 (key_findings e)) ++ nl)
                    (map (fun entry =>
                            py "- " ++ question entry ++ py ": "
                            ++ join (py ", ") (firstn 2 (key_findings entry))
                            ++ nl) (e0 :: l))).
    { apply in_map_iff. exists e. split; [reflexivity | exact Hin]. }
    apply contains_concat, contains_spec in Hc as [a [b Hc]].
    apply contains_spec. exists (q ++ init ++ a), b.
    rewrite <- (app_assoc q (init ++ a)), <- (app_assoc init a).
    apply (f_equal (app q)), (f_equal (app init)). exact Hc.
Qed.

(** X14: the agent's insights are at most five, and each is a line of
    the text, trimmed, whose lowercased form mentions one of the insight
    keywords; it occurs verbatim in the text. *)
Theorem insights_are_lines (text : str) :
  (length (_extract_insights text) <= 5)%nat
  /\ forall i, In i (_extract_insights text) ->
               contains i text = true
               /\ exists line,
                    In line (split nl text) /\ i = strip line
                    /\ existsb (fun keyword => contains keyword (lower line))
                               insight_keywords = true.
Proof.
  unfold _extract_insights. split; [apply firstn_le_length|].
  intros i Hin. apply In_firstn in Hin.
  rewrite (fold_left_collect
             (fun line => existsb (fun keyword => contains keyword (lower line))
                                  insight_keywords) strip) in Hin.
  cbn [app] in Hin. apply in_map_iff in Hin as [line [<- Hl]].
  apply filter_In in Hl as [Hl Hq]. split.
  - eapply contains_trans; [apply strip_infix | apply (split_infix nl), Hl].
  - exists line. repeat split; assumption.
Qed.

Lemma recommendation_fold (lines : list str) :
  forall (acc : list str) (flag : bool),
    fst (fold_left recommendation_step lines (acc, flag))
    = acc ++ map strip
               (filter (fun line => startswith (strip line) (py "-"))
                       (if flag then lines else from_marker lines)).
Proof.
  induction lines as [|line lines IH]; intros acc flag; cbn [fold_left].
  - destruct flag; cbn; rewrite app_nil_r; reflexivity.
  - unfold recommendation_step at 2. cbn [from_marker].
    destruct (contains (py "recomenda") (lower line)) eqn:Em.
    + assert (Hflag : (if flag then line :: lines else line :: lines)
                      = line :: lines) by (destruct flag; reflexivity).
      rewrite Hflag. cbn [andb filter].
      destruct (startswith (strip line) (py "-")); rewrite IH; cbn [map];
        rewrite <- ?app_assoc; reflexivity.
    + destruct flag; cbn [andb filter].
      * destruct (startswith (strip line) (py "-")); rewrite IH; cbn [map];
          rewrite <- ?app_assoc; reflexivity.
      * rewrite IH. reflexivity.
Qed.

Lemma from_marker_In (lines : list str) (l : str) :
  In l (from_marker lines) ->
  In l lines
  /\ exists m, In m lines /\ contains (py "recomenda") (lower m) = true.
Proof.
  induction lines as [|line lines IH]; cbn [from_marker]; [intros []|].
  destruct (contains (py "recomenda") (lower line)) eqn:Em.
  - intros Hin. split; [exact Hin|]. exists line. split; [left; reflexivity|exact Em].
  - intros Hin. apply IH in Hin as [Hin [m [Hm Hc]]].
    split; [right; exact Hin|]. exists m. split; [right; exact Hm | exact Hc].
Qed.

(** X15: the agent's recommendations are at most five; each is a line of
    the text, trimmed, that begins with a hyphen and stands at or after
    the first line mentioning "recomenda"; a text with no such line
    yields none. *)
Theorem agent_recommendations (text : str) :
  _extract_recommendations text
  = firstn 5 (map strip
                  (filter (fun line => startswith (strip line) (py "-"))
                          (from_marker (split nl text))))
  /\ (length (_extract_recommendations text) <= 5)%nat
  /\ (forall rec, In rec (_extract_recommendations text) ->
                  startswith rec (py "-") = true
                  /\ contains rec text = true
                  /\ exists m, In m (split nl text)
                               /\ contains (py "recomenda") (lower m) = true)
  /\ ((forall line, In line (split nl text) ->
                    contains (py "recomenda") (lower line) = false) ->
      _extract_recommendations text = []).
Proof.
  assert (E : _extract_recommendations text
              = firstn 5 (map strip
                            (filter (fun line => startswith (strip line) (py "-"))
                                    (from_marker (split nl text))))).
  { unfold _extract_recommendations. rewrite recommendation_fold. reflexivity. }
  split; [exact E|]. rewrite E. split; [apply firstn_le_length|]. split.
  - intros rec Hin. apply In_firstn in Hin.
    apply in_map_iff in Hin as [line [<- Hl]].
    apply filter_In in Hl as [Hl Hq].
    apply from_marker_In in Hl as [Hl Hm]. split; [exact Hq|]. split; [|exact Hm].
    eapply contains_trans; [apply strip_infix | apply (split_infix nl), Hl].
  - intros Hno.
    destruct (from_marker (split nl text)) as [|l rest] eqn:Ef; [reflexivity|].
    assert (Hin : In l (from_marker (split nl text)))
      by (rewrite Ef; left; reflexivity).
    apply from_marker_In in Hin as [_ [m [Hm Hc]]].
    rewrite (Hno m Hm) in Hc. discriminate.
Qed.

End AgentFacts.

(** ** What the reports say *)

Section ReportContents.
Context `{PyEnv}.

Lemma count_types_keys (h : list AnalysisMemory) (t : str) :
  In t (dict_keys (count_types h)) <-> count_of_type t h <> 0%nat.
Proof.
  rewrite <- dict_get_keys.
  destruct (count_types_fold h [] t) as [_ Hget]; [constructor|].
  cbn zeta in Hget. cbn [dict_get] in Hget. unfold count_types. rewrite Hget.
  destruct (Nat.eqb_spec (count_of_type t h) 0) as [E|E].
  - split; [congruence | intros Hn; contradiction].
  - split; [intros _; exact E | discriminate].
Qed.

Lemma existsb_str_eqb (t : str) (l : list str) :
  existsb (str_eqb t) l = true <-> In t l.
Proof.
  rewrite existsb_exists. split.
  - intros [x [Hin E]]. apply str_eqb_eq in E. subst x. exact Hin.
  - intros Hin. exists t. split; [exact Hin | apply str_eqb_refl].
Qed.

Lemma filter_none {A} (f : A -> bool) (l : list A) :
  (forall x, In x l -> f x = false) -> filter f l = [].
Proof.
  induction l as [|x l IH]; intros Hf; [reflexivity|]. cbn [filter].
  rewrite (Hf x) by (left; reflexivity). apply IH. intros y Hy.
  apply Hf. right. exact Hy.
Qed.

Lemma type_descriptions_keys : dict_keys type_descriptions = all_types.
Proof. vm_compute. reflexivity. Qed.

(** X16: section 9 of the conclusions proposes every analysis among the
    six standard types that the history holds no entry of, by its
    description under the heading of recommended analyses; when the
    history holds all six, the section is its header followed by the
    four lines of general actions. *)
Theorem missing_analyses_suggested (self : EnhancedSessionMemory) :
  analysis_history self <> [] ->
  (forall t d,
      dict_get t type_descriptions = Some d ->
      count_of_type t (analysis_history self) = 0%nat ->
      contains (py "### Análises Recomendadas:")
               (generate_comprehensive_conclusions self) = true
      /\ contains (py "- " ++ d)
                  (generate_comprehensive_conclusions self) = true)
  /\ ((forall t, In t all_types ->
                 count_of_type t (analysis_history self) <> 0%nat) ->
      section9 self
      = [header9;
         nl ++ py "### Ações Gerais:";
         py "- Validar descobertas com stakeholders";
         py "- Documentar insights para referência futura";
         py "- Considerar análises preditivas se apropriado"]).
Proof.
  intros Hh. split.
  - intros t d Hd Hc.
    assert (Ht : In t all_types).
    { rewrite <- type_descriptions_keys. apply dict_get_keys. congruence. }
    assert (Hm : In t (filter
                         (fun t => negb (existsb (str_eqb t)
                                           (dict_keys (count_types
                                                         (analysis_history self)))))
                         all_types)).
    { apply filter_In. split; [exact Ht|]. apply negb_true_iff.
      destruct (existsb (str_eqb t)
                  (dict_keys (count_types (analysis_history self)))) eqn:E;
        [|reflexivity].
      apply existsb_str_eqb, count_types_keys in E. contradiction. }
    remember (filter
                (fun t => negb (existsb (str_eqb t)
                                  (dict_keys (count_types
                                                (analysis_history self)))))
                all_types) as missing eqn:Ef.
    assert (Hsec : forall line,
               In line ([py "### Análises Recomendadas:"]
                        ++ flat_map
                             (fun mtype =>
                                match dict_get mtype type_descriptions with
                                | Some d => [py "- " ++ d]
                                | None => []
                                end)
                             (set_iter missing)) ->
               In line (section9 self)).
    { intros line Hl. unfold section9. cbn zeta. rewrite <- Ef.
      destruct missing as [|m ms]; [destruct Hm|].
      apply in_or_app. right. apply in_or_app. left. exact Hl. }
    split; apply (rendered self _ Hh), conclusions_of_In; do 9 right;
      apply Hsec.
    + left. reflexivity.
    + right. apply in_flat_map. exists t. split.
      * apply set_iter_In. exact Hm.
      * rewrite Hd. left. reflexivity.
  - intros Hall. unfold section9. cbn zeta.
    rewrite filter_none; [reflexivity|].
    intros t Ht. apply negb_false_iff, existsb_str_eqb, count_types_keys.
    apply Hall, Ht.
Qed.

Lemma fold_patterns_tracks (t : str) (ps : dict bool) :
  forall (gp : dict PatternStat) (k : str),
    In k (dict_keys ps)
    \/ (exists stat, dict_get k gp = Some stat /\ In t (analyses stat)) ->
    exists stat,
      dict_get k (fold_left
                    (fun gp '(pattern, _) => count_pattern t pattern gp) ps gp)
      = Some stat
      /\ In t (analyses stat).
Proof.
  induction ps as [|[p v] ps IH]; intros gp k Hk; cbn [fold_left].
  - destruct Hk as [[]|Hk]. exact Hk.
  - apply IH. rewrite count_pattern_eq.
    destruct (str_eqb p k) eqn:E.
    + apply str_eqb_eq in E. subst p. right. rewrite dict_get_set_same.
      eexists. split; [reflexivity|]. unfold bump. cbn [analyses].
      apply in_or_app. right. left. reflexivity.
    + apply str_eqb_neq in E. rewrite dict_get_set_other by exact E.
      destruct Hk as [[Hk|Hk]|Hk].
      * cbn [fst] in Hk. contradiction.
      * left. exact Hk.
      * right. exact Hk.
Qed.

(** A pattern whose trigger fires on the analysis text is tracked once
    the analysis is stored. *)
Lemma add_analysis_tracks (now q : str) (r : AnalysisResult) (t : str)
  (self : EnhancedSessionMemory) (k : str) (trigger : str -> bool) :
  In (k, trigger) pattern_vocabulary ->
  trigger (lower (get_analysis r)) = true ->
  exists e stat,
    add_analysis now q r t self = Some (store_entry e self)
    /\ dict_get k (global_patterns (store_entry e self)) = Some stat
    /\ In t (analyses stat).
Proof.
  intros Hin Ht.
  destruct (add_analysis_stores now q r t self)
    as [e [_ [Hadd [_ [_ [Htype Hps]]]]]].
  assert (Hk : In k (dict_keys (data_patterns e))).
  { rewrite Hps, _extract_patterns_eq. unfold dict_keys.
    rewrite map_map, map_id. apply triggered_keys_In.
    exists trigger. split; assumption. }
  destruct (fold_patterns_tracks t (data_patterns e) (global_patterns self) k
              (or_introl Hk)) as [stat [Hget Hs]].
  exists e, stat. split; [exact Hadd|]. split; [|exact Hs].
  cbn [store_entry global_patterns]. unfold _update_global_patterns.
  rewrite Htype. exact Hget.
Qed.

Lemma store_entry_history (e : AnalysisMemory) (self : EnhancedSessionMemory) :
  (1 <= max_interactions self)%Z -> analysis_history (store_entry e self) <> [].
Proof.
  intros Hc E. pose proof (In_deque_append (max_interactions self)
                             (analysis_history self) e Hc) as Hin.
  cbn [store_entry analysis_history] in E. rewrite E in Hin. destruct Hin.
Qed.

(** X17: what an analysis text mentions shows up in both reports.  When
    the trigger of a pattern of the vocabulary fires on the lowercased
    text of an analysis stored in a session that keeps at least one
    entry, the pattern is tracked with the analysis type among its
    analyses, the summary has its line with the count, and section 2 of
    the conclusions has its line with the titled name and the count. *)
Theorem mentioned_pattern_reported (now q : str) (r : AnalysisResult)
  (t : str) (self : EnhancedSessionMemory) (k : str)
  (trigger : str -> bool) :
  (1 <= max_interactions self)%Z ->
  In (k, trigger) pattern_vocabulary ->
  trigger (lower (get_analysis r)) = true ->
  exists self' stat,
    add_analysis now q r t self = Some self'
    /\ dict_get k (global_patterns self') = Some stat
    /\ In t (analyses stat)
    /\ contains (py "- " ++ k ++ py ": detectado em "
                 ++ str_of_int (count stat) ++ py " análises")
                (generate_summary self') = true
    /\ contains (py "- **" ++ title (replace (py "_") (py " ") k)
                 ++ py "**: Identificado em " ++ str_of_int (count stat)
                 ++ py " análise(s)")
                (generate_comprehensive_conclusions self') = true.
Proof.
  intros Hc Hin Ht.
  destruct (add_analysis_tracks now q r t self k trigger Hin Ht)
    as [e [stat [Hadd [Hget Hs]]]].
  exists (store_entry e self), stat.
  split; [exact Hadd|]. split; [exact Hget|]. split; [exact Hs|].
  pose proof (store_entry_history e self Hc) as Hh.
  apply dict_get_In in Hget.
  set (self' := store_entry e self) in *. split.
  - unfold generate_summary.
    destruct (analysis_history self') as [|e0 h0] eqn:Eh; [congruence|].
    apply contains_join.
    destruct (global_patterns self') as [|kv gp] eqn:Eg; [destruct Hget|].
    rewrite !in_app_iff. right. right.
    apply in_map_iff. exists (k, stat). split; [reflexivity | exact Hget].
  - apply (rendered self' _ Hh), conclusions_of_In. do 2 right; left.
    unfold section2.
    destruct (global_patterns self') as [|kv gp] eqn:Eg; [destruct Hget|].
    rewrite !in_app_iff. right. left.
    apply in_flat_map. exists (k, stat). split; [exact Hget|].
    left. reflexivity.
Qed.

Lemma tracked_get (k : str) (self : EnhancedSessionMemory) (stat : PatternStat) :
  dict_get k (global_patterns self) = Some stat -> tracked k self = true.
Proof. intros E. unfold tracked, dict_mem. rewrite E. reflexivity. Qed.

(** X18: the commentary of the conclusions follows what the stored text
    mentions: once an analysis whose lowercased text mentions outliers
    is stored, section 4 carries the outlier note; mentions of
    correlations give the correlation note of section 5; mentions of
    clusters give section 6 and mentions of trends section 7. *)
Theorem mentions_commented (now q : str) (r : AnalysisResult) (t : str)
  (self : EnhancedSessionMemory) :
  (1 <= max_interactions self)%Z ->
  exists self',
    add_analysis now q r t self = Some self'
    /\ let text := lower (get_analysis r) in
       let report := generate_comprehensive_conclusions self' in
       (contains (py "outlier") text || contains (py "atípico") text = true ->
        contains (py "- Outliers detectados: Podem indicar problemas de qualidade ou valores genuinamente extremos") report = true)
       /\ (contains (py "correlação") text || contains (py "correlation") text
           = true ->
           contains (py "- Correlações significativas foram identificadas entre variáveis") report = true)
       /\ (contains (py "cluster") text || contains (py "agrupamento") text
           = true ->
           contains header6 report = true
           /\ contains (py "- Clusters distintos foram identificados nos dados") report = true)
       /\ (contains (py "tendência") text || contains (py "trend") text
           || contains (py "padrão temporal") text = true ->
           contains header7 report = true
           /\ contains (py "- Tendências temporais foram identificadas") report = true).
Proof.
  intros Hc.
  destruct (add_analysis_stores now q r t self) as [e [_ [Hadd _]]].
  exists (store_entry e self). split; [exact Hadd|]. cbn zeta.
  pose proof (store_entry_history e self Hc) as Hh.
  assert (Htr : forall k trigger,
             In (k, trigger) pattern_vocabulary ->
             trigger (lower (get_analysis r)) = true ->
             tracked k (store_entry e self) = true).
  { intros k trigger Hin Ht.
    destruct (add_analysis_tracks now q r t self k trigger Hin Ht)
      as [e' [stat [Hadd' [Hget _]]]].
    assert (Heq : store_entry e' self = store_entry e self) by congruence.
    rewrite <- Heq. eapply tracked_get, Hget. }
  set (self' := store_entry e self) in *.
  split; [|split; [|split]].
  - intros Ht.
    assert (E : tracked (py "has_outliers") self' = true).
    { apply (Htr _ (fun t => contains (py "outlier") t
                             || contains (py "atípico") t));
        [|exact Ht].
      unfold pattern_vocabulary. cbn [In]. auto 10. }
    apply (rendered self' _ Hh), conclusions_of_In. do 4 right; left.
    unfold section4. cbn zeta. rewrite E. cbn [app].
    right. left. reflexivity.
  - intros Ht.
    assert (E : tracked (py "has_correlations") self' = true).
    { apply (Htr _ (fun t => contains (py "correlação") t
                             || contains (py "correlation") t));
        [|exact Ht].
      unfold pattern_vocabulary. cbn [In]. auto 10. }
    apply (rendered self' _ Hh), conclusions_of_In. do 5 right; left.
    unfold section5. rewrite E. cbn [app].
    right. left. reflexivity.
  - intros Ht.
    assert (E : tracked (py "has_clusters") self' = true).
    { apply (Htr _ (fun t => contains (py "cluster") t
                             || contains (py "agrupamento") t));
        [|exact Ht].
      unfold pattern_vocabulary. cbn [In]. auto 10. }
    split; apply (rendered self' _ Hh), conclusions_of_In; do 6 right; left;
      unfold section6; rewrite E.
    + left. reflexivity.
    + right. left. reflexivity.
  - intros Ht.
    assert (E : tracked (py "has_temporal_patterns") self' = true).
    { apply (Htr _ (fun t => contains (py "tendência") t
                             || contains (py "trend") t
                             || contains (py "padrão temporal") t));
        [|exact Ht].
      unfold pattern_vocabulary. cbn [In]. auto 10. }
    split; apply (rendered self' _ Hh), conclusions_of_In; do 7 right; left;
      unfold section7; rewrite E.
    + left. reflexivity.
    + right. left. reflexivity.
Qed.

(** X19: section 8 of the conclusions lists recommendations of the
    history's entries and nothing else: each of its lines is the
    header, the closing empty line, the fallback line, or a
    recommendation of an entry; no recommendation is listed twice and at
    most eight are; when the entries hold no more than eight distinct
    recommendations every one of them is in the report, and when they
    hold none the fallback line is. *)
Theorem recommendations_consolidated (self : EnhancedSessionMemory) :
  let all := flat_map recommendations (analysis_history self) in
  let listed := firstn 8 (set_iter all) in
  let fallback :=
    py "- Continue explorando os dados com análises mais específicas" in
  section8 self
  = [header8] ++ match listed with [] => [fallback] | _ => listed end ++ [[]]
  /\ NoDup listed /\ (length listed <= 8)%nat
  /\ (forall rec, In rec listed -> In rec all)
  /\ (analysis_history self <> [] ->
      (length (set_iter all) <= 8)%nat ->
      forall rec, In rec all ->
                  contains rec (generate_comprehensive_conclusions self) = true)
  /\ (analysis_history self <> [] -> all = [] ->
      contains fallback (generate_comprehensive_conclusions self) = true).
Proof.
  cbn zeta.
  assert (E8 : section8 self
               = [header8]
                 ++ match firstn 8 (set_iter (flat_map recommendations
                                                (analysis_history self))) with
                    | [] => [py "- Continue explorando os dados com análises mais específicas"]
                    | _ => firstn 8 (set_iter (flat_map recommendations
                                                 (analysis_history self)))
                    end ++ [[]]).
  { unfold section8. cbn zeta.
    rewrite (fold_left_extend recommendations). reflexivity. }
  split; [exact E8|]. split; [|split; [|split; [|split]]].
  - pose proof (set_iter_NoDup (flat_map recommendations (analysis_history self)))
      as Hnd.
    rewrite <- (firstn_skipn 8) in Hnd. apply NoDup_app_remove_r in Hnd.
    exact Hnd.
  - apply firstn_le_length.
  - intros rec Hin. apply In_firstn in Hin.
    apply (proj1 (set_iter_In _ _)) in Hin. exact Hin.
  - intros Hh Hlen rec Hin.
    apply (rendered self _ Hh), conclusions_of_In. do 8 right; left.
    rewrite E8. rewrite firstn_all2 by exact Hlen.
    apply (proj2 (set_iter_In _ _)) in Hin.
    destruct (set_iter (flat_map recommendations (analysis_history self)))
      as [|x l]; [destruct Hin|].
    rewrite !in_app_iff. right. left. exact Hin.
  - intros Hh Hall.
    apply (rendered self _ Hh), conclusions_of_In. do 8 right; left.
    rewrite E8, Hall.
    destruct (set_iter []) as [|x l] eqn:Es.
    + cbn [firstn app]. right. left. reflexivity.
    + assert (Hx : In x (set_iter [])) by (rewrite Es; left; reflexivity).
      apply (proj1 (set_iter_In _ _)) in Hx. destruct Hx.
Qed.

End ReportContents.

(** ** The memory of an agent *)

Section AgentSessions.
Context `{PyEnv}.
Import EDAAgent.

Lemma reachable_add (now q : str) (r : AnalysisResult) (t : str)
  (self self' : EnhancedSessionMemory) :
  reachable self -> add_analysis now q r t self = Some self' ->
  reachable self'.
Proof.
  intros [capacity [cs [s0 [Hi Hr]]]] Hadd.
  exists capacity, (cs ++ [AddAnalysis now q r t]), s0.
  split; [exact Hi|]. rewrite run_app, Hr. cbn [run step]. rewrite Hadd.
  reflexivity.
Qed.

Lemma analyze_memory (invoke : str -> invocation) (now q : str)
  (memory : EnhancedSessionMemory) :
  fst (analyze invoke now q memory) = memory
  \/ exists r,
       add_analysis now q r (_determine_analysis_type q) memory
       = Some (fst (analyze invoke now q memory)).
Proof.
  unfold analyze.
  destruct (invoke (q ++ memory_context_of (get_contextual_memory q 3 memory)))
    as [output plots|err]; [|left; reflexivity].
  destruct (add_analysis now q {| analysis := Some output; plots := Some plots |}
              (_determine_analysis_type q) memory) as [memory'|] eqn:E.
  - right. exists {| analysis := Some output; plots := Some plots |}.
    rewrite E. reflexivity.
  - left. reflexivity.
Qed.

Lemma agent_run_reachable (cs : list agent_call) :
  forall memory,
    reachable memory -> max_interactions memory = 100%Z ->
    exists memory',
      agent_run cs memory = Some memory'
      /\ reachable memory' /\ max_interactions memory' = 100%Z.
Proof.
  induction cs as [|c cs IH]; intros memory Hr Hm; cbn [agent_run].
  - exists memory. auto.
  - destruct c as [invoke now q|]; cbn [agent_step].
    + apply IH.
      * destruct (analyze_memory invoke now q memory) as [->|[r Hadd]];
          [exact Hr|]. eapply reachable_add; eassumption.
      * destruct (analyze_memory invoke now q memory) as [->|[r Hadd]];
          [exact Hm|].
        destruct (add_analysis_stores now q r (_determine_analysis_type q) memory)
          as [e [_ [Hadd' _]]].
        rewrite Hadd' in Hadd. injection Hadd as <-. exact Hm.
    + unfold clear_memory. cbn. apply IH; [|reflexivity].
      exists 100%Z, [], (fresh 100). split; reflexivity.
Qed.

(** X20: whatever calls of [analyze] and [clear_memory] an agent
    receives, with whatever executor answers or failures, its memory is
    a state of a session of bound 100: no call raises out of the agent,
    the memory is one that [add_analysis] and [clear] calls on a fresh
    session reach, and its history holds at most 100 entries. *)
Theorem agent_memory_is_session (cs : list agent_call) :
  exists memory,
    agent_memory_after cs = Some memory
    /\ reachable memory
    /\ max_interactions memory = 100%Z
    /\ (length (analysis_history memory) <= 100)%nat.
Proof.
  unfold agent_memory_after. cbn [__init__ Z.ltb Z.compare].
  destruct (agent_run_reachable cs (fresh 100)) as [memory [Hrun [Hr Hm]]].
  - exists 100%Z, [], (fresh 100). split; reflexivity.
  - reflexivity.
  - exists memory. split; [exact Hrun|]. split; [exact Hr|]. split; [exact Hm|].
    destruct Hr as [capacity [cs' [s0 [Hi Hrun']]]].
    pose proof (run_history_bound cs' s0 memory) as Hb.
    apply init_some in Hi as Hi'.
    destruct Hi' as [Hcap ->]. cbn [max_interactions analysis_history length] in Hb.
    specialize (Hb Hcap Hcap Hrun'). lia.
Qed.

(** X21: [clear_memory] replaces the memory by a new one of bound 100,
    where [clear] empties the memory and keeps its bound: the two agree
    exactly on a memory of bound 100, which every memory of an agent
    is. *)
Theorem clear_memory_vs_clear (self : EnhancedSessionMemory) :
  clear_memory = Some (fresh 100)
  /\ (clear_memory = Some (clear self) <-> max_interactions self = 100%Z)
  /\ (forall cs memory,
         agent_memory_after cs = Some memory ->
         clear_memory = Some (clear memory)).
Proof.
  assert (E : clear_memory = Some (fresh 100)) by reflexivity.
  assert (Hiff : forall s, clear_memory = Some (clear s)
                           <-> max_interactions s = 100%Z).
  { intros s. rewrite E. unfold clear, fresh. split.
    - intros Heq. injection Heq as Heq. symmetry. exact Heq.
    - intros ->. reflexivity. }
  split; [exact E|]. split; [apply Hiff|].
  intros cs memory Hrun. apply Hiff.
  destruct (agent_run_reachable cs (fresh 100)) as [memory' [Hrun' [_ Hm]]].
  - exists 100%Z, [], (fresh 100). split; reflexivity.
  - reflexivity.
  - unfold agent_memory_after in Hrun. cbn [__init__ Z.ltb Z.compare] in Hrun.
    change (agent_run cs (fresh 100) = Some memory) in Hrun.
    congruence.
Qed.

End AgentSessions.

(** ** The further properties at concrete sessions *)

Section ConcreteExtras.
Local Existing Instance latin1_env.

Lemma one_correlation_run :
  run [correlation_call] (fresh 100) = Some one_correlation.
Proof. vm_compute. reflexivity. Qed.

Lemma one_correlation_reachable : reachable one_correlation.
Proof.
  exists 100%Z, [correlation_call], (fresh 100).
  split; [reflexivity | exact one_correlation_run].
Qed.

Lemma two_types_reachable : reachable two_types.
Proof.
  exists 100%Z, [correlation_call; outlier_call], (fresh 100).
  split; [reflexivity | vm_compute; reflexivity].
Qed.

Lemma one_correlation_history :
  analysis_history one_correlation = [correlation_entry].
Proof. vm_compute. reflexivity. Qed.

Lemma one_correlation_tracked :
  dict_get (py "has_correlations") (global_patterns one_correlation)
  = Some {| count := 1; analyses := [py "correlation"] |}.
Proof. vm_compute. reflexivity. Qed.

Lemma history_within_capacity_witness :
  __init__ 100 = Some (fresh 100)
  /\ run [correlation_call] (fresh 100) = Some one_correlation
  /\ max_interactions one_correlation = 100%Z
  /\ (Z.of_nat (length (analysis_history one_correlation)) <= 100)%Z.
Proof.
  split; [reflexivity|]. split; [exact one_correlation_run|].
  exact (history_within_capacity 100 [correlation_call] (fresh 100)
           one_correlation eq_refl one_correlation_run).
Defined.

Lemma clear_forgets_witness :
  __init__ 100 = Some (fresh 100)
  /\ run ([correlation_call; outlier_call] ++ Clear :: [summary_call])
         (fresh 100)
     = run [summary_call] (fresh 100).
Proof.
  split; [reflexivity|].
  exact (clear_forgets 100 (fresh 100) [correlation_call; outlier_call]
           [summary_call] eq_refl).
Defined.

Lemma buckets_well_formed_witness :
  reachable two_types
  /\ exists b,
       dict_get (py "outlier") (data_insights two_types) = Some b
       /\ (1 <= insight_count b)%Z
       /\ last_analysis b <> None
       /\ (Z.of_nat (length (insight_key_findings b)) <= 3 * insight_count b)%Z
       /\ forall k, In k (dict_keys (insight_patterns b)) ->
                    In k (map fst pattern_vocabulary).
Proof.
  split; [exact two_types_reachable|].
  pose (b := match dict_get (py "outlier") (data_insights two_types) with
             | Some b => b
             | None => new_bucket
             end).
  assert (Hg : dict_get (py "outlier") (data_insights two_types) = Some b)
    by (vm_compute; reflexivity).
  exists b. split; [exact Hg|].
  exact (buckets_well_formed two_types (py "outlier") b two_types_reachable Hg).
Defined.

Lemma history_counted_witness :
  reachable two_types
  /\ (forall t, (Z.of_nat (count_of_type t (analysis_history two_types))
                 <= insight_count_of t (data_insights two_types))%Z)
  /\ (forall e, In e (analysis_history two_types) ->
                dict_get (analysis_type e) (data_insights two_types) <> None).
Proof.
  split; [exact two_types_reachable|].
  exact (history_counted two_types two_types_reachable).
Defined.

Lemma tracked_patterns_known_witness :
  reachable one_correlation
  /\ dict_get (py "has_correlations") (global_patterns one_correlation)
     = Some {| count := 1; analyses := [py "correlation"] |}
  /\ In (py "has_correlations") (map fst pattern_vocabulary)
  /\ forall t, In t (analyses {| count := 1; analyses := [py "correlation"] |}) ->
               dict_get t (data_insights one_correlation) <> None.
Proof.
  split; [exact one_correlation_reachable|].
  split; [exact one_correlation_tracked|].
  exact (tracked_patterns_known one_correlation (py "has_correlations") _
           one_correlation_reachable one_correlation_tracked).
Defined.

Lemma reports_count_types_witness :
  In correlation_entry (analysis_history one_correlation)
  /\ contains (py "- " ++ analysis_type correlation_entry ++ py ": "
               ++ str_of_int
                    (Z.of_nat (count_of_type (analysis_type correlation_entry)
                                 (analysis_history one_correlation)))
               ++ py " análises")
              (generate_summary one_correlation) = true
  /\ contains (py "Total de análises: "
               ++ str_of_int
                    (Z.of_nat (length (analysis_history one_correlation)))
               ++ nl)
              (generate_summary one_correlation) = true
  /\ contains (py "- **" ++ analysis_type correlation_entry ++ py "**: "
               ++ str_of_int
                    (Z.of_nat (count_of_type (analysis_type correlation_entry)
                                 (analysis_history one_correlation)))
               ++ py " análise(s)")
              (generate_comprehensive_conclusions one_correlation) = true.
Proof.
  assert (Hin : In correlation_entry (analysis_history one_correlation))
    by (rewrite one_correlation_history; left; reflexivity).
  split; [exact Hin|].
  exact (reports_count_types one_correlation correlation_entry Hin).
Defined.

Lemma same_question_recalled_witness :
  In correlation_entry (analysis_history one_correlation)
  /\ question correlation_entry = correlation_question
  /\ (exists word, In word (split_ws (lower correlation_question))
                   /\ (3 < length word)%nat)
  /\ (2 <= relevance_score (lower correlation_question) correlation_entry)%Z
  /\ forall n, (Z.of_nat (length (analysis_history one_correlation)) <= n)%Z ->
               In correlation_entry
                  (get_contextual_memory correlation_question n one_correlation).
Proof.
  assert (Hin : In correlation_entry (analysis_history one_correlation))
    by (rewrite one_correlation_history; left; reflexivity).
  assert (Hword : exists word,
             In word (split_ws (lower correlation_question))
             /\ (3 < length word)%nat).
  { exists (py "existe"). split; [vm_compute; left; reflexivity|].
    vm_compute. lia. }
  assert (Hq : question correlation_entry = correlation_question)
    by reflexivity.
  split; [exact Hin|]. split; [exact Hq|]. split; [exact Hword|].
  exact (same_question_recalled one_correlation correlation_question
           correlation_entry Hin Hq Hword).
Defined.

Lemma key_findings_are_lines_witness :
  In (py "- media alta") (_extract_key_findings findings_text)
  /\ contains (py "- media alta") (get_analysis findings_text) = true
  /\ exists line,
       In line (split nl (get_analysis findings_text))
       /\ py "- media alta" = strip line
       /\ (startswith (py "- media alta") (py "-")
           || startswith (py "- media alta") (py "•")
           || existsb (fun keyword => contains keyword (lower line))
                      discovery_keywords) = true.
Proof.
  assert (Hin : In (py "- media alta") (_extract_key_findings findings_text))
    by (vm_compute; left; reflexivity).
  split; [exact Hin|].
  exact (key_findings_are_lines findings_text (py "- media alta") Hin).
Defined.

Lemma classified_question_recalled_witness :
  question correlation_entry = correlation_question
  /\ In (EDAAgent._determine_analysis_type correlation_question) analysis_tags
  /\ (EDAAgent._determine_analysis_type correlation_question <> py "general" ->
      (2 <= relevance_score (lower correlation_question) correlation_entry)%Z)
  /\ (EDAAgent._determine_analysis_type correlation_question = py "correlation" ->
      analysis_type correlation_entry = py "correlation" ->
      relevance_score (lower correlation_question) correlation_entry = 5%Z).
Proof.
  assert (Hq : question correlation_entry = correlation_question)
    by reflexivity.
  split; [exact Hq|].
  exact (classified_question_recalled correlation_question correlation_entry
           Hq).
Defined.

Lemma missing_analyses_suggested_witness :
  analysis_history one_summary <> []
  /\ (forall t d,
         dict_get t type_descriptions = Some d ->
         count_of_type t (analysis_history one_summary) = 0%nat ->
         contains (py "### Análises Recomendadas:")
                  (generate_comprehensive_conclusions one_summary) = true
         /\ contains (py "- " ++ d)
                     (generate_comprehensive_conclusions one_summary) = true)
  /\ ((forall t, In t all_types ->
                 count_of_type t (analysis_history one_summary) <> 0%nat) ->
      section9 one_summary
      = [header9;
         nl ++ py "### Ações Gerais:";
         py "- Validar descobertas com stakeholders";
         py "- Documentar insights para referência futura";
         py "- Considerar análises preditivas se apropriado"]).
Proof.
  assert (Hh : analysis_history one_summary <> []) by discriminate.
  split; [exact Hh|].
  exact (missing_analyses_suggested one_summary Hh).
Defined.

Lemma mentioned_pattern_reported_witness :
  (1 <= max_interactions (fresh 100))%Z
  /\ In (py "has_correlations",
         fun t => contains (py "correlação") t || contains (py "correlation") t)
        pattern_vocabulary
  /\ (contains (py "correlação") (lower (get_analysis strong_text))
      || contains (py "correlation") (lower (get_analysis strong_text))) = true
  /\ exists self' stat,
       add_analysis stamp correlation_question strong_text (py "correlation")
                    (fresh 100) = Some self'
       /\ dict_get (py "has_correlations") (global_patterns self') = Some stat
       /\ In (py "correlation") (analyses stat)
       /\ contains (py "- " ++ py "has_correlations" ++ py ": detectado em "
                    ++ str_of_int (count stat) ++ py " análises")
                   (generate_summary self') = true
       /\ contains (py "- **"
                    ++ title (replace (py "_") (py " ") (py "has_correlations"))
                    ++ py "**: Identificado em " ++ str_of_int (count stat)
                    ++ py " análise(s)")
                   (generate_comprehensive_conclusions self') = true.
Proof.
  assert (Hc : (1 <= max_interactions (fresh 100))%Z) by (cbn; lia).
  assert (Hin : In (py "has_correlations",
                    fun t => contains (py "correlação") t
                             || contains (py "correlation") t)
                   pattern_vocabulary) by (left; reflexivity).
  assert (Ht : (contains (py "correlação") (lower (get_analysis strong_text))
                || contains (py "correlation") (lower (get_analysis strong_text)))
               = true) by (vm_compute; reflexivity).
  split; [exact Hc|]. split; [exact Hin|]. split; [exact Ht|].
  exact (mentioned_pattern_reported stamp correlation_question strong_text
           (py "correlation") (fresh 100) (py "has_correlations")
           (fun t => contains (py "correlação") t
                     || contains (py "correlation") t) Hc Hin Ht).
Defined.

Lemma mentions_commented_witness :
  (1 <= max_interactions (fresh 100))%Z
  /\ exists self',
       add_analysis stamp correlation_question strong_text (py "correlation")
                    (fresh 100) = Some self'
       /\ (contains (py "outlier") (lower (get_analysis strong_text))
           || contains (py "atípico") (lower (get_analysis strong_text)) = true ->
           contains (py "- Outliers detectados: Podem indicar problemas de qualidade ou valores genuinamente extremos")
                    (generate_comprehensive_conclusions self') = true)
       /\ (contains (py "correlação") (lower (get_analysis strong_text))
           || contains (py "correlation") (lower (get_analysis strong_text))
           = true ->
           contains (py "- Correlações significativas foram identificadas entre variáveis")
                    (generate_comprehensive_conclusions self') = true)
       /\ (contains (py "cluster") (lower (get_analysis strong_text))
           || contains (py "agrupamento") (lower (get_analysis strong_text))
           = true ->
           contains header6 (generate_comprehensive_conclusions self') = true
           /\ contains (py "- Clusters distintos foram identificados nos dados")
                       (generate_comprehensive_conclusions self') = true)
       /\ (contains (py "tendência") (lower (get_analysis strong_text))
           || contains (py "trend") (lower (get_analysis strong_text))
           || contains (py "padrão temporal") (lower (get_analysis strong_text))
           = true ->
           contains header7 (generate_comprehensive_conclusions self') = true
           /\ contains (py "- Tendências temporais foram identificadas")
                       (generate_comprehensive_conclusions self') = true).
Proof.
  assert (Hc : (1 <= max_interactions (fresh 100))%Z) by (cbn; lia).
  split; [exact Hc|].
  exact (mentions_commented stamp correlation_question strong_text
           (py "correlation") (fresh 100) Hc).
Defined.

End ConcreteExtras.
